(** * Recipe generator: result shaping, search filter, ingredient gate and
      the recipe-creation wizard

    A shallow embedding of the client utilities ([utils/utils.ts]), of the
    [NewIngredientDialog] submit handler, of the [Navigation] wizard of the
    recipe-creation page and of the id rewriting of the [save-recipes] API
    handler; of the ingredient combobox, the views of the profile page and
    the delete and like handlers of the recipe cards; and of the API
    routes [delete-recipe], [like-recipe], [validate-ingredient] and
    [save-recipes] over the collections they work on; followed by the
    properties established about them. *)

From Stdlib Require Import ZArith List Bool String Ascii Lia DecimalString
  DecimalNat Permutation.
Import ListNotations.

Local Open Scope string_scope.
Local Open Scope list_scope.

(* ===================================================================== *)
(** ** The JavaScript built-ins the code relies on *)
(* ===================================================================== *)

(** Strings are sequences of code units; the embedding covers the ASCII
    range, on which [toLowerCase] and [trim] act as below. *)
Module JS.

(** [String.prototype.toLowerCase]: the letters [A]..[Z] are mapped to
    [a]..[z], every other code unit is kept. *)
Definition lowerChar (c : ascii) : ascii :=
  let n := nat_of_ascii c in
  if (65 <=? n)%nat && (n <=? 90)%nat then ascii_of_nat (n + 32) else c.

Fixpoint toLowerCase (s : string) : string :=
  match s with
  | EmptyString => EmptyString
  | String c s' => String (lowerChar c) (toLowerCase s')
  end.

(** White space and line terminators stripped by [String.prototype.trim]:
    TAB, LF, VT, FF, CR and SPACE. *)
Definition isWhiteSpace (c : ascii) : bool :=
  let n := nat_of_ascii c in
  ((9 <=? n)%nat && (n <=? 13)%nat) || (n =? 32)%nat.

Fixpoint trimStart (s : string) : string :=
  match s with
  | EmptyString => EmptyString
  | String c s' => if isWhiteSpace c then trimStart s' else s
  end.

Fixpoint trimEnd (s : string) : string :=
  match s with
  | EmptyString => EmptyString
  | String c s' =>
      match trimEnd s' with
      | EmptyString => if isWhiteSpace c then EmptyString
                       else String c EmptyString
      | t => String c t
      end
  end.

Definition trim (s : string) : string := trimEnd (trimStart s).

(** [s.includes(sub)]: [sub] occurs in [s] as a contiguous substring. *)
Fixpoint includes (s sub : string) : bool :=
  String.prefix sub s
  || match s with
     | EmptyString => false
     | String _ s' => includes s' sub
     end.

(** [s.split(sep)] for a separator of one code unit. *)
Fixpoint split (sep : ascii) (s : string) : list string :=
  match s with
  | EmptyString => [EmptyString]
  | String c s' =>
      if Ascii.eqb c sep then EmptyString :: split sep s'
      else match split sep s' with
           | seg :: segs => String c seg :: segs
           | [] => [String c EmptyString]
           end
  end.

(** The template literal [`${n}`] of a non-negative integer. *)
Definition numberToString (n : nat) : string :=
  NilZero.string_of_uint (Nat.to_uint n).

(** Truthiness of a string: only the empty string is falsy. *)
Definition truthy (s : string) : bool :=
  match s with EmptyString => false | _ => true end.

Section Arrays.
Context {A : Type}.

Fixpoint findIndexFrom (p : A -> bool) (l : list A) (i : Z) : Z :=
  match l with
  | [] => (-1)%Z
  | x :: l' => if p x then i else findIndexFrom p l' (i + 1)%Z
  end.

(** [arr.findIndex(p)]: index of the first element satisfying [p],
    [-1] when there is none. *)
Definition findIndex (p : A -> bool) (l : list A) : Z :=
  findIndexFrom p l 0%Z.

(** Resolution of a relative index against the array length, as
    [Array.prototype.slice] does: a negative index counts from the end
    and both are clamped to [0..len]. *)
Definition relativeIndex (len k : Z) : Z :=
  if (k <? 0)%Z then Z.max (len + k) 0 else Z.min k len.

(** [arr.slice(start, end)]; [None] stands for an omitted [end]. *)
Definition slice (l : list A) (start : Z) (end_ : option Z) : list A :=
  let len := Z.of_nat (List.length l) in
  let k := relativeIndex len start in
  let final := match end_ with
               | None => len
               | Some e => relativeIndex len e
               end in
  firstn (Z.to_nat (final - k)) (skipn (Z.to_nat k) l).

(** [arr.some(p)] *)
Definition some (p : A -> bool) (l : list A) : bool := existsb p l.

(** [Boolean(arr.length)] *)
Definition nonEmpty (l : list A) : bool :=
  negb (List.length l =? 0)%nat.
End Arrays.

(** [arr.includes(s)] on an array of strings *)
Definition arrayIncludes (l : list string) (s : string) : bool :=
  existsb (String.eqb s) l.

End JS.

(* ===================================================================== *)
(** ** types/index.ts *)
(* ===================================================================== *)

Module Types.

Record Ingredient := {
  ingredient_name : string;
  ingredient_quantity : option Z;
  ingredient_id : string
}.

Inductive DietaryPreference :=
| Vegetarian | Vegan | GlutenFree | Keto | Paleo.

Definition DietaryPreference_eqb (a b : DietaryPreference) : bool :=
  match a, b with
  | Vegetarian, Vegetarian | Vegan, Vegan | GlutenFree, GlutenFree
  | Keto, Keto | Paleo, Paleo => true
  | _, _ => false
  end.

Record RecipeIngredient := {
  ri_name : string;
  ri_quantity : string
}.

Record AdditionalInformation := {
  tips : string;
  variations : string;
  servingSuggestions : string;
  nutritionalInformation : string
}.

Record Recipe := {
  name : string;
  ingredients : list RecipeIngredient;
  instructions : list string;
  dietaryPreference : list string;
  additionalInformation : AdditionalInformation;
  openaiPromptId : string
}.

(** A populated user reference.  The type of the source names [_id],
    [name] and [image]; the objects that reach [filterResults] are
    populated user documents, whose further own properties are kept in
    [user_rest]. *)
Record UserRef := {
  user_id : string;
  user_name : string;
  user_image : string;
  user_rest : list (string * string)
}.

(** [ExtendedRecipe extends Recipe] *)
Record ExtendedRecipe := {
  recipe : Recipe;
  _id : string;
  imgLink : string;
  owner : UserRef;
  createdAt : string;
  updatedAt : string;
  likedBy : list UserRef;
  owns : bool;
  liked : bool
}.

Record IngredientDocumentType := {
  doc_id : string;
  doc_name : string;
  createdBy : option string;
  doc_createdAt : string
}.

Record UploadReturnType := {
  location : string;
  uploaded : bool
}.

End Types.

(* ===================================================================== *)
(** ** utils/utils.ts *)
(* ===================================================================== *)

Module Utils.
Import Types.

(** The object literal [{ _id, name, image }] built from a user. *)
Definition pickUser (u : UserRef) : UserRef :=
  {| user_id := user_id u;
     user_name := user_name u;
     user_image := user_image u;
     user_rest := [] |}.

Definition filterResults (recipes : list ExtendedRecipe) (userId : string)
  : list ExtendedRecipe :=
  map (fun r =>
         {| recipe := recipe r;
            _id := _id r;
            imgLink := imgLink r;
            createdAt := createdAt r;
            updatedAt := updatedAt r;
            owner := pickUser (owner r);
            likedBy := map pickUser (likedBy r);
            owns := String.eqb (user_id (owner r)) userId;
            liked := JS.some (fun l => String.eqb (user_id l) userId)
                             (likedBy r) |})
      recipes.

(** [p._id === x] where [x] may be [undefined] *)
Definition strictEq (s : string) (x : option string) : bool :=
  match x with
  | Some t => String.eqb s t
  | None => false
  end.

Definition updateRecipeList (oldList : list ExtendedRecipe)
           (newRecipe : option ExtendedRecipe) (deleteId : option string)
  : list ExtendedRecipe :=
  let indexOfUpdate :=
    JS.findIndex
      (fun p => strictEq (_id p)
                  (match newRecipe with
                   | Some n => Some (_id n)
                   | None => deleteId
                   end))
      oldList in
  match newRecipe with
  | Some n =>
      JS.slice oldList 0 (Some indexOfUpdate)
        ++ [n]
        ++ JS.slice oldList (indexOfUpdate + 1) None
  | None =>
      JS.slice oldList 0 (Some indexOfUpdate)
        ++ JS.slice oldList (indexOfUpdate + 1) None
  end.

(** The predicate handed to [recipes.filter] by [getFilteredRecipes]. *)
Definition isFound (search : string) (r : ExtendedRecipe) : bool :=
  let isFoundInName :=
    JS.includes (JS.toLowerCase (name (recipe r))) search in
  let isFoundInIngredients :=
    filter (fun ingredient =>
              JS.includes (JS.toLowerCase (ri_name ingredient)) search)
           (ingredients (recipe r)) in
  let isFoundInDiets :=
    filter (fun diet => JS.includes (JS.toLowerCase diet) search)
           (dietaryPreference (recipe r)) in
  isFoundInName
  || JS.nonEmpty isFoundInIngredients
  || JS.nonEmpty isFoundInDiets.

Definition getFilteredRecipes (recipes : list ExtendedRecipe)
           (search : option string) : list ExtendedRecipe :=
  match search with
  | None => recipes
  | Some s =>
      if negb (JS.truthy s) then recipes
      else filter (isFound s) recipes
  end.

End Utils.

(* ===================================================================== *)
(** ** Handlers: state, exceptions and [try]/[catch]/[finally] *)
(* ===================================================================== *)

(** An event handler is a program over the component state [W] that either
    completes normally or throws. *)
Module Eff.

Inductive Completion (A : Type) : Type :=
| Normal (a : A)
| Thrown.
Arguments Normal {A} a.
Arguments Thrown {A}.

Definition t (W A : Type) : Type := W -> Completion A * W.

Section Ops.
Context {W : Type}.

Definition ret {A} (a : A) : t W A := fun w => (Normal a, w).

Definition bind {A B} (m : t W A) (k : A -> t W B) : t W B :=
  fun w =>
    match m w with
    | (Normal a, w') => k a w'
    | (Thrown, w') => (Thrown, w')
    end.

Definition throw {A} : t W A := fun w => (Thrown, w).

Definition get : t W W := fun w => (Normal w, w).

Definition modify (f : W -> W) : t W unit := fun w => (Normal tt, f w).

(** [try { body } catch { handler }] *)
Definition tryCatch {A} (body handler : t W A) : t W A :=
  fun w =>
    match body w with
    | (Normal a, w') => (Normal a, w')
    | (Thrown, w') => handler w'
    end.

(** [try { body } catch { handler } finally { final }] *)
Definition tryCatchFinally {A} (body handler : t W A) (final : t W unit)
  : t W A :=
  fun w =>
    match tryCatch body handler w with
    | (c, w') =>
        match final w' with
        | (Normal _, w'') => (c, w'')
        | (Thrown, w'') => (Thrown, w'')
        end
    end.

(** The state a handler leaves behind. *)
Definition exec {A} (m : t W A) (w : W) : W := snd (m w).
End Ops.

(** What a promise settles to. *)
Inductive Settled (R : Type) : Type :=
| Resolved (r : R)
| Rejected.
Arguments Resolved {R} r.
Arguments Rejected {R}.

(** [await p] *)
Definition await {W R} (p : Settled R) : t W R :=
  match p with
  | Resolved r => ret r
  | Rejected => throw
  end.

End Eff.

Declare Scope eff_scope.
Delimit Scope eff_scope with eff.
Notation "x <- m ;; k" := (Eff.bind m (fun x => k))
  (at level 61, m at next level, right associativity) : eff_scope.
Notation "m ;; k" := (Eff.bind m (fun _ => k))
  (at level 61, right associativity) : eff_scope.

(* ===================================================================== *)
(** ** pages/Home.tsx: the search box *)
(* ===================================================================== *)

Module Home.
Import Types.

Definition handleSearch (latestRecipes : list ExtendedRecipe)
           (searchVal : string) : list ExtendedRecipe :=
  Utils.getFilteredRecipes latestRecipes
    (Some (JS.toLowerCase (JS.trim searchVal))).

End Home.

(* ===================================================================== *)
(** ** components/Recipe_Creation/NewIngredientDialog.tsx *)
(* ===================================================================== *)

Module NewIngredientDialog.
Import Types.
Local Open Scope eff_scope.

(** The body of the answer of [/api/validate-ingredient], as the handler
    reads it; a property that is absent is [None]. *)
Record Response := {
  resp_message : option string;
  resp_error : option string;
  resp_newIngredient : option IngredientDocumentType;
  resp_suggested : option (list string)
}.

(** The state of the dialog, the catalog state of the enclosing
    [IngredientForm] that [updateIngredientList] appends to, and the
    requests made through [call_api] (address and [ingredientName] of the
    payload), oldest first. *)
Record Dialog := {
  isOpen : bool;
  ingredientName : string;
  isLoading : bool;
  message : string;
  isDisabled : bool;
  ingredientList : list IngredientDocumentType;
  requests : list (string * string)
}.

Definition setIngredientName (v : string) : Eff.t Dialog unit :=
  Eff.modify (fun d =>
    {| isOpen := isOpen d; ingredientName := v; isLoading := isLoading d;
       message := message d; isDisabled := isDisabled d;
       ingredientList := ingredientList d; requests := requests d |}).

Definition setIsLoading (v : bool) : Eff.t Dialog unit :=
  Eff.modify (fun d =>
    {| isOpen := isOpen d; ingredientName := ingredientName d;
       isLoading := v; message := message d; isDisabled := isDisabled d;
       ingredientList := ingredientList d; requests := requests d |}).

Definition setMessage (v : string) : Eff.t Dialog unit :=
  Eff.modify (fun d =>
    {| isOpen := isOpen d; ingredientName := ingredientName d;
       isLoading := isLoading d; message := v; isDisabled := isDisabled d;
       ingredientList := ingredientList d; requests := requests d |}).

Definition setIsDisabled (v : bool) : Eff.t Dialog unit :=
  Eff.modify (fun d =>
    {| isOpen := isOpen d; ingredientName := ingredientName d;
       isLoading := isLoading d; message := message d; isDisabled := v;
       ingredientList := ingredientList d; requests := requests d |}).

(** The prop handed over by [IngredientForm]:
    [(newIngredient) => setIngredientList([...ingredientList, newIngredient])] *)
Definition updateIngredientList (newIngredient : IngredientDocumentType)
  : Eff.t Dialog unit :=
  Eff.modify (fun d =>
    {| isOpen := isOpen d; ingredientName := ingredientName d;
       isLoading := isLoading d; message := message d;
       isDisabled := isDisabled d;
       ingredientList := ingredientList d ++ [newIngredient];
       requests := requests d |}).

(** [await call_api({ address, method: 'post', payload: { ingredientName } })]:
    the request is recorded and the promise settles as the server decides;
    [call_api] rethrows a failed request. *)
Definition call_api (address payload : string)
           (answer : Eff.Settled Response) : Eff.t Dialog Response :=
  Eff.modify (fun d =>
    {| isOpen := isOpen d; ingredientName := ingredientName d;
       isLoading := isLoading d; message := message d;
       isDisabled := isDisabled d; ingredientList := ingredientList d;
       requests := requests d ++ [(address, payload)] |}) ;;
  Eff.await answer.

(** [arr.join(', ')] *)
Fixpoint join (l : list string) : string :=
  match l with
  | [] => ""
  | [s] => s
  | s :: l' => s ++ ", " ++ join l'
  end.

(** [`${x}`] for a possibly undefined string *)
Definition template (x : option string) : string :=
  match x with Some s => s | None => "undefined" end.

Definition optTruthy (x : option string) : bool :=
  match x with Some s => JS.truthy s | None => false end.

Definition optEq (x : option string) (s : string) : bool :=
  match x with Some t => String.eqb t s | None => false end.

Section WithPluralize.
(** The third-party [pluralize] package: [pluralize(word)] and
    [pluralize.singular(word)]. *)
Variable pluralize : string -> string.
Variable singular : string -> string.

(** [isAvailable], as computed by [handleSubmit] from the input and the
    catalog it holds. *)
Definition isAvailable (ingredientName : string)
           (ingredientList : list IngredientDocumentType) : bool :=
  let ingredient := JS.toLowerCase (JS.trim ingredientName) in
  let availableIngredients :=
    map (fun i => JS.toLowerCase (doc_name i)) ingredientList in
  let pluralizedIngredient := pluralize ingredient in
  let singularizedIngredient := singular ingredient in
  JS.arrayIncludes availableIngredients ingredient
  || JS.arrayIncludes availableIngredients pluralizedIngredient
  || JS.arrayIncludes availableIngredients singularizedIngredient.

Definition handleSubmit (answer : Eff.Settled Response)
  : Eff.t Dialog unit :=
  d <- Eff.get ;;
  let ingredientName := ingredientName d in
  if negb (JS.truthy (JS.trim ingredientName)) then Eff.ret tt
  else if (20 <? String.length (JS.trim ingredientName))%nat then
    setMessage "This ingredient name is too long!" ;;
    setIsDisabled true
  else if isAvailable ingredientName (ingredientList d) then
    setMessage "This ingredient is already available" ;;
    setIsDisabled true
  else
    setIsLoading true ;;
    Eff.tryCatchFinally
      (response <- call_api "/api/validate-ingredient" ingredientName
                            answer ;;
       let responseMessage := resp_message response in
       if optTruthy (resp_error response) then Eff.throw
       else if optEq responseMessage "Success" then
         match resp_newIngredient response with
         | None => Eff.throw
         | Some newIngredient =>
             setMessage ("Successfully added: " ++ doc_name newIngredient) ;;
             updateIngredientList newIngredient ;;
             setIngredientName ""
         end
       else if optEq responseMessage "Invalid" then
         match resp_suggested response with
         | None => Eff.throw
         | Some suggested =>
             let possibleSuggestions := join suggested in
             setMessage
               (ingredientName ++ " is invalid. "
                ++ (if JS.truthy possibleSuggestions
                    then "Try the following suggestions: "
                           ++ possibleSuggestions
                    else "")) ;;
             setIngredientName ""
         end
       else
         setMessage
           ("An error occurred with validation... check back later: "
            ++ template responseMessage) ;;
         setIngredientName "")
      (setMessage "Failed to add ingredient")
      (setIsLoading false).
End WithPluralize.

End NewIngredientDialog.

(* ===================================================================== *)
(** ** pages/api/save-recipes.ts *)
(* ===================================================================== *)

Module SaveRecipes.
Import Types.

(** A document handed to [recipe.insertMany]: the recipe with its
    rewritten [openaiPromptId], the owner and the image link. *)
Record RecipeToInsert := {
  doc : Recipe;
  doc_owner : string;
  doc_imgLink : string
}.

Definition getS3Link (uploadResults : option (list UploadReturnType))
           (loc : string) : string :=
  let fallbackImg := "/logo.svg" in
  match uploadResults with
  | None => fallbackImg
  | Some results =>
      let filteredResult :=
        filter (fun result => String.eqb (location result) loc) results in
      match filteredResult with
      | first :: _ =>
          if uploaded first
          then "https://smart-recipe-generator.s3.amazonaws.com/" ++ loc
          else fallbackImg
      | [] => fallbackImg
      end
  end.

(** [r.openaiPromptId.split('-')[0]]; [split] never returns an empty
    array, the default is not reached. *)
Definition removeClientKey (openaiPromptId : string) : string :=
  nth 0 (JS.split "-" openaiPromptId) "".

Definition updatedRecipes (recipes : list Recipe) (sessionUserId : string)
           (uploadResults : option (list UploadReturnType))
  : list RecipeToInsert :=
  map (fun r =>
         {| doc := {| name := name r;
                      ingredients := ingredients r;
                      instructions := instructions r;
                      dietaryPreference := dietaryPreference r;
                      additionalInformation := additionalInformation r;
                      openaiPromptId :=
                        removeClientKey (openaiPromptId r) |};
            doc_owner := sessionUserId;
            doc_imgLink := getS3Link uploadResults (openaiPromptId r) |})
      recipes.

End SaveRecipes.

(* ===================================================================== *)
(** ** pages/CreateRecipe.tsx: the [Navigation] wizard *)
(* ===================================================================== *)

Module Navigation.
Import Types.
Local Open Scope eff_scope.
Local Open Scope Z_scope.

Definition steps : list string :=
  ["Choose Ingredients"; "Choose Diet"; "Review and Create Recipes";
   "Select Recipes"; "Review and Save Recipes"].

Definition steps_length : Z := Z.of_nat (List.length steps).

(** What the handlers do besides updating the state, in program order. *)
Inductive Event :=
| SetIsLoading (b : bool)
| CallApi (address : string)
| RouterPush (path : string)
| ConsoleLog.

(** The [useState] cells of [Navigation], and the log of events. *)
Record State := {
  step : Z;
  ingredients : list Ingredient;
  preferences : list DietaryPreference;
  generatedRecipes : list Recipe;
  selectedRecipeIds : list string;
  isLoading : bool;
  log : list Event
}.

Definition initialIngridients : list Ingredient := [].
Definition initialPreferences : list DietaryPreference := [].
Definition initialRecipes : list Recipe := [].
Definition initialSelectedIds : list string := [].

Definition emit (e : Event) : Eff.t State unit :=
  Eff.modify (fun s =>
    {| step := step s; ingredients := ingredients s;
       preferences := preferences s;
       generatedRecipes := generatedRecipes s;
       selectedRecipeIds := selectedRecipeIds s;
       isLoading := isLoading s; log := log s ++ [e] |}).

Definition setStep (v : Z) : Eff.t State unit :=
  Eff.modify (fun s =>
    {| step := v; ingredients := ingredients s;
       preferences := preferences s;
       generatedRecipes := generatedRecipes s;
       selectedRecipeIds := selectedRecipeIds s;
       isLoading := isLoading s; log := log s |}).

Definition setIngredients (v : list Ingredient) : Eff.t State unit :=
  Eff.modify (fun s =>
    {| step := step s; ingredients := v;
       preferences := preferences s;
       generatedRecipes := generatedRecipes s;
       selectedRecipeIds := selectedRecipeIds s;
       isLoading := isLoading s; log := log s |}).

Definition setPreferences (v : list DietaryPreference) : Eff.t State unit :=
  Eff.modify (fun s =>
    {| step := step s; ingredients := ingredients s;
       preferences := v;
       generatedRecipes := generatedRecipes s;
       selectedRecipeIds := selectedRecipeIds s;
       isLoading := isLoading s; log := log s |}).

Definition setGeneratedRecipes (v : list Recipe) : Eff.t State unit :=
  Eff.modify (fun s =>
    {| step := step s; ingredients := ingredients s;
       preferences := preferences s;
       generatedRecipes := v;
       selectedRecipeIds := selectedRecipeIds s;
       isLoading := isLoading s; log := log s |}).

Definition setSelectedRecipeIds (v : list string) : Eff.t State unit :=
  Eff.modify (fun s =>
    {| step := step s; ingredients := ingredients s;
       preferences := preferences s;
       generatedRecipes := generatedRecipes s;
       selectedRecipeIds := v;
       isLoading := isLoading s; log := log s |}).

Definition setIsLoading (v : bool) : Eff.t State unit :=
  Eff.modify (fun s =>
    {| step := step s; ingredients := ingredients s;
       preferences := preferences s;
       generatedRecipes := generatedRecipes s;
       selectedRecipeIds := selectedRecipeIds s;
       isLoading := v; log := log s ++ [SetIsLoading v] |}).

Definition updateStep (val : Z) : Eff.t State unit :=
  s <- Eff.get ;;
  let newStep := step s + val in
  let newStep :=
    if (newStep <? 0) || (newStep >=? steps_length) then 0 else newStep in
  setStep newStep.

(** The body of the answer of [/api/generate-recipes].  [resp_parsed] is
    the value of [JSON.parse(recipes)] when that is an array of recipes,
    and [None] when [JSON.parse] or the [.map] that follows throws. *)
Record GenerateResponse := {
  resp_parsed : option (list Recipe);
  resp_openaiPromptId : string
}.

(** [{ ...recipe, openaiPromptId: `${openaiPromptId}-${idx}` }] *)
Definition tagRecipe (openaiPromptId : string) (recipe : Recipe)
           (idx : nat) : Recipe :=
  {| name := name recipe;
     Types.ingredients := Types.ingredients recipe;
     instructions := instructions recipe;
     dietaryPreference := dietaryPreference recipe;
     additionalInformation := additionalInformation recipe;
     Types.openaiPromptId :=
       (openaiPromptId ++ "-" ++ JS.numberToString idx)%string |}.

Fixpoint tagRecipesFrom (openaiPromptId : string) (idx : nat)
         (parsedRecipes : list Recipe) : list Recipe :=
  match parsedRecipes with
  | [] => []
  | recipe :: rest =>
      tagRecipe openaiPromptId recipe idx
        :: tagRecipesFrom openaiPromptId (S idx) rest
  end.

(** [parsedRecipes.map((recipe, idx) => ...)] *)
Definition tagRecipes (openaiPromptId : string)
           (parsedRecipes : list Recipe) : list Recipe :=
  tagRecipesFrom openaiPromptId 0 parsedRecipes.

(** The [try] block of [handleIngredientSubmit] from the point where the
    awaited call has resolved; [step0] is the [step] the closure holds. *)
Definition afterGeneration (step0 : Z) (response : GenerateResponse)
  : Eff.t State unit :=
  match resp_parsed response with
  | None => Eff.throw
  | Some parsedRecipes =>
      let parsedRecipes :=
        tagRecipes (resp_openaiPromptId response) parsedRecipes in
      setIsLoading false ;;
      setGeneratedRecipes parsedRecipes ;;
      setStep (step0 + 1)
  end.

Definition handleIngredientSubmit (answer : Eff.Settled GenerateResponse)
  : Eff.t State unit :=
  s <- Eff.get ;;
  Eff.tryCatch
    (setIsLoading true ;;
     emit (CallApi "/api/generate-recipes") ;;
     response <- Eff.await answer ;;
     afterGeneration (step s) response)
    (emit ConsoleLog).

(** The [try] block of [handleRecipeSubmit] from the point where the
    awaited call has resolved. *)
Definition afterSave : Eff.t State unit :=
  setIsLoading false ;;
  setIngredients initialIngridients ;;
  setPreferences initialPreferences ;;
  setGeneratedRecipes initialRecipes ;;
  setSelectedRecipeIds initialSelectedIds ;;
  setStep 0 ;;
  emit (RouterPush "/Profile").

Definition handleRecipeSubmit (recipes : list Recipe)
           (answer : Eff.Settled unit) : Eff.t State unit :=
  Eff.tryCatch
    (setIsLoading true ;;
     emit (CallApi "/api/save-recipes") ;;
     _ <- Eff.await answer ;;
     afterSave)
    (emit ConsoleLog).

(** *** The handlers split at their [await]

    Between the dispatch of a call and its settlement the page stays
    live (the Prev and Next buttons remain on screen), so the wizard
    below runs a handler in two parts. *)

Definition dispatchGeneration : Eff.t State unit :=
  setIsLoading true ;; emit (CallApi "/api/generate-recipes").

Definition settleGeneration (step0 : Z)
           (answer : Eff.Settled GenerateResponse) : Eff.t State unit :=
  Eff.tryCatch
    (response <- Eff.await answer ;; afterGeneration step0 response)
    (emit ConsoleLog).

Definition dispatchSave : Eff.t State unit :=
  setIsLoading true ;; emit (CallApi "/api/save-recipes").

Definition settleSave (answer : Eff.Settled unit) : Eff.t State unit :=
  Eff.tryCatch (_ <- Eff.await answer ;; afterSave) (emit ConsoleLog).

(** *** The controls and their [disabled] props *)

(** Prev button: [disabled={step === 0}] *)
Definition prevDisabled (s : State) : bool := step s =? 0.

(** Next button:
    [disabled={step === steps.length - 1 || step === 2 && !generatedRecipes.length}] *)
Definition nextDisabled (s : State) : bool :=
  (step s =? steps_length - 1)
  || ((step s =? 2) && negb (JS.nonEmpty (generatedRecipes s))).

(** Edit button of [ReviewComponent]:
    [disabled={Boolean(generatedRecipes.length)}] *)
Definition editDisabled (s : State) : bool :=
  JS.nonEmpty (generatedRecipes s).

(** Create Recipes button of [ReviewComponent]:
    [disabled={ingredients.length < 3 || Boolean(generatedRecipes.length)}] *)
Definition createRecipesDisabled (s : State) : bool :=
  (Z.of_nat (List.length (ingredients s)) <? 3)
  || JS.nonEmpty (generatedRecipes s).

(** [IngredientForm.handleChange] *)
Definition handleChange (val : option string) (uuid : string)
  : Eff.t State unit :=
  s <- Eff.get ;;
  match val with
  | None => Eff.ret tt
  | Some val =>
      if negb (JS.truthy val) then Eff.ret tt
      else
        let isRepeat :=
          JS.some (fun i => String.eqb (ingredient_name i) val)
                  (ingredients s) in
        if isRepeat then Eff.ret tt
        else setIngredients
               (ingredients s
                  ++ [{| ingredient_name := val;
                         ingredient_quantity := None;
                         ingredient_id := uuid |}])
  end.

(** [IngredientForm.deleteIngredient] *)
Definition deleteIngredient (id : string) : Eff.t State unit :=
  s <- Eff.get ;;
  if JS.nonEmpty (generatedRecipes s) then Eff.ret tt
  else setIngredients
         (filter (fun ingredient =>
                    negb (String.eqb (ingredient_id ingredient) id))
                 (ingredients s)).

(** [DietaryPreferences.handlePreferenceChange] *)
Definition handlePreferenceChange (option : DietaryPreference)
  : Eff.t State unit :=
  s <- Eff.get ;;
  let updatedPreferences :=
    if existsb (DietaryPreference_eqb option) (preferences s)
    then filter (fun p => negb (DietaryPreference_eqb p option))
                (preferences s)
    else preferences s ++ [option] in
  setPreferences updatedPreferences.

(** [DietaryPreferences.handleNoPreference] *)
Definition handleNoPreference : Eff.t State unit := setPreferences [].

(** [SelectRecipesComponent.handleRecipeSelection] *)
Definition handleRecipeSelection (recipeId : string) : Eff.t State unit :=
  s <- Eff.get ;;
  let updatedSelections :=
    if JS.arrayIncludes (selectedRecipeIds s) recipeId
    then filter (fun p => negb (String.eqb p recipeId))
                (selectedRecipeIds s)
    else selectedRecipeIds s ++ [recipeId] in
  setSelectedRecipeIds updatedSelections.

(** [SelectRecipesComponent.handleSelectAll] *)
Definition handleSelectAll : Eff.t State unit :=
  s <- Eff.get ;;
  setSelectedRecipeIds (map Types.openaiPromptId (generatedRecipes s)).

(** [finalRecipes] of [ReviewRecipesComponent] *)
Definition finalRecipes (s : State) : list Recipe :=
  filter (fun recipe =>
            JS.arrayIncludes (selectedRecipeIds s)
                             (Types.openaiPromptId recipe))
         (generatedRecipes s).

End Navigation.

(* ===================================================================== *)
(** ** The wizard as a transition system *)
(* ===================================================================== *)

(** The mounted page: the state of [Navigation], the calls that have been
    dispatched and have not settled yet, and the [reachedLimit] prop.  An
    action is a click on a control that is on screen and not disabled, or
    the settlement of a pending call. *)
Module Wizard.
Import Types Navigation.
Local Open Scope Z_scope.

(** A dispatched call; a pending generation keeps the [step] its closure
    was created with. *)
Inductive Pending :=
| PendingGeneration (step0 : Z)
| PendingSave.

Record Page := {
  state : State;
  pending : list Pending;
  reachedLimit : bool
}.

Inductive Action :=
| ClickPrev
| ClickNext
| ChooseIngredient (val : option string) (uuid : string)
| DeleteChip (id : string)
| TogglePreference (option : DietaryPreference)
| ClickNoPreference
| ClickEdit
| ClickCreateRecipes
| ToggleRecipe (recipeId : string)
| ClickSelectAll
| ClickUnselectAll
| ClickSubmitSelected
| GenerationSettles (i : nat) (answer : Eff.Settled GenerateResponse)
| SaveSettles (i : nat) (answer : Eff.Settled unit).

(** The first render, after the effect on [oldIngredients] has run:
    [oldIngredients] is the array of names of the query, if there is one,
    each paired with the uuid drawn for it. *)
Definition mount (limit : bool)
           (oldIngredients : option (list (string * string))) : Page :=
  {| state :=
       {| step := 0;
          ingredients :=
            match oldIngredients with
            | Some l =>
                map (fun i => {| ingredient_name := fst i;
                                 ingredient_quantity := None;
                                 ingredient_id := snd i |}) l
            | None => initialIngridients
            end;
          preferences := initialPreferences;
          generatedRecipes := initialRecipes;
          selectedRecipeIds := initialSelectedIds;
          isLoading := false;
          log := [] |};
     pending := [];
     reachedLimit := limit |}.

Definition run (m : Eff.t State unit) (p : Page) : Page :=
  {| state := Eff.exec m (state p);
     pending := pending p;
     reachedLimit := reachedLimit p |}.

Definition dispatch (m : Eff.t State unit) (c : Pending) (p : Page) : Page :=
  {| state := Eff.exec m (state p);
     pending := pending p ++ [c];
     reachedLimit := reachedLimit p |}.

Definition removeNth {A} (i : nat) (l : list A) : list A :=
  firstn i l ++ skipn (S i) l.

Definition settle (m : Eff.t State unit) (i : nat) (p : Page) : Page :=
  {| state := Eff.exec m (state p);
     pending := removeNth i (pending p);
     reachedLimit := reachedLimit p |}.

(** [StepComponent] is rendered only while [isLoading] is false, and
    shows the component of the current step. *)
Definition shown (n : Z) (p : Page) : bool :=
  negb (isLoading (state p)) && (step (state p) =? n).

(** The local [noPreference] flag of [DietaryPreferences], which only
    disables further options, is not tracked: an option may be toggled
    whenever no batch exists. *)
Definition perform (a : Action) (p : Page) : option Page :=
  let s := state p in
  if reachedLimit p then None
  else
    match a with
    | ClickPrev =>
        if prevDisabled s then None else Some (run (updateStep (-1)) p)
    | ClickNext =>
        if nextDisabled s then None else Some (run (updateStep 1) p)
    | ChooseIngredient val uuid =>
        if shown 0 p && negb (JS.nonEmpty (generatedRecipes s))
        then Some (run (handleChange val uuid) p) else None
    | DeleteChip id =>
        if shown 0 p then Some (run (deleteIngredient id) p) else None
    | TogglePreference option =>
        if shown 1 p && negb (JS.nonEmpty (generatedRecipes s))
        then Some (run (handlePreferenceChange option) p) else None
    | ClickNoPreference =>
        if shown 1 p && negb (JS.nonEmpty (generatedRecipes s))
        then Some (run handleNoPreference p) else None
    | ClickEdit =>
        if shown 2 p && negb (editDisabled s)
        then Some (run (setStep 0) p) else None
    | ClickCreateRecipes =>
        if shown 2 p && negb (createRecipesDisabled s)
        then Some (dispatch dispatchGeneration
                            (PendingGeneration (step s)) p)
        else None
    | ToggleRecipe recipeId =>
        if shown 3 p
           && JS.arrayIncludes
                (map Types.openaiPromptId (generatedRecipes s)) recipeId
        then Some (run (handleRecipeSelection recipeId) p) else None
    | ClickSelectAll =>
        if shown 3 p then Some (run handleSelectAll p) else None
    | ClickUnselectAll =>
        if shown 3 p then Some (run (setSelectedRecipeIds []) p) else None
    | ClickSubmitSelected =>
        if shown 4 p && JS.nonEmpty (finalRecipes s)
        then Some (dispatch dispatchSave PendingSave p) else None
    | GenerationSettles i answer =>
        match nth_error (pending p) i with
        | Some (PendingGeneration step0) =>
            Some (settle (settleGeneration step0 answer) i p)
        | _ => None
        end
    | SaveSettles i answer =>
        match nth_error (pending p) i with
        | Some PendingSave => Some (settle (settleSave answer) i p)
        | _ => None
        end
    end.

Inductive reachable : Page -> Prop :=
| reachable_mount : forall limit oldIngredients,
    reachable (mount limit oldIngredients)
| reachable_step : forall p a p',
    reachable p -> perform a p = Some p' -> reachable p'.

(** Replaying a list of actions; [None] as soon as one is not possible. *)
Fixpoint replay (actions : list Action) (p : Page) : option Page :=
  match actions with
  | [] => Some p
  | a :: rest =>
      match perform a p with
      | Some p' => replay rest p'
      | None => None
      end
  end.

End Wizard.

(* ===================================================================== *)
(** ** Vocabulary of the properties *)
(* ===================================================================== *)

Module Spec.
Import Types.

(** *** Reconciliation of a recipe list *)

Definition hasId (id : string) (r : ExtendedRecipe) : bool :=
  String.eqb (_id r) id.

(** Number of entries of the list whose [_id] is [id]. *)
Definition occurrences (id : string) (l : list ExtendedRecipe) : nat :=
  List.length (filter (hasId id) l).

(** Every entry with the id of [updated] replaced by [updated], all
    others kept where they are. *)
Definition replaceById (updated : ExtendedRecipe)
           (l : list ExtendedRecipe) : list ExtendedRecipe :=
  map (fun p => if hasId (_id updated) p then updated else p) l.

(** The entries with id [id] dropped, all others kept in their order. *)
Definition removeById (id : string) (l : list ExtendedRecipe)
  : list ExtendedRecipe :=
  filter (fun p => negb (hasId id p)) l.

(** *** Search *)

(** [query], ignoring letter case of both sides, is a substring of
    [field]. *)
Definition containsIgnoringCase (field query : string) : bool :=
  JS.includes (JS.toLowerCase field) (JS.toLowerCase query).

(** A recipe matches when the query occurs in its name, in the name of
    one of its ingredients or in one of its dietary tags. *)
Definition matchesIgnoringCase (query : string) (r : ExtendedRecipe)
  : bool :=
  containsIgnoringCase (name (recipe r)) query
  || existsb (fun i => containsIgnoringCase (ri_name i) query)
             (ingredients (recipe r))
  || existsb (fun d => containsIgnoringCase d query)
             (dietaryPreference (recipe r)).

(** *** Ingredient catalog *)

(** [form] is, ignoring the letter case of the catalog, the name of an
    entry of the catalog. *)
Definition inCatalog (form : string)
           (catalog : list IngredientDocumentType) : Prop :=
  exists e, In e catalog /\ JS.toLowerCase (doc_name e) = form.

(** The lowercased candidate, its plural or its singular is in the
    catalog. *)
Definition duplicate (pluralize singular : string -> string)
           (candidate : string) (catalog : list IngredientDocumentType)
  : Prop :=
  let exact := JS.toLowerCase candidate in
  inCatalog exact catalog
  \/ inCatalog (pluralize exact) catalog
  \/ inCatalog (singular exact) catalog.

(** *** The wizard *)

(** What holds of every page the wizard can reach: the step is one of
    the five; a batch exists only over at least three ingredients; at
    most one call is pending, and while one is, the page is loading and
    holds at least three ingredients; a pending generation was started
    at step 2. *)
Definition wizardInvariant (p : Wizard.Page) : Prop :=
  let s := Wizard.state p in
  (0 <= Navigation.step s <= 4)%Z
  /\ (Navigation.generatedRecipes s <> [] ->
      3 <= List.length (Navigation.ingredients s))
  /\ List.length (Wizard.pending p) <= 1
  /\ (Wizard.pending p <> [] ->
      Navigation.isLoading s = true
      /\ 3 <= List.length (Navigation.ingredients s))
  /\ (forall step0, In (Wizard.PendingGeneration step0) (Wizard.pending p) ->
                    step0 = 2%Z).

(** *** Batch identifiers *)

Fixpoint hasHyphen (s : string) : bool :=
  match s with
  | EmptyString => false
  | String c s' => Ascii.eqb c "-" || hasHyphen s'
  end.

(** The [openaiPromptId] of the documents handed to the database. *)
Definition savedIds (docs : list SaveRecipes.RecipeToInsert)
  : list string :=
  map (fun d => openaiPromptId (SaveRecipes.doc d)) docs.

End Spec.

(* ===================================================================== *)
(** ** Sample data *)
(* ===================================================================== *)

Module Samples.
Import Types.

Definition noInformation : AdditionalInformation :=
  {| tips := ""; variations := ""; servingSuggestions := "";
     nutritionalInformation := "" |}.

Definition dish (nm : string) (ingredientNames diets : list string)
           (promptId : string) : Recipe :=
  {| name := nm;
     ingredients :=
       map (fun n => {| ri_name := n; ri_quantity := "1" |}) ingredientNames;
     instructions := ["Mix"; "Serve"];
     dietaryPreference := diets;
     additionalInformation := noInformation;
     openaiPromptId := promptId |}.

(** A populated user document: it carries more than [_id], [name] and
    [image]. *)
Definition user (id nm : string) : UserRef :=
  {| user_id := id; user_name := nm; user_image := "/avatar.png";
     user_rest := [("email", "someone@example.org")] |}.

Definition entry (id : string) (r : Recipe) (by_ : UserRef)
           (likes : list UserRef) : ExtendedRecipe :=
  {| recipe := r; _id := id; imgLink := "/logo.svg"; owner := by_;
     createdAt := "2024-01-01"; updatedAt := "2024-01-02";
     likedBy := likes; owns := false; liked := false |}.

Definition ann : UserRef := user "u1" "Ann".
Definition bob : UserRef := user "u2" "Bob".

Definition soup : ExtendedRecipe :=
  entry "r1" (dish "Soup" ["tomato"; "salt"] ["Vegan"] "p1") ann [bob].
Definition salad : ExtendedRecipe :=
  entry "r2" (dish "Salad" ["Tomato"; "Basil"] ["Vegetarian"] "p2") bob [].
Definition stew : ExtendedRecipe :=
  entry "r3" (dish "Stew" ["beef"; "carrot"] [] "p3") ann [ann; bob].

(** [salad] after an edit: same [_id], new content. *)
Definition salad' : ExtendedRecipe :=
  entry "r2" (dish "Greek Salad" ["Feta"] ["Vegetarian"] "p2") bob [ann].

(** An entry whose id is not in the lists above. *)
Definition pie : ExtendedRecipe :=
  entry "r9" (dish "Pie" ["apple"] [] "p9") bob [].

(** Three parsed recipes of one generation call. *)
Definition omelette : Recipe := dish "Omelette" ["Egg"; "Milk"] [] "".
Definition pancake : Recipe := dish "Pancake" ["Egg"; "Flour"; "Milk"] [] "".
Definition custard : Recipe := dish "Custard" ["Egg"; "Milk"] [] "".

Definition generated (batchId : string)
  : Eff.Settled Navigation.GenerateResponse :=
  Eff.Resolved
    {| Navigation.resp_parsed := Some [omelette; pancake; custard];
       Navigation.resp_openaiPromptId := batchId |}.

(** Ingredients picked in the wizard, and a state of [Navigation] at a
    given step holding them. *)
Definition picked (n id : string) : Ingredient :=
  {| ingredient_name := n; ingredient_quantity := None;
     ingredient_id := id |}.

Definition egg : Ingredient := picked "Egg" "id-1".
Definition flour : Ingredient := picked "Flour" "id-2".
Definition milk : Ingredient := picked "Milk" "id-3".

Definition stateAt (n : Z) (picks : list Ingredient) : Navigation.State :=
  {| Navigation.step := n;
     Navigation.ingredients := picks;
     Navigation.preferences := [Vegetarian];
     Navigation.generatedRecipes := [];
     Navigation.selectedRecipeIds := [];
     Navigation.isLoading := false;
     Navigation.log := [] |}.

(** The page as mounted from a query naming the given ingredients, and
    the page a user is on after walking to step [n] with them. *)
Definition mountedWith (picks : list (string * string)) : Wizard.Page :=
  Wizard.mount false (Some picks).

Definition fromQuery (picks : list (string * string)) : list Ingredient :=
  map (fun i => picked (fst i) (snd i)) picks.

Definition pageAt (n : Z) (picks : list (string * string)) : Wizard.Page :=
  {| Wizard.state :=
       {| Navigation.step := n;
          Navigation.ingredients := fromQuery picks;
          Navigation.preferences := [];
          Navigation.generatedRecipes := [];
          Navigation.selectedRecipeIds := [];
          Navigation.isLoading := false;
          Navigation.log := [] |};
     Wizard.pending := [];
     Wizard.reachedLimit := false |}.

Definition twoPicks : list (string * string) :=
  [("Egg", "id-1"); ("Flour", "id-2")].

Definition threePicks : list (string * string) :=
  [("Egg", "id-1"); ("Flour", "id-2"); ("Milk", "id-3")].

(** Walk to the review step, create recipes, let the call succeed, and
    step back from the selection to the review. *)
Definition generateAndGoBack : list Wizard.Action :=
  [Wizard.ClickNext; Wizard.ClickNext; Wizard.ClickCreateRecipes;
   Wizard.GenerationSettles 0 (generated "batch1"); Wizard.ClickPrev].

(** A catalog of one entry and an open dialog holding a candidate. *)
Definition tomato : IngredientDocumentType :=
  {| doc_id := "i1"; doc_name := "Tomato"; createdBy := None;
     doc_createdAt := "2024-01-01" |}.

Definition dialogWith (candidate : string)
  : NewIngredientDialog.Dialog :=
  {| NewIngredientDialog.isOpen := true;
     NewIngredientDialog.ingredientName := candidate;
     NewIngredientDialog.isLoading := false;
     NewIngredientDialog.message := "";
     NewIngredientDialog.isDisabled := false;
     NewIngredientDialog.ingredientList := [tomato];
     NewIngredientDialog.requests := [] |}.

(** Stand-ins for the two functions of the [pluralize] package, right on
    the words used below. *)
Definition pluralizeSample (w : string) : string :=
  if String.eqb w "tomato" then "tomatoes" else (w ++ "s")%string.

Definition singularSample (w : string) : string :=
  if String.eqb w "tomatoes" then "tomato" else w.

Definition validAnswer (n : string)
  : Eff.Settled NewIngredientDialog.Response :=
  Eff.Resolved
    {| NewIngredientDialog.resp_message := Some "Success";
       NewIngredientDialog.resp_error := None;
       NewIngredientDialog.resp_newIngredient :=
         Some {| doc_id := "i2"; doc_name := n; createdBy := Some "u1";
                 doc_createdAt := "2024-02-02" |};
       NewIngredientDialog.resp_suggested := None |}.

End Samples.

(* ===================================================================== *)
(** ** components/Recipe_Creation/IngredientForm.tsx: the combobox *)
(* ===================================================================== *)

Module IngredientList.
Import Types.

(** [filteredIngredients], the options the combobox shows for a query. *)
Definition filteredIngredients (ingredientList : list IngredientDocumentType)
           (query : string) : list IngredientDocumentType :=
  if String.eqb query "" then ingredientList
  else filter (fun ingredient =>
                 JS.includes (JS.toLowerCase (doc_name ingredient))
                             (JS.toLowerCase query))
              ingredientList.

End IngredientList.

(* ===================================================================== *)
(** ** pages/Profile.tsx and components/Profile_Information *)
(* ===================================================================== *)

Module Profile.
Import Types.

(** [handleDisplaySetting]: the recipes shown for a display setting. *)
Definition handleDisplaySetting (latestRecipes : list ExtendedRecipe)
           (displaySetting : string) : list ExtendedRecipe :=
  if String.eqb displaySetting "created" then
    filter (fun r => owns r) latestRecipes
  else if String.eqb displaySetting "favorites" then
    filter (fun r => liked r) latestRecipes
  else
    filter (fun r => owns r && (0 <? List.length (likedBy r))%nat)
           latestRecipes.

(** The three figures of [ProfileInformation]. *)
Definition ownedRecipes (recipes : list ExtendedRecipe)
  : list ExtendedRecipe :=
  filter (fun r => owns r) recipes.

Definition favoriteRecipes (recipes : list ExtendedRecipe)
  : list ExtendedRecipe :=
  filter (fun r => liked r) recipes.

(** [ownedRecipes.reduce((total, recipe) => total + recipe.likedBy.length, 0)] *)
Definition votesReceived (recipes : list ExtendedRecipe) : nat :=
  fold_left (fun total recipe => (total + List.length (likedBy recipe))%nat)
            (ownedRecipes recipes) 0%nat.

End Profile.

(* ===================================================================== *)
(** ** components/Recipe_Display: ViewRecipes and FrontDisplay *)
(* ===================================================================== *)

(** The handlers run in one go, on the list the page holds when they are
    started. *)
Module RecipeDisplay.
Import Types.
Local Open Scope eff_scope.

(** The body of the answer of [/api/delete-recipe]. *)
Record DeleteResponse := {
  del_message : option string;
  del_error : option string
}.

(** [latestRecipes] of the page ([Home] or [Profile]), the two cells of
    [ViewRecipes], and the requests made (address, method, recipe id). *)
Record View := {
  latestRecipes : list ExtendedRecipe;
  openDialog : option ExtendedRecipe;
  deleteId : string;
  sent : list (string * string * string)
}.

Definition setLatestRecipes (v : list ExtendedRecipe) : Eff.t View unit :=
  Eff.modify (fun s =>
    {| latestRecipes := v; openDialog := openDialog s;
       deleteId := deleteId s; sent := sent s |}).

Definition setOpenDialog (v : option ExtendedRecipe) : Eff.t View unit :=
  Eff.modify (fun s =>
    {| latestRecipes := latestRecipes s; openDialog := v;
       deleteId := deleteId s; sent := sent s |}).

Definition setDeleteId (v : string) : Eff.t View unit :=
  Eff.modify (fun s =>
    {| latestRecipes := latestRecipes s; openDialog := openDialog s;
       deleteId := v; sent := sent s |}).

Definition call_api {R} (address method recipeId : string)
           (answer : Eff.Settled R) : Eff.t View R :=
  Eff.modify (fun s =>
    {| latestRecipes := latestRecipes s; openDialog := openDialog s;
       deleteId := deleteId s;
       sent := sent s ++ [(address, method, recipeId)] |}) ;;
  Eff.await answer.

(** [handleRecipeListUpdate] of the page *)
Definition handleRecipeListUpdate (recipe : option ExtendedRecipe)
           (deleteId : option string) : Eff.t View unit :=
  s <- Eff.get ;;
  setLatestRecipes (Utils.updateRecipeList (latestRecipes s) recipe deleteId).

(** [handleShowRecipe] *)
Definition handleShowRecipe (recipe : ExtendedRecipe) : Eff.t View unit :=
  setOpenDialog (Some recipe).

Definition optTruthy (x : option string) : bool :=
  match x with Some s => JS.truthy s | None => false end.

(** [ViewRecipes.handleDeleteRecipe] *)
Definition handleDeleteRecipe (answer : Eff.Settled DeleteResponse)
  : Eff.t View unit :=
  s <- Eff.get ;;
  match openDialog s with
  | None => Eff.ret tt
  | Some openDialog =>
      Eff.tryCatch
        (setOpenDialog None ;;
         setDeleteId (_id openDialog) ;;
         response <- call_api "/api/delete-recipe" "delete"
                              (_id openDialog) answer ;;
         if optTruthy (del_error response) then Eff.throw
         else if optTruthy (del_message response) then
           handleRecipeListUpdate None (Some (_id openDialog))
         else Eff.ret tt)
        (setDeleteId "")
  end.

(** [FrontDisplay.handleRecipeLike]; the button is disabled on the
    recipes the user owns. *)
Definition handleRecipeLike (recipeId : string)
           (answer : Eff.Settled ExtendedRecipe) : Eff.t View unit :=
  Eff.tryCatch
    (result <- call_api "/api/like-recipe" "put" recipeId answer ;;
     handleRecipeListUpdate (Some result) None)
    (Eff.ret tt).

(** [isLoading={deleteId === recipe._id}] of a card *)
Definition cardLoading (s : View) (r : ExtendedRecipe) : bool :=
  String.eqb (deleteId s) (_id r).

End RecipeDisplay.

(* ===================================================================== *)
(** ** pages/api: the handlers of the recipe and ingredient routes *)
(* ===================================================================== *)

Module Api.
Import Types.
Local Open Scope eff_scope.
Local Open Scope string_scope.

(** [String.prototype.toUpperCase] on the ASCII range *)
Definition upperChar (c : ascii) : ascii :=
  let n := nat_of_ascii c in
  if (97 <=? n)%nat && (n <=? 122)%nat then ascii_of_nat (n - 32) else c.

(** A stored recipe: [RecipeDocument] with its [_id]; the owner and the
    likers are ids of users. *)
Record RecipeDocument := {
  rd_id : string;
  rd_recipe : Recipe;
  rd_owner : string;
  rd_imgLink : string;
  rd_likedBy : list string
}.

(** The collections the handlers work on, and whether [connectDB]
    succeeds. *)
Record Db := {
  db_recipes : list RecipeDocument;
  db_ingredients : list IngredientDocumentType;
  db_connects : bool
}.

Definition setRecipes (v : list RecipeDocument) : Eff.t Db unit :=
  Eff.modify (fun db =>
    {| db_recipes := v; db_ingredients := db_ingredients db;
       db_connects := db_connects db |}).

Definition setIngredients (v : list IngredientDocumentType)
  : Eff.t Db unit :=
  Eff.modify (fun db =>
    {| db_recipes := db_recipes db; db_ingredients := v;
       db_connects := db_connects db |}).

(** [await connectDB()] *)
Definition connectDB : Eff.t Db unit :=
  db <- Eff.get ;;
  if db_connects db then Eff.ret tt else Eff.throw.

(** [recipes.findById(id)] *)
Definition findById (id : string) : Eff.t Db (option RecipeDocument) :=
  db <- Eff.get ;;
  Eff.ret (find (fun r => String.eqb (rd_id r) id) (db_recipes db)).

Fixpoint removeFirst (id : string) (l : list RecipeDocument)
  : list RecipeDocument :=
  match l with
  | [] => []
  | r :: l' => if String.eqb (rd_id r) id then l'
               else r :: removeFirst id l'
  end.

(** [recipes.findByIdAndDelete(id)] *)
Definition findByIdAndDelete (id : string) : Eff.t Db unit :=
  db <- Eff.get ;;
  setRecipes (removeFirst id (db_recipes db)).

Fixpoint updateFirst (id : string) (f : RecipeDocument -> RecipeDocument)
         (l : list RecipeDocument) : list RecipeDocument :=
  match l with
  | [] => []
  | r :: l' => if String.eqb (rd_id r) id then f r :: l'
               else r :: updateFirst id f l'
  end.

(** [recipes.findByIdAndUpdate(id, update, { new: true })]: the document
    after the update, [None] when there is none with that id. *)
Definition findByIdAndUpdate (id : string)
           (f : RecipeDocument -> RecipeDocument)
  : Eff.t Db (option RecipeDocument) :=
  db <- Eff.get ;;
  setRecipes (updateFirst id f (db_recipes db)) ;;
  findById id.

Definition withLikedBy (v : list string) (r : RecipeDocument)
  : RecipeDocument :=
  {| rd_id := rd_id r; rd_recipe := rd_recipe r; rd_owner := rd_owner r;
     rd_imgLink := rd_imgLink r; rd_likedBy := v |}.

(** [{ $pull: { likedBy: user } }]: every occurrence is removed. *)
Definition pull (user : string) (r : RecipeDocument) : RecipeDocument :=
  withLikedBy (filter (fun x => negb (String.eqb x user)) (rd_likedBy r)) r.

(** [{ $addToSet: { likedBy: user } }]: appended unless present. *)
Definition addToSet (user : string) (r : RecipeDocument) : RecipeDocument :=
  withLikedBy (if existsb (String.eqb user) (rd_likedBy r)
               then rd_likedBy r else (rd_likedBy r ++ [user])%list) r.

(** What the handlers read of a request: the method, the id of the user
    of the session if there is one, and the body. *)
Record Request (B : Type) := {
  method : string;
  session : option string;
  body : B
}.
Arguments method {B} _.
Arguments session {B} _.
Arguments body {B} _.

(** *** pages/api/delete-recipe.ts *)

Record DeleteReply := {
  del_status : nat;
  del_body : RecipeDisplay.DeleteResponse
}.

Definition deleteError (status : nat) (error : string) : DeleteReply :=
  {| del_status := status;
     del_body := {| RecipeDisplay.del_message := None;
                    RecipeDisplay.del_error := Some error |} |}.

Section WithObjectId.
(** [mongoose.Types.ObjectId.isValid] *)
Variable isValid : string -> bool.

Definition deleteRecipe (req : Request string) : Eff.t Db DeleteReply :=
  Eff.tryCatch
    (if negb (String.eqb (method req) "DELETE") then
       Eff.ret (deleteError 405
                  ("Method " ++ method req ++ " Not Allowed"))
     else
       match session req with
       | None => Eff.ret (deleteError 401 "You must be logged in.")
       | Some user =>
           let recipeId := body req in
           if negb (isValid recipeId) then
             Eff.ret (deleteError 400 "Invalid recipe ID")
           else
             connectDB ;;
             recipe <- findById recipeId ;;
             match recipe with
             | None =>
                 Eff.ret (deleteError 400
                            ("Recipe with Id: " ++ recipeId
                             ++ " not found... exiting DELETE"))
             | Some recipe =>
                 if negb (String.eqb user (rd_owner recipe)) then
                   Eff.ret (deleteError 400
                              ("Recipe with Id: " ++ recipeId
                               ++ " is not owned by userId: " ++ user
                               ++ "... exiting DELETE"))
                 else
                   findByIdAndDelete recipeId ;;
                   Eff.ret
                     {| del_status := 200;
                        del_body :=
                          {| RecipeDisplay.del_message :=
                               Some ("Deleted recipe with id " ++ recipeId);
                             RecipeDisplay.del_error := None |} |}
             end
       end)
    (Eff.ret (deleteError 500 "Failed to delete recipe")).

(** *** pages/api/like-recipe.ts *)

Inductive LikeBody :=
| LikeError (error : string)
| LikeText (text : string)
| LikeRecipe (r : ExtendedRecipe).

Record LikeReply := {
  like_status : nat;
  like_body : LikeBody
}.

(** [.populate(['owner', 'likedBy', 'comments.user']).lean()] *)
Variable populate : RecipeDocument -> ExtendedRecipe.

Definition toggleLike (req : Request string) : Eff.t Db LikeReply :=
  Eff.tryCatch
    (if negb (String.eqb (method req) "PUT") then
       Eff.ret {| like_status := 405;
                  like_body := LikeError ("Method " ++ method req
                                          ++ " Not Allowed") |}
     else
       match session req with
       | None => Eff.ret {| like_status := 401;
                            like_body := LikeError "You must be logged in." |}
       | Some user =>
           let recipeId := body req in
           if negb (isValid recipeId) then
             Eff.ret {| like_status := 400;
                        like_body := LikeError "Invalid recipe ID" |}
           else
             connectDB ;;
             recipe <- findById recipeId ;;
             match recipe with
             | None =>
                 Eff.ret {| like_status := 200;
                            like_body :=
                              LikeText ("Recipe with Id: " ++ recipeId
                                        ++ " not found... exiting") |}
             | Some recipe =>
                 let liked :=
                   JS.some (fun r => String.eqb r user) (rd_likedBy recipe) in
                 let update := if liked then pull user else addToSet user in
                 updatedRecipe <- findByIdAndUpdate recipeId update ;;
                 match updatedRecipe with
                 | None =>
                     Eff.ret {| like_status := 200;
                                like_body :=
                                  LikeText ("Recipe with Id: " ++ recipeId
                                            ++ " unable to return document.. exiting") |}
                 | Some updatedRecipe =>
                     match Utils.filterResults [populate updatedRecipe] user
                     with
                     | filteredAndUpdatedRecipe :: _ =>
                         Eff.ret {| like_status := 200;
                                    like_body :=
                                      LikeRecipe filteredAndUpdatedRecipe |}
                     | [] => Eff.throw
                     end
                 end
             end
       end)
    (Eff.ret {| like_status := 500;
                like_body := LikeError "Failed to like recipe" |}).
End WithObjectId.

(** *** pages/api/validate-ingredient.ts *)

(** What [validateIngredient] and the [JSON.parse] of its answer come to:
    the call throws; the answer is empty; the answer is not JSON; the
    parsed value is falsy; or it is an object, of which [isValid] and
    [possibleVariations] are read. *)
Inductive Validation :=
| ValidationThrows
| NoContent
| NotJson
| ParsedFalsy
| Parsed (isValid : bool) (possibleVariations : option (list string)).

Record ValidateReply := {
  val_status : nat;
  val_body : NewIngredientDialog.Response
}.

Definition validateBody (message error : option string)
           (newIngredient : option IngredientDocumentType)
           (suggested : option (list string)) : NewIngredientDialog.Response :=
  {| NewIngredientDialog.resp_message := message;
     NewIngredientDialog.resp_error := error;
     NewIngredientDialog.resp_newIngredient := newIngredient;
     NewIngredientDialog.resp_suggested := suggested |}.

(** [ingredientName[0].toUpperCase() + ingredientName.slice(1).toLowerCase()];
    there is no first character in the empty string. *)
Definition formatIngredientName (ingredientName : string) : option string :=
  match ingredientName with
  | EmptyString => None
  | String c rest => Some (String (upperChar c) (JS.toLowerCase rest))
  end.

(** [Ingredient.findOne({ name })] *)
Definition findOneByName (n : string)
  : Eff.t Db (option IngredientDocumentType) :=
  db <- Eff.get ;;
  Eff.ret (find (fun i => String.eqb (doc_name i) n) (db_ingredients db)).

(** [Ingredient.create({ name, createdBy })]; the id and the time stamp
    are those the database gives the new document.  The id of the user
    of a session is an ObjectId, so [new mongoose.Types.ObjectId(userId)]
    does not throw. *)
Definition createIngredient (newId now n user : string)
  : Eff.t Db IngredientDocumentType :=
  db <- Eff.get ;;
  let newIngredient :=
    {| doc_id := newId; doc_name := n; createdBy := Some user;
       doc_createdAt := now |} in
  setIngredients (db_ingredients db ++ [newIngredient])%list ;;
  Eff.ret newIngredient.

Definition validateIngredientHandler (validation : Validation)
           (newId now : string) (req : Request (option string))
  : Eff.t Db ValidateReply :=
  Eff.tryCatch
    (if negb (String.eqb (method req) "POST") then
       Eff.ret {| val_status := 405;
                  val_body := validateBody None
                                (Some ("Method " ++ method req
                                       ++ " Not Allowed")) None None |}
     else
       match session req with
       | None =>
           Eff.ret {| val_status := 401;
                      val_body := validateBody None
                                    (Some "You must be logged in.")
                                    None None |}
       | Some userId =>
           match body req with
           | None =>
               Eff.ret {| val_status := 400;
                          val_body := validateBody None
                                        (Some "Ingredient name is required")
                                        None None |}
           | Some ingredientName =>
               if negb (JS.truthy ingredientName) then
                 Eff.ret {| val_status := 400;
                            val_body := validateBody None
                                          (Some "Ingredient name is required")
                                          None None |}
               else
                 match validation with
                 | ValidationThrows | NotJson => Eff.throw
                 | NoContent | ParsedFalsy =>
                     Eff.ret {| val_status := 200;
                                val_body :=
                                  validateBody
                                    (Some "Error with parsing response")
                                    None None None |}
                 | Parsed isValid possibleVariations =>
                     match formatIngredientName ingredientName with
                     | None => Eff.throw
                     | Some formattedIngredientName =>
                         ingredientExists <-
                           findOneByName formattedIngredientName ;;
                         if isValid then
                           match ingredientExists with
                           | None =>
                               newIngredient <-
                                 createIngredient newId now
                                   formattedIngredientName userId ;;
                               Eff.ret
                                 {| val_status := 200;
                                    val_body :=
                                      validateBody (Some "Success") None
                                        (Some newIngredient) None |}
                           | Some _ =>
                               Eff.ret
                                 {| val_status := 200;
                                    val_body :=
                                      validateBody
                                        (Some "Error: This ingredient already exists")
                                        None None None |}
                           end
                         else
                           Eff.ret
                             {| val_status := 200;
                                val_body :=
                                  validateBody (Some "Invalid") None None
                                               possibleVariations |}
                     end
                 end
           end
       end)
    (Eff.ret {| val_status := 500;
                val_body := validateBody None
                              (Some "Failed to add ingredient") None None |}).

(** What [call_api] makes of a reply: axios resolves on a status of the
    2xx range and rejects otherwise. *)
Definition received {R} (status : nat) (b : R) : Eff.Settled R :=
  if (200 <=? status)%nat && (status <? 300)%nat then Eff.Resolved b
  else Eff.Rejected.

End Api.

(* ===================================================================== *)
(** ** pages/api/save-recipes.ts with lib/openai.ts and lib/awss3.ts *)
(* ===================================================================== *)

Module SaveHandler.
Import Types.
Local Open Scope eff_scope.
Local Open Scope string_scope.

(** An element of [imagesWithNames] *)
Record ImageWithName := {
  img_link : option string;
  img_name : string
}.

(** [UploadToS3Type] *)
Record UploadToS3Type := {
  originalImgLink : option string;
  up_userId : option string;
  up_location : string
}.

Record SaveReply := {
  save_status : nat;
  save_error : option string
}.

Section WithServices.
(** The image service: what [generateImage] settles to for the recipe at
    a given index, the [url] of the first image, which may be absent. *)
Variable imageFor : nat -> Eff.Settled (option string).
(** Whether [configureS3] finds its credentials, and whether
    [processImage] fetches the image at a given index. *)
Variable s3Configured : bool.
Variable fetched : nat -> bool.
(** The ids the database gives to inserted documents. *)
Variable newId : nat -> string.

(** [Promise.all] over the images of the recipes from index [idx] on: it
    rejects as soon as one of them does. *)
Fixpoint allImages (idx : nat) (recipes : list Recipe)
  : Eff.t Api.Db (list ImageWithName) :=
  match recipes with
  | [] => Eff.ret []
  | r :: rest =>
      url <- Eff.await (imageFor idx) ;;
      others <- allImages (S idx) rest ;;
      Eff.ret ({| img_link := url; img_name := name r |} :: others)
  end.

(** [generateImages]: any failure is rethrown. *)
Definition generateImages (recipes : list Recipe)
  : Eff.t Api.Db (list ImageWithName) :=
  allImages 0 recipes.

(** [uploadImageToS3]: never rejects; [uploaded] tells whether the image
    could be fetched and handed to S3. *)
Definition uploadImageToS3 (idx : nat) (img : UploadToS3Type)
  : UploadReturnType :=
  {| location := up_location img;
     uploaded :=
       match originalImgLink img with
       | Some url => JS.truthy url && s3Configured && fetched idx
       | None => false
       end |}.

Fixpoint uploadFrom (idx : nat) (imgs : list UploadToS3Type)
  : list UploadReturnType :=
  match imgs with
  | [] => []
  | img :: rest => uploadImageToS3 idx img :: uploadFrom (S idx) rest
  end.

(** [uploadImagesToS3] *)
Definition uploadImagesToS3 (openaiImagesArray : list UploadToS3Type)
  : option (list UploadReturnType) :=
  Some (uploadFrom 0 openaiImagesArray).

(** [imageResults.map((result, idx) => ({ ..., location:
    recipes[idx].openaiPromptId }))]; reading [recipes[idx]] beyond the
    end of the array throws. *)
Fixpoint imagesArrayFrom (idx : nat) (imageResults : list ImageWithName)
         (recipes : list Recipe) (userId : string)
  : Eff.t Api.Db (list UploadToS3Type) :=
  match imageResults with
  | [] => Eff.ret []
  | result :: rest =>
      match nth_error recipes idx with
      | None => Eff.throw
      | Some r =>
          others <- imagesArrayFrom (S idx) rest recipes userId ;;
          Eff.ret ({| originalImgLink := img_link result;
                      up_userId := Some userId;
                      up_location := openaiPromptId r |} :: others)
      end
  end.

Fixpoint documentsFrom (idx : nat) (docs : list SaveRecipes.RecipeToInsert)
  : list Api.RecipeDocument :=
  match docs with
  | [] => []
  | d :: rest =>
      {| Api.rd_id := newId idx;
         Api.rd_recipe := SaveRecipes.doc d;
         Api.rd_owner := SaveRecipes.doc_owner d;
         Api.rd_imgLink := SaveRecipes.doc_imgLink d;
         Api.rd_likedBy := [] |} :: documentsFrom (S idx) rest
  end.

(** [recipe.insertMany(updatedRecipes)] *)
Definition insertMany (docs : list SaveRecipes.RecipeToInsert)
  : Eff.t Api.Db unit :=
  db <- Eff.get ;;
  Api.setRecipes (Api.db_recipes db ++ documentsFrom 0 docs)%list.

Definition reply (status : nat) (error : option string) : SaveReply :=
  {| save_status := status; save_error := error |}.

(** The handler; the body of the request holds [recipes], if it does. *)
Definition handler (req : Api.Request (option (list Recipe)))
  : Eff.t Api.Db SaveReply :=
  Eff.tryCatch
    (if negb (String.eqb (Api.method req) "POST") then
       Eff.ret (reply 405 (Some ("Method " ++ Api.method req
                                 ++ " Not Allowed")))
     else
       match Api.session req with
       | None => Eff.ret (reply 401 (Some "You must be logged in."))
       | Some userId =>
           match Api.body req with
           | None => Eff.throw
           | Some recipes =>
               imageResults <- generateImages recipes ;;
               openaiImagesArray <-
                 imagesArrayFrom 0 imageResults recipes userId ;;
               let uploadResults := uploadImagesToS3 openaiImagesArray in
               let updatedRecipes :=
                 SaveRecipes.updatedRecipes recipes userId uploadResults in
               Api.connectDB ;;
               insertMany updatedRecipes ;;
               Eff.ret (reply 200 None)
           end
       end)
    (Eff.ret (reply 500 (Some "Failed to save recipes"))).
End WithServices.

End SaveHandler.

(* ===================================================================== *)
(** ** Vocabulary of the further properties *)
(* ===================================================================== *)

Module MoreSpec.
Import Types.

(** *** The wizard *)

(** The ids of the candidates of the batch. *)
Definition batchIds (s : Navigation.State) : list string :=
  map openaiPromptId (Navigation.generatedRecipes s).

(** The names of the chosen ingredients. *)
Definition ingredientNames (s : Navigation.State) : list string :=
  map ingredient_name (Navigation.ingredients s).

(** Preferences and selection hold no value twice, the candidates have
    distinct ids, every selected id is the id of a candidate, and no batch
    exists while a generation is pending. *)
Definition selectionInvariant (p : Wizard.Page) : Prop :=
  let s := Wizard.state p in
  NoDup (Navigation.preferences s)
  /\ NoDup (batchIds s)
  /\ NoDup (Navigation.selectedRecipeIds s)
  /\ incl (Navigation.selectedRecipeIds s) (batchIds s)
  /\ (forall step0,
         In (Wizard.PendingGeneration step0) (Wizard.pending p) ->
         Navigation.generatedRecipes s = []).

(** The settlement of a call that did not succeed: the call was rejected,
    or the answer of the generation could not be parsed. *)
Definition failed (a : Wizard.Action) : bool :=
  match a with
  | Wizard.GenerationSettles _ Eff.Rejected => true
  | Wizard.GenerationSettles _ (Eff.Resolved response) =>
      match Navigation.resp_parsed response with
      | None => true
      | Some _ => false
      end
  | Wizard.SaveSettles _ Eff.Rejected => true
  | _ => false
  end.

(** A click on Prev or Next. *)
Definition navigation (a : Wizard.Action) : bool :=
  match a with
  | Wizard.ClickPrev | Wizard.ClickNext => true
  | _ => false
  end.

(** The settlement of a pending call. *)
Definition settlement (a : Wizard.Action) : bool :=
  match a with
  | Wizard.GenerationSettles _ _ | Wizard.SaveSettles _ _ => true
  | _ => false
  end.

(** Ingredients, preferences and batch are those of [s]. *)
Definition sameInputs (s s' : Navigation.State) : Prop :=
  Navigation.ingredients s' = Navigation.ingredients s
  /\ Navigation.preferences s' = Navigation.preferences s
  /\ Navigation.generatedRecipes s' = Navigation.generatedRecipes s.

(** The page shows the spinner and waits for nothing. *)
Definition stuck (p : Wizard.Page) : Prop :=
  Navigation.isLoading (Wizard.state p) = true /\ Wizard.pending p = [].

(** The page reached by a list of actions; the page itself if one of them
    is not possible. *)
Definition after (actions : list Wizard.Action) (p : Wizard.Page)
  : Wizard.Page :=
  match Wizard.replay actions p with
  | Some q => q
  | None => p
  end.

(** *** Profile *)

(** The likes of a list of recipes, counted together. *)
Definition totalLikes (l : list ExtendedRecipe) : nat :=
  fold_left (fun total r => (total + List.length (likedBy r))%nat) l 0%nat.

(** *** Deleting and liking *)

(** The answer of the delete route carries a message and no error. *)
Definition confirmed (answer : Eff.Settled RecipeDisplay.DeleteResponse)
  : bool :=
  match answer with
  | Eff.Resolved response =>
      negb (RecipeDisplay.optTruthy (RecipeDisplay.del_error response))
      && RecipeDisplay.optTruthy (RecipeDisplay.del_message response)
  | Eff.Rejected => false
  end.

(** The call was rejected or its answer carries an error. *)
Definition refused (answer : Eff.Settled RecipeDisplay.DeleteResponse)
  : bool :=
  match answer with
  | Eff.Resolved response =>
      RecipeDisplay.optTruthy (RecipeDisplay.del_error response)
  | Eff.Rejected => true
  end.

(** The stored recipe of a given id. *)
Definition findRecipe (id : string) (db : Api.Db)
  : option Api.RecipeDocument :=
  find (fun r => String.eqb (Api.rd_id r) id) (Api.db_recipes db).

(** The update [toggleLike] picks for the recipe it has found. *)
Definition likeUpdate (user : string) (recipe : Api.RecipeDocument)
  : Api.RecipeDocument -> Api.RecipeDocument :=
  if JS.some (fun r => String.eqb r user) (Api.rd_likedBy recipe)
  then Api.pull user else Api.addToSet user.

Definition toggled (user : string) (recipe : Api.RecipeDocument)
  : Api.RecipeDocument :=
  likeUpdate user recipe recipe.

(** What the card receives when its user asks to delete the recipe of the
    dialog: the reply of the route as [call_api] hands it over. *)
Definition deleteAnswer (isValid : string -> bool) (user : option string)
           (recipeId : string) (db : Api.Db)
  : Eff.Settled RecipeDisplay.DeleteResponse * Api.Db :=
  match Api.deleteRecipe isValid
          {| Api.method := "DELETE"; Api.session := user;
             Api.body := recipeId |} db with
  | (Eff.Normal reply, db') =>
      (Api.received (Api.del_status reply) (Api.del_body reply), db')
  | (Eff.Thrown, db') => (Eff.Rejected, db')
  end.

(** *** The catalog *)

Definition catalogNames (db : Api.Db) : list string :=
  map doc_name (Api.db_ingredients db).

(** The dialog with [candidate] typed in. *)
Definition withCandidate (candidate : string)
           (d : NewIngredientDialog.Dialog) : NewIngredientDialog.Dialog :=
  {| NewIngredientDialog.isOpen := NewIngredientDialog.isOpen d;
     NewIngredientDialog.ingredientName := candidate;
     NewIngredientDialog.isLoading := NewIngredientDialog.isLoading d;
     NewIngredientDialog.message := NewIngredientDialog.message d;
     NewIngredientDialog.isDisabled := NewIngredientDialog.isDisabled d;
     NewIngredientDialog.ingredientList :=
       NewIngredientDialog.ingredientList d;
     NewIngredientDialog.requests := NewIngredientDialog.requests d |}.

(** What the dialog receives from the validation route for a candidate. *)
Definition validationAnswer (validation : Api.Validation)
           (newId now userId candidate : string) (db : Api.Db)
  : Eff.Settled NewIngredientDialog.Response * Api.Db :=
  match Api.validateIngredientHandler validation newId now
          {| Api.method := "POST"; Api.session := Some userId;
             Api.body := Some candidate |} db with
  | (Eff.Normal reply, db') =>
      (Api.received (Api.val_status reply) (Api.val_body reply), db')
  | (Eff.Thrown, db') => (Eff.Rejected, db')
  end.

(** *** Saving *)





End MoreSpec.

(* ===================================================================== *)
(** ** Further sample data *)
(* ===================================================================== *)

Module MoreSamples.
Import Types.

(** *** Pages of the wizard *)

Definition mounted : Wizard.Page := Samples.mountedWith Samples.threePicks.

(** At the review step, after a click on Create Recipes. *)
Definition waiting : Wizard.Page :=
  MoreSpec.after
    [Wizard.ClickNext; Wizard.ClickNext; Wizard.ClickCreateRecipes] mounted.

(** The batch has arrived; the first and the third candidate are selected
    and the user has moved on to the last step. *)
Definition reviewing : Wizard.Page :=
  MoreSpec.after
    [Wizard.GenerationSettles 0 (Samples.generated "batch1");
     Wizard.ToggleRecipe "batch1-0"; Wizard.ToggleRecipe "batch1-2";
     Wizard.ClickNext]
    waiting.

(** The batch has arrived and the user has walked back to the first
    step. *)
Definition backAtStart : Wizard.Page :=
  MoreSpec.after
    [Wizard.GenerationSettles 0 (Samples.generated "batch1");
     Wizard.ClickPrev; Wizard.ClickPrev; Wizard.ClickPrev]
    waiting.

(** The generation call has failed. *)
Definition afterFailure : Wizard.Page :=
  MoreSpec.after [Wizard.GenerationSettles 0 Eff.Rejected] waiting.

(** *** Recipes on a page *)

Definition viewing (shown : option ExtendedRecipe) : RecipeDisplay.View :=
  {| RecipeDisplay.latestRecipes :=
       [Samples.soup; Samples.salad; Samples.stew];
     RecipeDisplay.openDialog := shown;
     RecipeDisplay.deleteId := "";
     RecipeDisplay.sent := [] |}.

Definition deleted : Eff.Settled RecipeDisplay.DeleteResponse :=
  Eff.Resolved {| RecipeDisplay.del_message := Some "Deleted recipe with id r2";
                  RecipeDisplay.del_error := None |}.

(** [salad] with a different owner flag, as a second entry of the same
    id. *)
Definition saladTwin : ExtendedRecipe :=
  Samples.entry "r2" (Samples.dish "Salad" ["Tomato"] [] "p2")
                Samples.ann [].

(** *** The database *)

Definition stored (id owner_ : string) (likers : list string)
  : Api.RecipeDocument :=
  {| Api.rd_id := id;
     Api.rd_recipe := Samples.dish "Soup" ["tomato"] [] "p1";
     Api.rd_owner := owner_;
     Api.rd_imgLink := "/logo.svg";
     Api.rd_likedBy := likers |}.

Definition database : Api.Db :=
  {| Api.db_recipes := [stored "r1" "u1" ["u2"]; stored "r2" "u2" [];
                        stored "r3" "u1" ["u1"; "u2"]];
     Api.db_ingredients := [Samples.tomato];
     Api.db_connects := true |}.

(** A stand-in for [ObjectId.isValid]: the ids of the samples. *)
Definition isValidSample (id : string) : bool :=
  String.eqb id "r1" || String.eqb id "r2" || String.eqb id "r3".



Definition request {B} (m : string) (user : option string) (b : B)
  : Api.Request B :=
  {| Api.method := m; Api.session := user; Api.body := b |}.

(** *** The image and storage services *)

(** Every image is generated. *)
Definition imagesFine (idx : nat) : Eff.Settled (option string) :=
  Eff.Resolved (Some "https://images.example.org/1.png").

(** The image of the second recipe fails. *)
Definition secondImageFails (idx : nat) : Eff.Settled (option string) :=
  if Nat.eqb idx 1 then Eff.Rejected else imagesFine idx.

(** Only the image of the first recipe can be fetched. *)
Definition firstFetched (idx : nat) : bool := Nat.eqb idx 0.

Definition idOf (idx : nat) : string :=
  ("new-" ++ JS.numberToString idx)%string.

Definition twoTagged : list Recipe :=
  Navigation.tagRecipes "batch1" [Samples.omelette; Samples.pancake].

End MoreSamples.

(* ===================================================================== *)
(** ** Properties of the JavaScript built-ins *)
(* ===================================================================== *)

Module JSFacts.
Local Open Scope Z_scope.

Section Arrays.
Context {A : Type}.
Implicit Types (p : A -> bool) (l pre post : list A).

Lemma findIndexFrom_absent p l i :
  forallb (fun x => negb (p x)) l = true ->
  JS.findIndexFrom p l i = -1.
Proof.
  revert i; induction l as [|x l IH]; intros i H; simpl in *.
  - reflexivity.
  - apply andb_true_iff in H as [Hx Hl].
    apply negb_true_iff in Hx. rewrite Hx. now apply IH.
Qed.

Lemma findIndexFrom_first p pre x post i :
  forallb (fun y => negb (p y)) pre = true ->
  p x = true ->
  JS.findIndexFrom p (pre ++ x :: post) i = i + Z.of_nat (List.length pre).
Proof.
  revert i; induction pre as [|y pre IH]; intros i Hpre Hx.
  - simpl. rewrite Hx. lia.
  - simpl in Hpre. apply andb_true_iff in Hpre as [Hy Hpre].
    apply negb_true_iff in Hy.
    cbn [app JS.findIndexFrom]. rewrite Hy, IH by assumption.
    cbn [List.length]. lia.
Qed.

Lemma slice_prefix pre post :
  JS.slice (pre ++ post) 0 (Some (Z.of_nat (List.length pre))) = pre.
Proof.
  unfold JS.slice, JS.relativeIndex.
  rewrite length_app, Nat2Z.inj_add.
  destruct (Z.ltb_spec (Z.of_nat (List.length pre)) 0); [lia|].
  cbn [Z.ltb Z.compare Z.min].
  rewrite Z.min_l by lia. rewrite Z.min_l by lia.
  rewrite Z.sub_0_r, Nat2Z.id. simpl skipn.
  rewrite firstn_app, Nat.sub_diag, firstn_all. simpl.
  apply app_nil_r.
Qed.

Lemma slice_suffix pre x post :
  JS.slice (pre ++ x :: post) (Z.of_nat (List.length pre) + 1) None = post.
Proof.
  unfold JS.slice, JS.relativeIndex.
  rewrite length_app, Nat2Z.inj_add. cbn [List.length].
  destruct (Z.ltb_spec (Z.of_nat (List.length pre) + 1) 0); [lia|].
  rewrite Z.min_l by lia.
  replace (Z.to_nat (Z.of_nat (List.length pre) + 1))
    with (List.length pre + 1)%nat by lia.
  replace (Z.to_nat _) with (List.length post) by lia.
  rewrite skipn_app.
  rewrite skipn_all2 by lia.
  replace (List.length pre + 1 - List.length pre)%nat with 1%nat by lia.
  simpl. apply firstn_all.
Qed.

Lemma slice_whole l : JS.slice l 0 None = l.
Proof.
  unfold JS.slice, JS.relativeIndex. cbn [Z.ltb Z.compare].
  rewrite Z.min_l by lia. rewrite Z.sub_0_r, Nat2Z.id. simpl skipn.
  apply firstn_all.
Qed.

(** [slice(0, -1)] drops the last element. *)
Lemma slice_drop_last l : JS.slice l 0 (Some (-1)) = removelast l.
Proof.
  unfold JS.slice, JS.relativeIndex. cbn [Z.ltb Z.compare].
  rewrite Z.min_l by lia. simpl skipn. rewrite Z.sub_0_r.
  rewrite removelast_firstn_len. f_equal. lia.
Qed.

(** A list in which exactly one element satisfies [p] splits around
    that element. *)
Lemma split_at_unique p l :
  List.length (filter p l) = 1%nat ->
  exists pre x post,
    l = pre ++ x :: post /\ p x = true
    /\ forallb (fun y => negb (p y)) pre = true
    /\ forallb (fun y => negb (p y)) post = true.
Proof.
  induction l as [|y l IH]; simpl; intros H; [discriminate|].
  destruct (p y) eqn:Hy.
  - exists [], y, l. repeat split; auto.
    simpl in H. injection H as H.
    apply length_zero_iff_nil in H.
    apply forallb_forall. intros z Hz.
    destruct (p z) eqn:Hpz; [|reflexivity].
    assert (In z (filter p l)) by (apply filter_In; auto).
    rewrite H in *. contradiction.
  - destruct (IH H) as (pre & x & post & -> & Hx & Hpre & Hpost).
    exists (y :: pre), x, post. repeat split; auto.
    simpl. now rewrite Hy, Hpre.
Qed.

Lemma nonEmpty_filter p l : JS.nonEmpty (filter p l) = existsb p l.
Proof.
  unfold JS.nonEmpty.
  induction l as [|x l IH]; simpl; [reflexivity|].
  destruct (p x); simpl; auto.
Qed.

Lemma nonEmpty_false l : JS.nonEmpty l = false -> l = [].
Proof. destruct l; [reflexivity|discriminate]. Qed.
End Arrays.

Lemma lowerChar_idem c : JS.lowerChar (JS.lowerChar c) = JS.lowerChar c.
Proof.
  destruct c as [[] [] [] [] [] [] [] []]; reflexivity.
Qed.

Lemma toLowerCase_idem s :
  JS.toLowerCase (JS.toLowerCase s) = JS.toLowerCase s.
Proof.
  induction s as [|c s IH]; simpl; [reflexivity|].
  now rewrite lowerChar_idem, IH.
Qed.

Lemma split_nonempty sep s : JS.split sep s <> [].
Proof.
  destruct s as [|c s]; simpl; [discriminate|].
  destruct (Ascii.eqb c sep); [discriminate|].
  destruct (JS.split sep s); discriminate.
Qed.

(** The first segment of [a ++ sep ++ b] is [a] when [sep] does not
    occur in [a]. *)
Lemma split_first_segment a b :
  Spec.hasHyphen a = false ->
  nth 0 (JS.split "-" (a ++ String "-" b)) "" = a.
Proof.
  induction a as [|c a IH]; intros H.
  - reflexivity.
  - simpl in H. apply orb_false_iff in H as [Hc Ha].
    cbn [append JS.split]. rewrite Hc.
    specialize (IH Ha).
    destruct (JS.split "-" (a ++ String "-" b)) as [|seg segs] eqn:E.
    + now apply split_nonempty in E.
    + simpl in *. now subst.
Qed.

End JSFacts.

(* ===================================================================== *)
(** ** utils/utils.ts: reconciliation, projection and search *)
(* ===================================================================== *)

Module UtilsProps.
Import Types Utils Spec.

(** When the id looked for is the id of exactly one entry, the list
    splits around that entry and [findIndex] returns its position. *)
Lemma findIndex_unique (l : list ExtendedRecipe) (id : string) :
  occurrences id l = 1%nat ->
  exists pre x post,
    l = pre ++ x :: post /\ _id x = id
    /\ forallb (fun y => negb (hasId id y)) pre = true
    /\ forallb (fun y => negb (hasId id y)) post = true
    /\ JS.findIndex (fun p => strictEq (_id p) (Some id)) l
       = Z.of_nat (List.length pre).
Proof.
  intros H. apply JSFacts.split_at_unique in H
    as (pre & x & post & -> & Hx & Hpre & Hpost).
  exists pre, x, post. repeat split; auto.
  - now apply String.eqb_eq in Hx.
  - unfold JS.findIndex.
    rewrite JSFacts.findIndexFrom_first; auto.
Qed.

Lemma replaceById_split updated pre x post :
  _id x = _id updated ->
  forallb (fun y => negb (hasId (_id updated) y)) pre = true ->
  forallb (fun y => negb (hasId (_id updated) y)) post = true ->
  replaceById updated (pre ++ x :: post) = pre ++ updated :: post.
Proof.
  intros Hx Hpre Hpost. unfold replaceById.
  assert (keep : forall l,
             forallb (fun y => negb (hasId (_id updated) y)) l = true ->
             map (fun p => if hasId (_id updated) p then updated else p) l
             = l).
  { induction l as [|y l IH]; simpl; intros H; [reflexivity|].
    apply andb_true_iff in H as [Hy Hl].
    apply negb_true_iff in Hy. now rewrite Hy, IH. }
  rewrite map_app. cbn [map].
  rewrite !keep by assumption.
  unfold hasId at 1. rewrite Hx, String.eqb_refl. reflexivity.
Qed.

Lemma removeById_split id pre x post :
  _id x = id ->
  forallb (fun y => negb (hasId id y)) pre = true ->
  forallb (fun y => negb (hasId id y)) post = true ->
  removeById id (pre ++ x :: post) = pre ++ post.
Proof.
  intros Hx Hpre Hpost. unfold removeById.
  assert (keep : forall l,
             forallb (fun y => negb (hasId id y)) l = true ->
             filter (fun p => negb (hasId id p)) l = l).
  { induction l as [|y l IH]; simpl; intros H; [reflexivity|].
    apply andb_true_iff in H as [Hy Hl]. now rewrite Hy, IH. }
  rewrite filter_app. cbn [filter].
  rewrite !keep by assumption.
  unfold hasId at 1. rewrite Hx, String.eqb_refl. reflexivity.
Qed.

(** C1.  When exactly one entry of the list has the id of the updated
    recipe, [updateRecipeList] returns a list of the same length in which
    that entry is replaced by the updated recipe and every other entry
    stays where it was; when exactly one entry has the id to delete, it
    returns a list one shorter, without that entry and with the others in
    their original order. *)
Theorem updateRecipeList_present_once :
  forall (oldList : list ExtendedRecipe) (id : string),
    occurrences id oldList = 1%nat ->
    (forall updated deleteId,
        _id updated = id ->
        updateRecipeList oldList (Some updated) deleteId
        = replaceById updated oldList
        /\ List.length (updateRecipeList oldList (Some updated) deleteId)
           = List.length oldList)
    /\ updateRecipeList oldList None (Some id) = removeById id oldList
    /\ S (List.length (updateRecipeList oldList None (Some id)))
       = List.length oldList
    /\ occurrences id (updateRecipeList oldList None (Some id)) = 0%nat.
Proof.
  intros oldList id Hone.
  destruct (findIndex_unique _ _ Hone)
    as (pre & x & post & -> & Hx & Hpre & Hpost & Hidx).
  assert (Hdel : updateRecipeList (pre ++ x :: post) None (Some id)
                 = pre ++ post).
  { unfold updateRecipeList. rewrite Hidx.
    now rewrite JSFacts.slice_prefix, JSFacts.slice_suffix. }
  split; [|split; [|split]].
  - intros updated deleteId Hid.
    assert (Hupd : updateRecipeList (pre ++ x :: post) (Some updated) deleteId
                   = pre ++ updated :: post).
    { unfold updateRecipeList. rewrite Hid, Hidx.
      now rewrite JSFacts.slice_prefix, JSFacts.slice_suffix. }
    rewrite Hupd, replaceById_split by (rewrite Hid; auto).
    split; [reflexivity|]. rewrite !length_app. reflexivity.
  - rewrite Hdel. symmetry. now apply removeById_split.
  - rewrite Hdel, !length_app. simpl. lia.
  - rewrite Hdel. unfold occurrences.
    rewrite filter_app, length_app.
    assert (none : forall l,
               forallb (fun y => negb (hasId id y)) l = true ->
               List.length (filter (hasId id) l) = 0%nat).
    { induction l as [|y l IH]; simpl; intros H; [reflexivity|].
      apply andb_true_iff in H as [Hy Hl].
      apply negb_true_iff in Hy. now rewrite Hy, IH. }
    now rewrite !none.
Qed.

Lemma updateRecipeList_present_once_witness :
  occurrences "r2" [Samples.soup; Samples.salad; Samples.stew] = 1%nat
  /\ updateRecipeList [Samples.soup; Samples.salad; Samples.stew]
                      (Some Samples.salad') None
     = [Samples.soup; Samples.salad'; Samples.stew]
  /\ updateRecipeList [Samples.soup; Samples.salad; Samples.stew]
                      None (Some "r2")
     = [Samples.soup; Samples.stew].
Proof.
  assert (H : occurrences "r2" [Samples.soup; Samples.salad; Samples.stew]
              = 1%nat) by reflexivity.
  destruct (updateRecipeList_present_once _ _ H) as (Hupd & Hdel & _).
  split; [exact H|]. split.
  - destruct (Hupd Samples.salad' None eq_refl) as [-> _]. reflexivity.
  - rewrite Hdel. reflexivity.
Defined.

(** What [updateRecipeList] returns when no entry has the id looked for:
    [findIndex] yields [-1], so the first slice is the list without its
    last entry and the second slice is the whole list. *)
Lemma updateRecipeList_absent (oldList : list ExtendedRecipe)
      (newRecipe : option ExtendedRecipe) (deleteId : option string) :
  forallb (fun p => negb (strictEq (_id p)
                         (match newRecipe with
                          | Some n => Some (_id n)
                          | None => deleteId
                          end))) oldList = true ->
  updateRecipeList oldList newRecipe deleteId
  = match newRecipe with
    | Some n => removelast oldList ++ [n] ++ oldList
    | None => removelast oldList ++ oldList
    end.
Proof.
  intros H. unfold updateRecipeList, JS.findIndex.
  rewrite JSFacts.findIndexFrom_absent by exact H.
  change (-1 + 1)%Z with 0%Z.
  rewrite JSFacts.slice_drop_last, JSFacts.slice_whole.
  destruct newRecipe; reflexivity.
Qed.

(** C2.  On a list of two entries and an updated recipe whose id is not
    in the list, [updateRecipeList] does not return the list unchanged:
    it returns the first entry, the updated recipe and then the whole
    list again; deleting an id that is absent likewise returns the first
    entry followed by the whole list. *)
Theorem updateRecipeList_absent_not_noop :
  occurrences (_id Samples.pie) [Samples.soup; Samples.stew] = 0%nat
  /\ updateRecipeList [Samples.soup; Samples.stew] (Some Samples.pie) None
     = [Samples.soup; Samples.pie; Samples.soup; Samples.stew]
  /\ updateRecipeList [Samples.soup; Samples.stew] None (Some "r9")
     = [Samples.soup; Samples.soup; Samples.stew].
Proof. repeat split. Qed.

Lemma pickUser_idem u : pickUser (pickUser u) = pickUser u.
Proof. reflexivity. Qed.

Lemma some_pickUser userId l :
  JS.some (fun u => String.eqb (user_id u) userId) (map pickUser l)
  = JS.some (fun u => String.eqb (user_id u) userId) l.
Proof.
  unfold JS.some. induction l as [|u l IH]; simpl; [reflexivity|].
  now rewrite IH.
Qed.

(** C9.  [filterResults] is idempotent: applied with the same [userId]
    to its own output it returns that output. *)
Theorem filterResults_idempotent :
  forall (records : list ExtendedRecipe) (userId : string),
    filterResults (filterResults records userId) userId
    = filterResults records userId.
Proof.
  intros records userId. unfold filterResults.
  rewrite map_map. apply map_ext. intros r. cbn.
  rewrite some_pickUser, map_map.
  f_equal.
Qed.

(** The projection is not the identity on populated documents. *)
Example filterResults_projects :
  filterResults [Samples.soup] "u1" <> [Samples.soup]
  /\ map owns (filterResults [Samples.soup; Samples.salad] "u1")
     = [true; false]
  /\ map liked (filterResults [Samples.soup; Samples.stew] "u2")
     = [true; true].
Proof. split; [discriminate|split; reflexivity]. Qed.

End UtilsProps.

(* ===================================================================== *)
(** ** utils/utils.ts and pages/Home.tsx: the search filter *)
(* ===================================================================== *)

Module SearchProps.
Import Types Utils Spec.

(** On a query that is already in lower case, the predicate of
    [getFilteredRecipes] is the case-insensitive match. *)
Lemma isFound_lowercase query r :
  JS.toLowerCase query = query ->
  isFound query r = matchesIgnoringCase query r.
Proof.
  intros Hq. unfold isFound, matchesIgnoringCase, containsIgnoringCase.
  rewrite !JSFacts.nonEmpty_filter, Hq. reflexivity.
Qed.

Lemma matchesIgnoringCase_lower query r :
  matchesIgnoringCase (JS.toLowerCase query) r = matchesIgnoringCase query r.
Proof.
  unfold matchesIgnoringCase, containsIgnoringCase.
  now rewrite JSFacts.toLowerCase_idem.
Qed.

Lemma truthy_nonempty s : s <> "" -> JS.truthy s = true.
Proof. destruct s; [congruence|reflexivity]. Qed.

Lemma toLowerCase_nonempty s : s <> "" -> JS.toLowerCase s <> "".
Proof. destruct s; [congruence|discriminate]. Qed.

(** C3, as stated, fails: [getFilteredRecipes] compares the lowercased
    fields with the query as it is given, so the query ["Tomato"] does
    not find the recipe whose ingredient is named ["tomato"]. *)
Lemma getFilteredRecipes_query_case_counterexample :
  ~ (forall (recipes : list ExtendedRecipe) (query : string)
            (r : ExtendedRecipe),
        query <> "" ->
        (In r (getFilteredRecipes recipes (Some query))
         <-> In r recipes /\ matchesIgnoringCase query r = true)).
Proof.
  intros H.
  assert (Hq : "Tomato" <> "") by discriminate.
  destruct (H [Samples.soup] "Tomato" Samples.soup Hq) as [_ Hback].
  assert (Hin : In Samples.soup (getFilteredRecipes [Samples.soup]
                                                    (Some "Tomato"))).
  { apply Hback. split; [now left|reflexivity]. }
  exact Hin.
Qed.

(** C3, amended.  For every recipe list and every non-empty query that is
    already in lower case, [getFilteredRecipes] keeps, in their order,
    exactly the entries in which the query is, ignoring the letter case
    of the field, a substring of the recipe name, of an ingredient name
    or of a dietary tag. *)
Theorem getFilteredRecipes_lowercase_query :
  forall (recipes : list ExtendedRecipe) (query : string),
    query <> "" ->
    JS.toLowerCase query = query ->
    getFilteredRecipes recipes (Some query)
    = filter (matchesIgnoringCase query) recipes.
Proof.
  intros recipes query Hne Hlow. unfold getFilteredRecipes.
  rewrite truthy_nonempty by assumption. cbn [negb].
  apply filter_ext. intros r. now apply isFound_lowercase.
Qed.

Lemma getFilteredRecipes_lowercase_query_witness :
  "tomato" <> ""
  /\ JS.toLowerCase "tomato" = "tomato"
  /\ getFilteredRecipes [Samples.soup; Samples.salad; Samples.stew]
                        (Some "tomato")
     = [Samples.soup; Samples.salad].
Proof.
  assert (Hne : "tomato" <> "") by discriminate.
  assert (Hlow : JS.toLowerCase "tomato" = "tomato") by reflexivity.
  split; [exact Hne|]. split; [exact Hlow|].
  rewrite (getFilteredRecipes_lowercase_query _ _ Hne Hlow).
  reflexivity.
Defined.

(** The search box lowercases the query before it calls
    [getFilteredRecipes], so a search through [handleSearch] ignores the
    letter case of the query as well. *)
Lemma handleSearch_ignores_case recipes searchVal :
  JS.trim searchVal <> "" ->
  Home.handleSearch recipes searchVal
  = filter (matchesIgnoringCase (JS.trim searchVal)) recipes.
Proof.
  intros Hne. unfold Home.handleSearch, getFilteredRecipes.
  rewrite truthy_nonempty by now apply toLowerCase_nonempty.
  cbn [negb]. apply filter_ext. intros r.
  rewrite isFound_lowercase by apply JSFacts.toLowerCase_idem.
  apply matchesIgnoringCase_lower.
Qed.

Example handleSearch_mixed_case :
  Home.handleSearch [Samples.soup; Samples.salad; Samples.stew] " Tomato "
  = [Samples.soup; Samples.salad].
Proof. reflexivity. Qed.

End SearchProps.

(* ===================================================================== *)
(** ** NewIngredientDialog: the validation gate *)
(* ===================================================================== *)

Module DialogProps.
Import Types NewIngredientDialog Spec.

Lemma arrayIncludes_inCatalog form catalog :
  JS.arrayIncludes (map (fun i => JS.toLowerCase (doc_name i)) catalog) form
  = true
  <-> inCatalog form catalog.
Proof.
  unfold JS.arrayIncludes, inCatalog. rewrite existsb_exists. split.
  - intros (x & Hin & Heq). apply in_map_iff in Hin as (e & <- & He).
    apply String.eqb_eq in Heq. now exists e.
  - intros (e & He & <-). eexists. split.
    + apply in_map_iff. now exists e.
    + apply String.eqb_refl.
Qed.

Section Gate.
Variables pluralize singular : string -> string.

Lemma isAvailable_duplicate candidate catalog :
  isAvailable pluralize singular candidate catalog = true
  <-> duplicate pluralize singular (JS.trim candidate) catalog.
Proof.
  unfold isAvailable, duplicate.
  rewrite !orb_true_iff, !arrayIncludes_inCatalog. tauto.
Qed.

(** Once past the local checks the handler sends exactly one request,
    whatever the answer is, and gives the spinner back. *)
Lemma handleSubmit_passed d answer :
  JS.truthy (JS.trim (ingredientName d)) = true ->
  (20 <? String.length (JS.trim (ingredientName d)))%nat = false ->
  isAvailable pluralize singular (ingredientName d) (ingredientList d)
  = false ->
  let d' := Eff.exec (handleSubmit pluralize singular answer) d in
  requests d'
  = requests d ++ [("/api/validate-ingredient", ingredientName d)]
  /\ isLoading d' = false.
Proof.
  intros H1 H2 H3. unfold handleSubmit, Eff.exec, Eff.bind, Eff.get.
  rewrite H1, H2, H3. cbn.
  destruct answer as [response|]; cbn; [|split; reflexivity].
  destruct (optTruthy (resp_error response)); cbn; [split; reflexivity|].
  destruct (optEq (resp_message response) "Success"); cbn.
  { destruct (resp_newIngredient response); cbn; split; reflexivity. }
  destruct (optEq (resp_message response) "Invalid"); cbn.
  { destruct (resp_suggested response); cbn; split; reflexivity. }
  split; reflexivity.
Qed.

(** A candidate stopped by a local check leaves the requests and the
    catalog as they were. *)
Lemma handleSubmit_stopped d answer :
  JS.truthy (JS.trim (ingredientName d)) = false
  \/ (20 <? String.length (JS.trim (ingredientName d)))%nat = true
  \/ isAvailable pluralize singular (ingredientName d) (ingredientList d)
     = true ->
  let d' := Eff.exec (handleSubmit pluralize singular answer) d in
  requests d' = requests d /\ ingredientList d' = ingredientList d.
Proof.
  intros H. unfold handleSubmit, Eff.exec, Eff.bind, Eff.get.
  destruct (JS.truthy (JS.trim (ingredientName d)));
    [|split; reflexivity].
  destruct (20 <? String.length (JS.trim (ingredientName d)))%nat;
    [split; reflexivity|].
  destruct (isAvailable pluralize singular (ingredientName d)
                        (ingredientList d));
    [split; reflexivity|].
  destruct H as [H|[H|H]]; discriminate.
Qed.

(** C7.  [handleSubmit] sends a request to the validator only if the
    trimmed candidate has at most 20 characters and neither its
    lowercased form nor the plural or singular of that form is, ignoring
    the case of the catalog, a name of the catalog; a trimmed candidate
    of more than 20 characters, or one with such a form in the catalog,
    causes no request and leaves the catalog unchanged; a non-empty
    candidate that passes both checks is sent. *)
Theorem handleSubmit_gate :
  forall (d : Dialog) (answer : Eff.Settled Response),
    let d' := Eff.exec (handleSubmit pluralize singular answer) d in
    let candidate := JS.trim (ingredientName d) in
    (requests d' <> requests d ->
     String.length candidate <= 20
     /\ ~ duplicate pluralize singular candidate (ingredientList d))
    /\ (20 < String.length candidate
        \/ duplicate pluralize singular candidate (ingredientList d) ->
        requests d' = requests d
        /\ ingredientList d' = ingredientList d)
    /\ (candidate <> "" ->
        String.length candidate <= 20 ->
        ~ duplicate pluralize singular candidate (ingredientList d) ->
        requests d'
        = requests d ++ [("/api/validate-ingredient", ingredientName d)]).
Proof.
  intros d answer d' candidate.
  assert (Hlong : 20 < String.length candidate ->
                  requests d' = requests d
                  /\ ingredientList d' = ingredientList d).
  { intros H. apply handleSubmit_stopped. right; left.
    now apply Nat.ltb_lt. }
  assert (Hdup : duplicate pluralize singular candidate (ingredientList d)
                 -> requests d' = requests d
                    /\ ingredientList d' = ingredientList d).
  { intros H. apply handleSubmit_stopped. right; right.
    now apply isAvailable_duplicate. }
  split; [|split].
  - intros Hreq. split.
    + destruct (Nat.le_gt_cases (String.length candidate) 20) as [|Hgt];
        [assumption|].
      destruct (Hlong Hgt) as [E _]. contradiction.
    + intros H. destruct (Hdup H) as [E _]. contradiction.
  - intros [H|H]; auto.
  - intros Hne Hlen Hnodup.
    apply handleSubmit_passed.
    + subst candidate. destruct (JS.trim (ingredientName d));
        [congruence|reflexivity].
    + apply Nat.ltb_ge. exact Hlen.
    + destruct (isAvailable pluralize singular (ingredientName d)
                            (ingredientList d)) eqn:E; [|reflexivity].
      apply isAvailable_duplicate in E. contradiction.
Qed.
End Gate.

(** ["tomatoes"] against a catalog holding ["Tomato"]: stopped as a
    duplicate, no request; a name of 25 characters: stopped for its
    length, no request. *)
Lemma handleSubmit_gate_witness :
  duplicate Samples.pluralizeSample Samples.singularSample
            (JS.trim " tomatoes ") [Samples.tomato]
  /\ requests (Eff.exec (handleSubmit Samples.pluralizeSample
                                      Samples.singularSample
                                      (Samples.validAnswer "tomatoes"))
                        (Samples.dialogWith " tomatoes ")) = []
  /\ ingredientList
       (Eff.exec (handleSubmit Samples.pluralizeSample
                               Samples.singularSample
                               (Samples.validAnswer "tomatoes"))
                 (Samples.dialogWith " tomatoes ")) = [Samples.tomato].
Proof.
  assert (Hdup : duplicate Samples.pluralizeSample Samples.singularSample
                           (JS.trim " tomatoes ") [Samples.tomato]).
  { right; right. exists Samples.tomato. split; [now left|reflexivity]. }
  split; [exact Hdup|].
  destruct (handleSubmit_gate Samples.pluralizeSample Samples.singularSample
              (Samples.dialogWith " tomatoes ")
              (Samples.validAnswer "tomatoes")) as (_ & Hstop & _).
  exact (Hstop (or_intror Hdup)).
Defined.

Example handleSubmit_too_long :
  let d' := Eff.exec (handleSubmit Samples.pluralizeSample
                                   Samples.singularSample
                                   (Samples.validAnswer "x"))
                     (Samples.dialogWith "abcdefghijklmnopqrstuvwxy") in
  requests d' = [] /\ message d' = "This ingredient name is too long!"
  /\ isDisabled d' = true /\ ingredientList d' = [Samples.tomato].
Proof. repeat split. Qed.

Example handleSubmit_valid :
  let d' := Eff.exec (handleSubmit Samples.pluralizeSample
                                   Samples.singularSample
                                   (Samples.validAnswer "basil"))
                     (Samples.dialogWith "Basil") in
  requests d' = [("/api/validate-ingredient", "Basil")]
  /\ map doc_name (ingredientList d') = ["Tomato"; "basil"]
  /\ message d' = "Successfully added: basil"
  /\ isLoading d' = false.
Proof. repeat split. Qed.

End DialogProps.

(* ===================================================================== *)
(** ** Batch identifiers: tagging on the client, stripping on the server *)
(* ===================================================================== *)

Module BatchIdProps.
Import Types Navigation SaveRecipes Spec.

(** Stripping undoes tagging on a batch id without a hyphen. *)
Lemma removeClientKey_tagRecipe batchId recipe idx :
  hasHyphen batchId = false ->
  removeClientKey (openaiPromptId (tagRecipe batchId recipe idx)) = batchId.
Proof.
  intros H. unfold removeClientKey, tagRecipe. cbn [openaiPromptId].
  now apply JSFacts.split_first_segment.
Qed.

Lemma savedIds_tagRecipesFrom batchId idx parsed userId uploads :
  hasHyphen batchId = false ->
  savedIds (updatedRecipes (tagRecipesFrom batchId idx parsed) userId uploads)
  = map (fun _ => batchId) parsed.
Proof.
  intros H. revert idx.
  induction parsed as [|r parsed IH]; intros idx; [reflexivity|].
  cbn [tagRecipesFrom]. unfold savedIds, updatedRecipes in *.
  cbn [map doc openaiPromptId].
  rewrite (removeClientKey_tagRecipe batchId r idx H).
  f_equal. apply IH.
Qed.

(** The documents saved from a batch whose id has no hyphen (an ObjectId
    in hexadecimal has none) all carry the id of the batch. *)
Lemma savedIds_plain_batch batchId parsed userId uploads :
  hasHyphen batchId = false ->
  savedIds (updatedRecipes (tagRecipes batchId parsed) userId uploads)
  = map (fun _ => batchId) parsed.
Proof. apply savedIds_tagRecipesFrom. Qed.

Example batch1_roundtrip :
  map openaiPromptId (tagRecipes "batch1" [Samples.omelette;
                                           Samples.pancake;
                                           Samples.custard])
  = ["batch1-0"; "batch1-1"; "batch1-2"]
  /\ savedIds (updatedRecipes
                 (tagRecipes "batch1" [Samples.omelette; Samples.pancake;
                                       Samples.custard]) "u1" None)
     = ["batch1"; "batch1"; "batch1"].
Proof. split; reflexivity. Qed.

(** C8.  With the batch id ['null-prompt-id'], which [generateRecipe]
    returns when the response could not be stored, the candidates are
    tagged [null-prompt-id-0] and [null-prompt-id-1], and the documents
    saved from them carry the id [null], not the id of the batch. *)
Theorem hyphenated_batch_id_not_restored :
  map openaiPromptId
      (tagRecipes "null-prompt-id" [Samples.omelette; Samples.pancake])
  = ["null-prompt-id-0"; "null-prompt-id-1"]
  /\ savedIds (updatedRecipes
                 (tagRecipes "null-prompt-id"
                             [Samples.omelette; Samples.pancake])
                 "u1" None)
     = ["null"; "null"].
Proof. split; reflexivity. Qed.

End BatchIdProps.

(* ===================================================================== *)
(** ** Navigation: the handlers *)
(* ===================================================================== *)

Module NavigationProps.
Import Types Navigation.
Local Open Scope Z_scope.

(** Running a handler in one go is dispatching its call and then settling
    it with the [step] of the state it was started in. *)
Lemma handleIngredientSubmit_split answer s :
  Eff.exec (handleIngredientSubmit answer) s
  = Eff.exec (settleGeneration (step s) answer)
             (Eff.exec dispatchGeneration s).
Proof.
  destruct answer as [response|]; [|reflexivity].
  unfold handleIngredientSubmit, settleGeneration, afterGeneration.
  destruct (resp_parsed response) eqn:E;
    unfold Eff.exec, Eff.bind, Eff.tryCatch, Eff.get; cbn;
    rewrite E; reflexivity.
Qed.

Lemma handleRecipeSubmit_split recipes answer s :
  Eff.exec (handleRecipeSubmit recipes answer) s
  = Eff.exec (settleSave answer) (Eff.exec dispatchSave s).
Proof. destruct answer; reflexivity. Qed.

(** C4.  When the save call succeeds, [handleRecipeSubmit] leaves the
    ingredients, the preferences, the generated candidates and the
    selection empty and the step at 0; when the call fails it changes
    none of the five. *)
Theorem handleRecipeSubmit_outcomes :
  forall (s : State) (recipes : list Recipe),
    (let s' := Eff.exec (handleRecipeSubmit recipes (Eff.Resolved tt)) s in
     ingredients s' = [] /\ preferences s' = []
     /\ generatedRecipes s' = [] /\ selectedRecipeIds s' = []
     /\ step s' = 0)
    /\ (let s' := Eff.exec (handleRecipeSubmit recipes Eff.Rejected) s in
        ingredients s' = ingredients s
        /\ preferences s' = preferences s
        /\ generatedRecipes s' = generatedRecipes s
        /\ selectedRecipeIds s' = selectedRecipeIds s
        /\ step s' = step s).
Proof. intros s recipes. repeat split. Qed.

(** C6.  When the call fails, or when the answer of the generation call
    cannot be parsed, neither handler sets the loading state back: it is
    set before the call is dispatched, and [setIsLoading(false)] is run
    only when the call has succeeded. *)
Theorem loading_kept_on_failure :
  forall (s : State) (recipes : list Recipe) (batchId : string),
    (let s' := Eff.exec (handleIngredientSubmit Eff.Rejected) s in
     isLoading s' = true
     /\ log s' = log s ++ [SetIsLoading true;
                           CallApi "/api/generate-recipes"; ConsoleLog])
    /\ (let s' := Eff.exec (handleRecipeSubmit recipes Eff.Rejected) s in
        isLoading s' = true
        /\ log s' = log s ++ [SetIsLoading true;
                              CallApi "/api/save-recipes"; ConsoleLog])
    /\ (let s' := Eff.exec
                    (handleIngredientSubmit
                       (Eff.Resolved {| resp_parsed := None;
                                        resp_openaiPromptId := batchId |}))
                    s in
        isLoading s' = true)
    /\ (let s' := Eff.exec (handleRecipeSubmit recipes (Eff.Resolved tt)) s
        in
        isLoading s' = false
        /\ log s' = log s ++ [SetIsLoading true;
                              CallApi "/api/save-recipes";
                              SetIsLoading false; RouterPush "/Profile"]).
Proof.
  intros s recipes batchId. cbn.
  rewrite <- !app_assoc. cbn. repeat split.
Qed.

Lemma updateStep_step val s :
  step (Eff.exec (updateStep val) s)
  = if (step s + val <? 0) || (step s + val >=? steps_length)
    then 0 else step s + val.
Proof. reflexivity. Qed.

(** C10.  From a step between 0 and 4, [updateStep] with a delta of +1 or
    -1 yields a step between 0 and 4; a sum below 0 or not below the
    number of steps yields exactly 0, any other sum is kept. *)
Theorem updateStep_in_range :
  forall (s : State) (val : Z),
    0 <= step s <= 4 ->
    val = 1 \/ val = -1 ->
    let s' := Eff.exec (updateStep val) s in
    0 <= step s' <= 4
    /\ (step s + val < 0 \/ steps_length <= step s + val -> step s' = 0)
    /\ (0 <= step s + val < steps_length -> step s' = step s + val).
Proof.
  intros s val Hs Hval s'. subst s'. rewrite updateStep_step.
  change steps_length with 5.
  destruct (Z.ltb_spec (step s + val) 0);
    destruct (Z.geb_spec (step s + val) 5); cbn [orb]; lia.
Qed.

(** From the last step, Next leads to step 0, not to step 4. *)
Lemma updateStep_in_range_witness :
  0 <= step (Samples.stateAt 4 []) <= 4
  /\ step (Eff.exec (updateStep 1) (Samples.stateAt 4 [])) = 0.
Proof.
  assert (H : 0 <= step (Samples.stateAt 4 []) <= 4) by (cbn; lia).
  split; [exact H|].
  destruct (updateStep_in_range (Samples.stateAt 4 []) 1 H (or_introl eq_refl))
    as (_ & Hreset & _).
  apply Hreset. right. cbn. lia.
Defined.

End NavigationProps.

(* ===================================================================== *)
(** ** The wizard: what every reachable page satisfies *)
(* ===================================================================== *)

Module WizardProps.
Import Types Navigation Wizard Spec.
Local Open Scope Z_scope.

Lemma shown_true n p :
  shown n p = true -> isLoading (state p) = false /\ step (state p) = n.
Proof.
  unfold shown. intros H. apply andb_true_iff in H as [H1 H2].
  apply negb_true_iff in H1. apply Z.eqb_eq in H2. auto.
Qed.

Lemma not_loading_no_pending p :
  wizardInvariant p -> isLoading (state p) = false -> pending p = [].
Proof.
  intros (_ & _ & _ & H & _) Hl.
  destruct (pending p) eqn:E; [reflexivity|].
  destruct H as [H _]; [discriminate|]. congruence.
Qed.

Lemma shown_facts n p :
  wizardInvariant p -> shown n p = true ->
  isLoading (state p) = false /\ step (state p) = n /\ pending p = [].
Proof.
  intros Hinv H. apply shown_true in H as [Hl Hn].
  repeat split; auto. now apply not_loading_no_pending.
Qed.

Lemma pending_single p i c :
  wizardInvariant p -> nth_error (pending p) i = Some c ->
  pending p = [c] /\ removeNth i (pending p) = [].
Proof.
  intros (_ & _ & Hlen & _) Hn.
  destruct (pending p) as [|c0 [|c1 l]]; simpl in *.
  - destruct i; discriminate.
  - destruct i as [|i]; simpl in Hn.
    + injection Hn as ->. auto.
    + destruct i; discriminate.
  - lia.
Qed.

Lemma updateStep_bounds v s : 0 <= step (Eff.exec (updateStep v) s) <= 4.
Proof.
  change (step (Eff.exec (updateStep v) s))
    with (if (step s + v <? 0) || (step s + v >=? 5) then 0 else step s + v).
  destruct (Z.ltb_spec (step s + v) 0);
    destruct (Z.geb_spec (step s + v) 5); cbn [orb]; lia.
Qed.

Lemma finalRecipes_nonEmpty s :
  JS.nonEmpty (finalRecipes s) = true -> generatedRecipes s <> [].
Proof.
  unfold finalRecipes. intros H E. rewrite E in H. discriminate.
Qed.

(** A control that was clicked was enabled. *)
Ltac enabled_in H :=
  match type of H with
  | (if ?c then _ else _) = Some _ =>
      let G := fresh "G" in
      destruct c eqn:G; [|discriminate H]
  end.

Ltac close := repeat split; auto; try tauto; try lia; try discriminate.

Lemma perform_preserves a p p' :
  wizardInvariant p -> perform a p = Some p' -> wizardInvariant p'.
Proof.
  intros Hinv Hstep.
  pose proof Hinv as (Hs & Hb & Hlen & Hpl & Hpg).
  unfold perform in Hstep.
  destruct (reachedLimit p); [discriminate|].
  destruct a.
  - destruct (prevDisabled (state p)); [discriminate|].
    injection Hstep as <-. split; [apply updateStep_bounds|]. cbn. auto.
  - destruct (nextDisabled (state p)); [discriminate|].
    injection Hstep as <-. split; [apply updateStep_bounds|]. cbn. auto.
  - (* an ingredient is chosen: no batch exists, nothing is pending *)
    enabled_in Hstep. injection Hstep as <-.
    apply andb_true_iff in G as [Gs Gb].
    apply (shown_facts _ _ Hinv) in Gs as (Hl & H0 & Hp).
    apply negb_true_iff, JSFacts.nonEmpty_false in Gb.
    unfold wizardInvariant, run, handleChange, Eff.exec, Eff.bind, Eff.get.
    cbn [state pending]. rewrite Hp.
    destruct val as [val|]; cbn; [|rewrite Gb; close].
    destruct (JS.truthy val); cbn; [|rewrite Gb; close].
    destruct (JS.some _ _); cbn; rewrite Gb; close.
  - (* a chip is deleted: refused while a batch exists *)
    enabled_in Hstep. injection Hstep as <-.
    apply (shown_facts _ _ Hinv) in G as (Hl & H0 & Hp).
    unfold wizardInvariant, run, deleteIngredient, Eff.exec, Eff.bind,
      Eff.get.
    cbn [state pending]. rewrite Hp.
    destruct (JS.nonEmpty (generatedRecipes (state p))) eqn:E; cbn; [close|].
    apply JSFacts.nonEmpty_false in E. rewrite E. close.
  - enabled_in Hstep. injection Hstep as <-.
    unfold wizardInvariant. cbn. close.
  - enabled_in Hstep. injection Hstep as <-.
    unfold wizardInvariant. cbn. close.
  - enabled_in Hstep. injection Hstep as <-.
    unfold wizardInvariant. cbn. close.
  - (* Create Recipes: three ingredients at least, call dispatched *)
    enabled_in Hstep. injection Hstep as <-.
    apply andb_true_iff in G as [Gs Gb].
    apply (shown_facts _ _ Hinv) in Gs as (Hl & H2 & Hp).
    apply negb_true_iff in Gb. unfold createRecipesDisabled in Gb.
    apply orb_false_iff in Gb as [Gn Gg]. apply Z.ltb_ge in Gn.
    unfold wizardInvariant. cbn. rewrite Hp, H2. cbn.
    repeat split; auto; try lia.
    intros step0 [E|[]]. congruence.
  - enabled_in Hstep. injection Hstep as <-.
    unfold wizardInvariant, run, handleRecipeSelection, Eff.exec, Eff.bind,
      Eff.get.
    cbn [state pending].
    destruct (JS.arrayIncludes _ _); cbn; close.
  - enabled_in Hstep. injection Hstep as <-.
    unfold wizardInvariant. cbn. close.
  - enabled_in Hstep. injection Hstep as <-.
    unfold wizardInvariant. cbn. close.
  - (* Submit Selected: a selection exists, hence a batch *)
    enabled_in Hstep. injection Hstep as <-.
    apply andb_true_iff in G as [Gs Gb].
    apply (shown_facts _ _ Hinv) in Gs as (Hl & H4 & Hp).
    apply finalRecipes_nonEmpty in Gb.
    unfold wizardInvariant. cbn. rewrite Hp. cbn.
    repeat split; auto; try lia.
    intros step0 [E|[]]. discriminate.
  - (* the generation call settles *)
    destruct (nth_error (pending p) i) as [[step0|]|] eqn:E;
      try discriminate.
    injection Hstep as <-.
    destruct (pending_single _ _ _ Hinv E) as [Hp Hrm].
    assert (step0 = 2) by (apply Hpg; rewrite Hp; now left). subst step0.
    destruct Hpl as [Hload Hing]; [rewrite Hp; discriminate|].
    unfold wizardInvariant, settle. cbn [state pending]. rewrite Hrm.
    destruct answer as [response|]; [|cbn; close].
    unfold settleGeneration, afterGeneration, Eff.exec, Eff.bind,
      Eff.tryCatch.
    cbn. destruct (resp_parsed response); cbn; close.
  - (* the save call settles *)
    destruct (nth_error (pending p) i) as [[step0|]|] eqn:E;
      try discriminate.
    injection Hstep as <-.
    destruct (pending_single _ _ _ Hinv E) as [Hp Hrm].
    unfold wizardInvariant, settle. cbn [state pending]. rewrite Hrm.
    destruct answer as [[]|]; cbn; close.
Qed.

Lemma mount_invariant limit old : wizardInvariant (mount limit old).
Proof. unfold wizardInvariant. cbn. close. Qed.

Lemma reachable_invariant p : reachable p -> wizardInvariant p.
Proof.
  induction 1 as [limit old|p a p' _ IH Hstep].
  - apply mount_invariant.
  - eapply perform_preserves; eauto.
Qed.

(** The step counter of a reachable page is one of the five steps. *)
Lemma reachable_step_range p : reachable p -> 0 <= step (state p) <= 4.
Proof. intros H. now apply reachable_invariant in H as (Hs & _). Qed.

Lemma replay_reachable actions :
  forall p p', reachable p -> replay actions p = Some p' -> reachable p'.
Proof.
  induction actions as [|a rest IH]; simpl; intros p p' Hp H.
  - now injection H as <-.
  - destruct (perform a p) as [q|] eqn:E; [|discriminate].
    eapply IH; [|exact H]. eapply reachable_step; eauto.
Qed.

(** Nothing can be done on a page whose limit is reached, so a page that
    has left step 0 is not one. *)
Lemma perform_limit a p p' :
  perform a p = Some p' -> reachedLimit p = false /\ reachedLimit p' = false.
Proof.
  unfold perform. destruct (reachedLimit p) eqn:L; [discriminate|].
  intros H. split; [reflexivity|].
  destruct a;
    repeat match type of H with
           | (if ?c then _ else _) = Some _ => destruct c; [|discriminate H]
           | (if ?c then _ else _) = Some _ => destruct c; [discriminate H|]
           | match ?x with _ => _ end = Some _ => destruct x; try discriminate H
           end;
    injection H as <-; exact L.
Qed.

Lemma reachable_limit p :
  reachable p -> step (state p) <> 0 -> reachedLimit p = false.
Proof.
  destruct 1 as [limit old|p a p' _ Hstep]; intros H.
  - now contradiction H.
  - now apply perform_limit in Hstep.
Qed.

(** With fewer than three ingredients at the review step nothing leads
    beyond it. *)
Lemma few_ingredients_stuck p :
  reachable p ->
  step (state p) = 2 ->
  Z.of_nat (List.length (ingredients (state p))) < 3 ->
  createRecipesDisabled (state p) = true
  /\ nextDisabled (state p) = true
  /\ forall a p', perform a p = Some p' -> step (state p') <= 2.
Proof.
  intros Hr H2 Hfew.
  pose proof (reachable_invariant _ Hr) as (Hs & Hb & Hlen & Hpl & Hpg).
  assert (Hgen : generatedRecipes (state p) = []).
  { destruct (generatedRecipes (state p)) eqn:E; [reflexivity|].
    assert (3 <= List.length (ingredients (state p)))%nat
      by (apply Hb; discriminate).
    lia. }
  assert (Hpen : pending p = []).
  { destruct (pending p) eqn:E; [reflexivity|].
    destruct Hpl as [_ Hpl]; [discriminate|]. lia. }
  assert (Hcreate : createRecipesDisabled (state p) = true).
  { unfold createRecipesDisabled.
    apply orb_true_iff. left. now apply Z.ltb_lt. }
  assert (Hnext : nextDisabled (state p) = true).
  { unfold nextDisabled. rewrite H2, Hgen. reflexivity. }
  split; [exact Hcreate|]. split; [exact Hnext|].
  intros a p' Hstep. unfold perform in Hstep.
  destruct (reachedLimit p); [discriminate|].
  assert (Hshown : forall n, n <> 2 -> shown n p = false).
  { intros n Hn. unfold shown. rewrite H2.
    destruct (Z.eqb_spec 2 n); [congruence|apply andb_false_r]. }
  destruct a;
    rewrite ?Hnext, ?Hcreate, ?Hpen, ?andb_false_r,
      ?(Hshown 0), ?(Hshown 1), ?(Hshown 3), ?(Hshown 4) in Hstep
      by discriminate;
    cbn in Hstep; try discriminate.
  - destruct (prevDisabled (state p)); [discriminate|].
    injection Hstep as <-.
    change (step (state (run (updateStep (-1)) p)))
      with (if (step (state p) + -1 <? 0) || (step (state p) + -1 >=? 5)
            then 0 else step (state p) + -1).
    rewrite H2. cbn. lia.
  - destruct (shown 2 p && negb (editDisabled (state p)));
      [|discriminate].
    injection Hstep as <-. cbn. lia.
  - destruct i; discriminate.
  - destruct i; discriminate.
Qed.

(** With three ingredients and no batch, Create Recipes is enabled, and a
    click on it dispatches the generation call. *)
Lemma enough_ingredients_enabled p :
  reachable p ->
  step (state p) = 2 ->
  3 <= Z.of_nat (List.length (ingredients (state p))) ->
  generatedRecipes (state p) = [] ->
  createRecipesDisabled (state p) = false
  /\ (isLoading (state p) = false ->
      exists p1,
        perform ClickCreateRecipes p = Some p1
        /\ pending p1 = [PendingGeneration 2]
        /\ isLoading (state p1) = true).
Proof.
  intros Hr H2 Hmany Hgen.
  assert (Hcreate : createRecipesDisabled (state p) = false).
  { unfold createRecipesDisabled. rewrite Hgen. cbn.
    rewrite orb_false_r. now apply Z.ltb_ge. }
  split; [exact Hcreate|].
  intros Hl.
  pose proof (not_loading_no_pending _ (reachable_invariant _ Hr) Hl) as Hp.
  assert (Hlimit : reachedLimit p = false)
    by (apply reachable_limit; [assumption|lia]).
  unfold perform, shown. rewrite Hlimit, Hl, H2, Hcreate. cbn.
  eexists. split; [reflexivity|]. cbn. rewrite Hp. auto.
Qed.

(** A generation call that succeeds leaves the wizard at step 3 with the
    tagged batch, whatever was clicked while it was pending. *)
Lemma generation_success_advances p i response parsed p' :
  reachable p ->
  resp_parsed response = Some parsed ->
  perform (GenerationSettles i (Eff.Resolved response)) p = Some p' ->
  step (state p') = 3
  /\ generatedRecipes (state p')
     = tagRecipes (resp_openaiPromptId response) parsed
  /\ isLoading (state p') = false.
Proof.
  intros Hr Hparsed Hstep.
  pose proof (reachable_invariant _ Hr) as Hinv.
  pose proof Hinv as (_ & _ & _ & _ & Hpg).
  unfold perform in Hstep.
  destruct (reachedLimit p); [discriminate|].
  destruct (nth_error (pending p) i) as [[step0|]|] eqn:E; try discriminate.
  injection Hstep as <-.
  destruct (pending_single _ _ _ Hinv E) as [Hp _].
  assert (step0 = 2) by (apply Hpg; rewrite Hp; now left). subst step0.
  unfold settle, settleGeneration, afterGeneration, Eff.exec, Eff.bind,
    Eff.tryCatch.
  cbn. rewrite Hparsed. cbn. auto.
Qed.

(** C5, as stated, fails: after a successful generation the user may
    step back to the review; the page then holds three ingredients at
    step 2 and Create Recipes is disabled, because a batch exists. *)
Lemma create_recipes_enabled_counterexample :
  ~ (forall p,
        reachable p ->
        step (state p) = 2 ->
        3 <= Z.of_nat (List.length (ingredients (state p))) ->
        createRecipesDisabled (state p) = false).
Proof.
  intros H.
  destruct (replay Samples.generateAndGoBack
                   (Samples.mountedWith Samples.threePicks))
    as [p|] eqn:E; [|discriminate E].
  assert (Hr : reachable p).
  { exact (replay_reachable _ _ _
             (reachable_mount false (Some Samples.threePicks)) E). }
  injection E as <-.
  specialize (H _ Hr eq_refl). cbn in H.
  assert (true = false) by (apply H; lia). discriminate.
Qed.

(** C5, amended.  On every reachable page at step 2: with fewer than
    three ingredients Create Recipes is disabled, Next is disabled and no
    action leads beyond step 2; with at least three ingredients and no
    generated batch Create Recipes is enabled and, unless the page is
    loading, a click on it dispatches the generation call.  On every
    reachable page, a generation call that succeeds leaves the wizard at
    step 3 with the tagged batch. *)
Theorem review_step_guard :
  forall p,
    reachable p ->
    (step (state p) = 2 ->
     Z.of_nat (List.length (ingredients (state p))) < 3 ->
     createRecipesDisabled (state p) = true
     /\ nextDisabled (state p) = true
     /\ forall a p', perform a p = Some p' -> step (state p') <= 2)
    /\ (step (state p) = 2 ->
        3 <= Z.of_nat (List.length (ingredients (state p))) ->
        generatedRecipes (state p) = [] ->
        createRecipesDisabled (state p) = false
        /\ (isLoading (state p) = false ->
            exists p1,
              perform ClickCreateRecipes p = Some p1
              /\ pending p1 = [PendingGeneration 2]
              /\ isLoading (state p1) = true))
    /\ (forall i response parsed p',
           resp_parsed response = Some parsed ->
           perform (GenerationSettles i (Eff.Resolved response)) p = Some p'
           ->
           step (state p') = 3
           /\ generatedRecipes (state p')
              = tagRecipes (resp_openaiPromptId response) parsed
           /\ isLoading (state p') = false).
Proof.
  intros p Hr. split; [|split].
  - now apply few_ingredients_stuck.
  - now apply enough_ingredients_enabled.
  - intros i response parsed p'. now apply generation_success_advances.
Qed.

(** With two ingredients the review step is a dead end; with three,
    Create Recipes is enabled and the call is dispatched. *)
Lemma review_step_guard_witness :
  reachable (Samples.pageAt 2 Samples.twoPicks)
  /\ createRecipesDisabled (state (Samples.pageAt 2 Samples.twoPicks)) = true
  /\ perform ClickNext (Samples.pageAt 2 Samples.twoPicks) = None
  /\ reachable (Samples.pageAt 2 Samples.threePicks)
  /\ createRecipesDisabled (state (Samples.pageAt 2 Samples.threePicks))
     = false.
Proof.
  assert (H2 : reachable (Samples.pageAt 2 Samples.twoPicks)).
  { apply (replay_reachable [ClickNext; ClickNext]
                            (Samples.mountedWith Samples.twoPicks));
      [apply reachable_mount|reflexivity]. }
  assert (H3 : reachable (Samples.pageAt 2 Samples.threePicks)).
  { apply (replay_reachable [ClickNext; ClickNext]
                            (Samples.mountedWith Samples.threePicks));
      [apply reachable_mount|reflexivity]. }
  destruct (review_step_guard _ H2) as (Hfew & _ & _).
  destruct (review_step_guard _ H3) as (_ & Hmany & _).
  destruct (Hfew eq_refl ltac:(cbn; lia)) as (Hc & _ & _).
  destruct (Hmany eq_refl ltac:(cbn; lia) eq_refl) as (He & _).
  repeat split; assumption || reflexivity.
Defined.

End WizardProps.

(* ===================================================================== *)
(** ** utils/utils.ts: further properties *)
(* ===================================================================== *)

Module UtilsMore.
Import Types Utils Spec.

Lemma prefix_iff sub s :
  String.prefix sub s = true <-> exists b, s = (sub ++ b)%string.
Proof.
  revert s. induction sub as [|c sub IH]; intros s.
  - split; [intros _; now exists s|now destruct s].
  - destruct s as [|d s]; simpl.
    + split; [discriminate|intros (b & E); discriminate].
    + destruct (Ascii.ascii_dec c d) as [->|Hne].
      * rewrite IH.
        split; intros (b & E); exists b; [now subst|now injection E].
      * split; [discriminate|]. intros (b & E). injection E. congruence.
Qed.

(** [s.includes(sub)] holds exactly when [s] is [sub] with something
    before and something after it. *)
Lemma includes_iff s sub :
  JS.includes s sub = true <-> exists a b, s = (a ++ sub ++ b)%string.
Proof.
  induction s as [|c s IH].
  - cbn [JS.includes]. rewrite orb_false_r, prefix_iff. split.
    + intros (b & E). now exists "", b.
    + intros (a & b & E). destruct a; [now exists b|discriminate].
  - cbn [JS.includes]. rewrite orb_true_iff, prefix_iff, IH. split.
    + intros [(b & E)|(a & b & E)].
      * now exists "", b.
      * exists (String c a), b. simpl. now rewrite E.
    + intros (a & b & E). destruct a as [|d a].
      * left. now exists b.
      * right. simpl in E. injection E as _ E. now exists a, b.
Qed.

Lemma append_assoc (a b c : string) :
  ((a ++ b) ++ c = a ++ (b ++ c))%string.
Proof. induction a; simpl; congruence. Qed.

Lemma includes_trans s mid sub :
  JS.includes s mid = true -> JS.includes mid sub = true ->
  JS.includes s sub = true.
Proof.
  rewrite !includes_iff. intros (a & b & ->) (a' & b' & ->).
  exists (a ++ a')%string, (b' ++ b)%string.
  now rewrite !append_assoc.
Qed.

Lemma isFound_narrows q q' r :
  JS.includes q' q = true -> isFound q' r = true -> isFound q r = true.
Proof.
  intros Hq. unfold isFound.
  rewrite !JSFacts.nonEmpty_filter, !orb_true_iff, !existsb_exists.
  intros [[H|(i & Hi & H)]|(d & Hd & H)].
  - left; left. eapply includes_trans; eauto.
  - left; right. exists i. split; [assumption|]. eapply includes_trans; eauto.
  - right. exists d. split; [assumption|]. eapply includes_trans; eauto.
Qed.

(** X1.  A query that contains another one finds no recipe that the other
    one does not find: typing more of a query can only narrow the result
    of [getFilteredRecipes]. *)
Theorem longer_query_narrows_the_search :
  forall (recipes : list ExtendedRecipe) (q q' : string),
    JS.includes q' q = true ->
    incl (getFilteredRecipes recipes (Some q'))
         (getFilteredRecipes recipes (Some q)).
Proof.
  intros recipes q q' Hq r. unfold getFilteredRecipes.
  destruct q as [|c q]; cbn [JS.truthy negb].
  - destruct q'; cbn [JS.truthy negb]; [auto|].
    intros H. now apply filter_In in H as [H _].
  - destruct q' as [|c' q'']; [discriminate Hq|]. cbn [JS.truthy negb].
    rewrite !filter_In. intros [Hin H]. split; [assumption|].
    eapply isFound_narrows; eauto.
Qed.

Lemma longer_query_narrows_the_search_witness :
  JS.includes "tomato" "to" = true
  /\ incl (getFilteredRecipes [Samples.soup; Samples.salad; Samples.stew]
                              (Some "tomato"))
          (getFilteredRecipes [Samples.soup; Samples.salad; Samples.stew]
                              (Some "to")).
Proof.
  assert (H : JS.includes "tomato" "to" = true) by reflexivity.
  split; [exact H|].
  exact (longer_query_narrows_the_search
           [Samples.soup; Samples.salad; Samples.stew] "to" "tomato" H).
Defined.

Lemma split_at_first {A} (p : A -> bool) l :
  existsb p l = true ->
  exists pre x post, l = pre ++ x :: post /\ p x = true
                     /\ forallb (fun y => negb (p y)) pre = true.
Proof.
  induction l as [|y l IH]; simpl; [discriminate|].
  destruct (p y) eqn:Hy.
  - intros _. now exists [], y, l.
  - simpl. intros H. destruct (IH H) as (pre & x & post & -> & Hx & Hpre).
    exists (y :: pre), x, post. repeat split; auto. simpl. now rewrite Hy.
Qed.

Lemma occurrences_none id l :
  forallb (fun y => negb (hasId id y)) l = true -> occurrences id l = 0.
Proof.
  unfold occurrences.
  induction l as [|y l IH]; simpl; intros H; [reflexivity|].
  apply andb_true_iff in H as [Hy Hl].
  apply negb_true_iff in Hy. now rewrite Hy, IH.
Qed.

(** X2.  When the id occurs in the list, once or several times,
    [updateRecipeList] touches the first entry of that id only: the
    entries before it, which do not have the id, and all entries after it
    are kept, the entry itself is replaced by the updated recipe, or
    dropped. *)
Theorem updateRecipeList_first_match_only :
  forall (oldList : list ExtendedRecipe) (id : string),
    1 <= occurrences id oldList ->
    exists pre x post,
      oldList = pre ++ x :: post
      /\ _id x = id
      /\ occurrences id pre = 0
      /\ (forall updated deleteId,
             _id updated = id ->
             updateRecipeList oldList (Some updated) deleteId
             = pre ++ updated :: post)
      /\ updateRecipeList oldList None (Some id) = pre ++ post.
Proof.
  intros oldList id Hocc.
  assert (Hex : existsb (hasId id) oldList = true).
  { unfold occurrences in Hocc. rewrite <- JSFacts.nonEmpty_filter.
    unfold JS.nonEmpty.
    destruct (filter (hasId id) oldList); [simpl in Hocc; lia|reflexivity]. }
  destruct (split_at_first _ _ Hex) as (pre & x & post & -> & Hx & Hpre).
  assert (Hidx : JS.findIndex (fun p => strictEq (_id p) (Some id))
                              (pre ++ x :: post)
                 = Z.of_nat (List.length pre)).
  { unfold JS.findIndex. rewrite JSFacts.findIndexFrom_first; auto. }
  exists pre, x, post. split; [reflexivity|].
  split; [now apply String.eqb_eq in Hx|]. split; [|split].
  - now apply occurrences_none.
  - intros updated deleteId Hid. unfold updateRecipeList.
    rewrite Hid, Hidx.
    now rewrite JSFacts.slice_prefix, JSFacts.slice_suffix.
  - unfold updateRecipeList. rewrite Hidx.
    now rewrite JSFacts.slice_prefix, JSFacts.slice_suffix.
Qed.

(** With two entries of id [r2], only the first one is dropped. *)
Lemma updateRecipeList_first_match_only_witness :
  1 <= occurrences "r2" [Samples.soup; Samples.salad; MoreSamples.saladTwin]
  /\ exists pre x post,
      [Samples.soup; Samples.salad; MoreSamples.saladTwin]
      = pre ++ x :: post
      /\ _id x = "r2"
      /\ occurrences "r2" pre = 0
      /\ (forall updated deleteId,
             _id updated = "r2" ->
             updateRecipeList
               [Samples.soup; Samples.salad; MoreSamples.saladTwin]
               (Some updated) deleteId
             = pre ++ updated :: post)
      /\ updateRecipeList
           [Samples.soup; Samples.salad; MoreSamples.saladTwin]
           None (Some "r2")
         = pre ++ post.
Proof.
  assert (H : 1 <= occurrences "r2" [Samples.soup; Samples.salad;
                                     MoreSamples.saladTwin])
    by (cbn; lia).
  split; [exact H|].
  exact (updateRecipeList_first_match_only _ _ H).
Defined.

Example first_of_two_dropped :
  updateRecipeList [Samples.soup; Samples.salad; MoreSamples.saladTwin]
                   None (Some "r2")
  = [Samples.soup; MoreSamples.saladTwin].
Proof. reflexivity. Qed.

End UtilsMore.

(* ===================================================================== *)
(** ** The wizard: further invariants *)
(* ===================================================================== *)

Module WizardMore.
Import Types Navigation Wizard Spec MoreSpec WizardProps.
Local Open Scope Z_scope.

Lemma to_uint_not_nil n : Nat.to_uint n <> Decimal.Nil.
Proof.
  intros E. pose proof (DecimalNat.Unsigned.of_to n) as H. rewrite E in H.
  cbn in H. subst n. discriminate E.
Qed.

Lemma numberToString_inj n m :
  JS.numberToString n = JS.numberToString m -> n = m.
Proof.
  unfold JS.numberToString. intros E.
  apply DecimalNat.Unsigned.to_uint_inj.
  pose proof (NilZero.usu _ (to_uint_not_nil n)) as Hn.
  pose proof (NilZero.usu _ (to_uint_not_nil m)) as Hm.
  rewrite E in Hn. congruence.
Qed.

Lemma append_inj_l (a b c : string) : (a ++ b = a ++ c)%string -> b = c.
Proof. induction a; simpl; intros H; [assumption|]. injection H. auto. Qed.

Lemma tag_inj batchId r r' i j :
  Types.openaiPromptId (tagRecipe batchId r i)
  = Types.openaiPromptId (tagRecipe batchId r' j) -> i = j.
Proof.
  cbn. intros E. apply append_inj_l in E. injection E as E.
  now apply numberToString_inj.
Qed.

Lemma tagRecipesFrom_ids_from batchId parsed : forall idx x,
  In x (map Types.openaiPromptId (tagRecipesFrom batchId idx parsed)) ->
  exists j, (idx <= j)%nat
            /\ x = (batchId ++ "-" ++ JS.numberToString j)%string.
Proof.
  induction parsed as [|r parsed IH]; intros idx x; simpl; [tauto|].
  intros [<-|H].
  - exists idx. split; [lia|reflexivity].
  - destruct (IH _ _ H) as (j & Hj & ->). exists j. split; [lia|reflexivity].
Qed.

Lemma tagRecipesFrom_NoDup batchId parsed : forall idx,
  NoDup (map Types.openaiPromptId (tagRecipesFrom batchId idx parsed)).
Proof.
  induction parsed as [|r parsed IH]; intros idx; simpl; constructor.
  - intros H. apply tagRecipesFrom_ids_from in H as (j & Hj & E).
    apply append_inj_l in E. injection E as E.
    apply numberToString_inj in E. lia.
  - apply IH.
Qed.

Lemma tagRecipesFrom_names batchId parsed : forall idx,
  map name (tagRecipesFrom batchId idx parsed) = map name parsed.
Proof.
  induction parsed as [|r parsed IH]; intros idx; simpl; [reflexivity|].
  now rewrite IH.
Qed.

(** X3.  The candidates of a batch get pairwise distinct ids, whatever
    the id of the batch and however many candidates there are; their
    number, order and names are kept. *)
Theorem tagRecipes_ids_distinct :
  forall (batchId : string) (parsedRecipes : list Recipe),
    NoDup (map Types.openaiPromptId (tagRecipes batchId parsedRecipes))
    /\ map name (tagRecipes batchId parsedRecipes) = map name parsedRecipes
    /\ List.length (tagRecipes batchId parsedRecipes)
       = List.length parsedRecipes.
Proof.
  intros batchId parsed. split; [apply tagRecipesFrom_NoDup|].
  split; [apply tagRecipesFrom_names|].
  rewrite <- (length_map name), <- (length_map name parsed).
  f_equal. apply tagRecipesFrom_names.
Qed.


Lemma DietaryPreference_eqb_eq a b :
  DietaryPreference_eqb a b = true <-> a = b.
Proof. destruct a, b; simpl; split; congruence. Qed.

Lemma arrayIncludes_In l x : JS.arrayIncludes l x = true <-> In x l.
Proof.
  unfold JS.arrayIncludes. rewrite existsb_exists. split.
  - intros (y & Hy & E). apply String.eqb_eq in E. now subst.
  - intros H. exists x. split; [assumption|apply String.eqb_refl].
Qed.

Lemma NoDup_snoc {A} (l : list A) x : NoDup l -> ~ In x l -> NoDup (l ++ [x]).
Proof.
  intros Hl Hx. apply NoDup_app; [assumption|repeat constructor; auto|].
  intros y Hy [<-|[]]. contradiction.
Qed.

Lemma incl_nil_eq {A} (l : list A) : incl l [] -> l = [].
Proof. destruct l; [reflexivity|]. intros H. destruct (H a). now left. Qed.

Lemma handlePreferenceChange_NoDup option s :
  NoDup (preferences s) ->
  NoDup (preferences (Eff.exec (handlePreferenceChange option) s)).
Proof.
  intros H. cbn.
  destruct (existsb (DietaryPreference_eqb option) (preferences s)) eqn:E.
  - now apply NoDup_filter.
  - apply NoDup_snoc; [assumption|]. intros Hin.
    assert (existsb (DietaryPreference_eqb option) (preferences s) = true).
    { apply existsb_exists. exists option. split; [assumption|].
      now apply DietaryPreference_eqb_eq. }
    congruence.
Qed.

Lemma handleRecipeSelection_selection recipeId s :
  NoDup (selectedRecipeIds s) ->
  In recipeId (batchIds s) ->
  incl (selectedRecipeIds s) (batchIds s) ->
  let s' := Eff.exec (handleRecipeSelection recipeId) s in
  NoDup (selectedRecipeIds s') /\ incl (selectedRecipeIds s') (batchIds s').
Proof.
  intros Hn Hin Hincl. cbn.
  destruct (JS.arrayIncludes (selectedRecipeIds s) recipeId) eqn:E; cbn.
  - split; [now apply NoDup_filter|].
    intros x Hx. apply filter_In in Hx as [Hx _]. now apply Hincl.
  - split.
    + apply NoDup_snoc; [assumption|]. intros H.
      apply arrayIncludes_In in H. congruence.
    + intros x Hx. apply in_app_or in Hx as [Hx|[<-|[]]]; auto.
Qed.

Ltac enabled_in H :=
  match type of H with
  | (if ?c then _ else _) = Some _ =>
      let G := fresh "G" in
      destruct c eqn:G; [|discriminate H]
  end.

Ltac close := repeat split; auto; try tauto; try lia; try discriminate.

Lemma perform_preserves_selection a p p' :
  wizardInvariant p -> selectionInvariant p ->
  perform a p = Some p' -> selectionInvariant p'.
Proof.
  intros Hinv (Hpref & Hbatch & Hsel & Hincl & Hgen) Hstep.
  unfold perform in Hstep.
  destruct (reachedLimit p); [discriminate|].
  destruct a.
  - destruct (prevDisabled (state p)); [discriminate|].
    injection Hstep as <-. unfold selectionInvariant. cbn. close.
  - destruct (nextDisabled (state p)); [discriminate|].
    injection Hstep as <-. unfold selectionInvariant. cbn. close.
  - enabled_in Hstep. injection Hstep as <-.
    unfold selectionInvariant, run, handleChange, Eff.exec, Eff.bind, Eff.get.
    cbn [state pending].
    destruct val as [val|]; cbn; [|close].
    destruct (JS.truthy val); cbn; [|close].
    destruct (JS.some _ _); cbn; close.
  - enabled_in Hstep. injection Hstep as <-.
    unfold selectionInvariant, run, deleteIngredient, Eff.exec, Eff.bind,
      Eff.get.
    cbn [state pending].
    destruct (JS.nonEmpty (generatedRecipes (state p))); cbn; close.
  - enabled_in Hstep. injection Hstep as <-.
    split; [apply handlePreferenceChange_NoDup; assumption|]. cbn. close.
  - enabled_in Hstep. injection Hstep as <-.
    unfold selectionInvariant. cbn. close. constructor.
  - enabled_in Hstep. injection Hstep as <-.
    unfold selectionInvariant. cbn. close.
  - enabled_in Hstep. injection Hstep as <-.
    apply andb_true_iff in G as [Gs Gb].
    apply (shown_facts _ _ Hinv) in Gs as (Hl & H2 & Hp).
    apply negb_true_iff in Gb. unfold createRecipesDisabled in Gb.
    apply orb_false_iff in Gb as [_ Gg]. apply JSFacts.nonEmpty_false in Gg.
    unfold selectionInvariant. cbn. close.
  - enabled_in Hstep. injection Hstep as <-.
    apply andb_true_iff in G as [_ Gb]. apply arrayIncludes_In in Gb.
    destruct (handleRecipeSelection_selection recipeId (state p) Hsel Gb Hincl)
      as [H1 H2].
    unfold selectionInvariant. cbn [state pending run].
    repeat split; auto.
  - enabled_in Hstep. injection Hstep as <-.
    unfold selectionInvariant. cbn. close. apply incl_refl.
  - enabled_in Hstep. injection Hstep as <-.
    unfold selectionInvariant. cbn. close; [constructor|intros x []].
  - enabled_in Hstep. injection Hstep as <-.
    unfold selectionInvariant. cbn. close.
    intros step0 H. apply in_app_or in H as [H|[H|[]]]; [eauto|discriminate].
  - destruct (nth_error (pending p) i) as [[step0|]|] eqn:E;
      try discriminate.
    injection Hstep as <-.
    destruct (pending_single _ _ _ Hinv E) as [Hp Hrm].
    assert (Hnone : generatedRecipes (state p) = [])
      by (apply (Hgen step0); rewrite Hp; now left).
    assert (Hsel0 : selectedRecipeIds (state p) = []).
    { apply incl_nil_eq. unfold batchIds in Hincl.
      now rewrite Hnone in Hincl. }
    unfold selectionInvariant, settle. cbn [state pending]. rewrite Hrm.
    destruct answer as [response|]; [|cbn; close].
    unfold settleGeneration, afterGeneration, Eff.exec, Eff.bind,
      Eff.tryCatch.
    cbn. destruct (resp_parsed response); cbn; [|close].
    rewrite Hsel0.
    repeat split; auto; try tauto; try apply tagRecipesFrom_NoDup;
      try (intros x []); try constructor.
  - destruct (nth_error (pending p) i) as [[step0|]|] eqn:E;
      try discriminate.
    injection Hstep as <-.
    destruct (pending_single _ _ _ Hinv E) as [Hp Hrm].
    unfold selectionInvariant, settle. cbn [state pending]. rewrite Hrm.
    destruct answer as [[]|]; cbn; close; try constructor;
      try (intros x []).
Qed.





Lemma mount_selection limit old : selectionInvariant (mount limit old).
Proof.
  unfold selectionInvariant. cbn. repeat split; try constructor; try tauto.
  intros x [].
Qed.

Lemma reachable_invariants p :
  reachable p -> wizardInvariant p /\ selectionInvariant p.
Proof.
  induction 1 as [limit old|p a p' _ [IH1 IH2] Hstep].
  - split; [apply mount_invariant|apply mount_selection].
  - split; [eapply perform_preserves|eapply perform_preserves_selection];
      eauto.
Qed.

Lemma NoDup_map_filter {A B} (f : A -> B) (q : A -> bool) l :
  NoDup (map f l) -> NoDup (map f (filter q l)).
Proof.
  induction l as [|x l IH]; simpl; intros H; [constructor|].
  inversion H as [|? ? Hx Hl]; subst.
  destruct (q x); simpl; auto.
  constructor; auto. intros Hin. apply Hx.
  apply in_map_iff in Hin as (y & E & Hy). apply filter_In in Hy as [Hy _].
  apply in_map_iff. now exists y.
Qed.

Lemma after_reachable actions p : reachable p -> reachable (after actions p).
Proof.
  intros Hp. unfold after. destruct (replay actions p) as [q|] eqn:E.
  - exact (replay_reachable _ _ _ Hp E).
  - exact Hp.
Qed.

Lemma waiting_reachable : reachable MoreSamples.waiting.
Proof. apply after_reachable. apply reachable_mount. Qed.

(** X4.  On every reachable page the dietary preferences and the selected
    ids hold no value twice, the candidates of the batch have distinct
    ids, and every selected id is the id of a candidate of the batch. *)
Theorem selection_is_a_set_of_candidates :
  forall p, reachable p ->
    let s := state p in
    NoDup (preferences s)
    /\ NoDup (batchIds s)
    /\ NoDup (selectedRecipeIds s)
    /\ incl (selectedRecipeIds s) (batchIds s).
Proof.
  intros p Hr. destruct (reachable_invariants p Hr) as [_ H].
  destruct H as (H1 & H2 & H3 & H4 & _). auto.
Qed.

(** After the first and the third candidate are ticked, the selection is
    these two ids, both of the batch. *)
Lemma selection_is_a_set_of_candidates_witness :
  reachable MoreSamples.reviewing
  /\ selectedRecipeIds (state MoreSamples.reviewing)
     = ["batch1-0"; "batch1-2"]%string
  /\ NoDup (selectedRecipeIds (state MoreSamples.reviewing))
  /\ incl (selectedRecipeIds (state MoreSamples.reviewing))
          (batchIds (state MoreSamples.reviewing)).
Proof.
  assert (Hr : reachable MoreSamples.reviewing).
  { apply after_reachable. apply waiting_reachable. }
  split; [exact Hr|]. split; [reflexivity|].
  destruct (selection_is_a_set_of_candidates _ Hr) as (_ & _ & Hs & Hi).
  split; assumption.
Defined.

(** X5.  On every reachable page the recipes handed to
    [handleRecipeSubmit] are the selected ones: the ids of [finalRecipes]
    are the selected ids, each once. *)
Theorem submitted_are_the_selected :
  forall p, reachable p ->
    Permutation (map Types.openaiPromptId (finalRecipes (state p)))
                (selectedRecipeIds (state p)).
Proof.
  intros p Hr.
  destruct (reachable_invariants p Hr) as [_ (_ & Hb & Hs & Hincl & _)].
  apply NoDup_Permutation.
  - unfold finalRecipes. now apply NoDup_map_filter.
  - assumption.
  - intros x. unfold finalRecipes. rewrite in_map_iff. split.
    + intros (r & <- & Hin). apply filter_In in Hin as [_ Hin].
      now apply arrayIncludes_In.
    + intros Hx. pose proof (Hincl _ Hx) as Hb'.
      unfold batchIds in Hb'. apply in_map_iff in Hb' as (r & <- & Hr').
      exists r. split; [reflexivity|]. apply filter_In. split; [assumption|].
      now apply arrayIncludes_In.
Qed.

(** With the first and the third candidate ticked, the omelette and the
    custard are submitted. *)
Lemma submitted_are_the_selected_witness :
  reachable MoreSamples.reviewing
  /\ map name (finalRecipes (state MoreSamples.reviewing))
     = ["Omelette"; "Custard"]%string
  /\ Permutation
       (map Types.openaiPromptId (finalRecipes (state MoreSamples.reviewing)))
       (selectedRecipeIds (state MoreSamples.reviewing)).
Proof.
  assert (Hr : reachable MoreSamples.reviewing).
  { apply after_reachable. apply waiting_reachable. }
  split; [exact Hr|]. split; [reflexivity|].
  exact (submitted_are_the_selected _ Hr).
Defined.

Lemma loading_hides_steps n p :
  isLoading (state p) = true -> shown n p = false.
Proof. unfold shown. now intros ->. Qed.

(** X6.  On every reachable page at most one call is pending, and while
    one is pending the page shows the spinner and nothing can happen but
    a click on Prev or Next and the settlement of the call. *)
Theorem one_call_in_flight :
  forall p, reachable p ->
    (List.length (pending p) <= 1)%nat
    /\ (pending p <> [] ->
        isLoading (state p) = true
        /\ forall a p', perform a p = Some p' ->
                        navigation a = true \/ settlement a = true).
Proof.
  intros p Hr.
  destruct (reachable_invariants p Hr) as [(_ & _ & Hlen & Hpl & _) _].
  split; [assumption|]. intros Hne. destruct (Hpl Hne) as [Hload _].
  split; [assumption|]. intros a p' Hstep. unfold perform in Hstep.
  destruct (reachedLimit p); [discriminate|].
  destruct a; cbn; auto;
    rewrite ?(loading_hides_steps _ _ Hload) in Hstep; discriminate.
Qed.

(** While the generation is awaited, Create Recipes cannot be clicked a
    second time. *)
Lemma one_call_in_flight_witness :
  reachable MoreSamples.waiting
  /\ pending MoreSamples.waiting = [PendingGeneration 2]
  /\ isLoading (state MoreSamples.waiting) = true
  /\ perform ClickCreateRecipes MoreSamples.waiting = None.
Proof.
  pose proof waiting_reachable as Hr.
  destruct (one_call_in_flight _ Hr) as [_ H].
  assert (Hne : pending MoreSamples.waiting <> []) by discriminate.
  destruct (H Hne) as [Hload Hacts].
  split; [exact Hr|]. split; [reflexivity|]. split; [exact Hload|].
  destruct (perform ClickCreateRecipes MoreSamples.waiting) as [q|] eqn:E;
    [|reflexivity].
  destruct (Hacts _ _ E); discriminate.
Defined.

(** X7.  While a batch exists, no action changes the ingredients, the
    preferences or the batch, except the save call that succeeds. *)
Theorem inputs_locked_while_batch_exists :
  forall p a p',
    reachable p ->
    generatedRecipes (state p) <> [] ->
    perform a p = Some p' ->
    sameInputs (state p) (state p')
    \/ exists i, a = SaveSettles i (Eff.Resolved tt).
Proof.
  intros p a p' Hr Hgen Hstep.
  destruct (reachable_invariants p Hr) as [Hinv (_ & _ & _ & _ & Hpg)].
  assert (Hne : JS.nonEmpty (generatedRecipes (state p)) = true).
  { destruct (generatedRecipes (state p)); [congruence|reflexivity]. }
  unfold perform in Hstep.
  destruct (reachedLimit p); [discriminate|].
  destruct a;
    rewrite ?Hne, ?andb_false_r in Hstep; cbn [negb] in Hstep;
    try discriminate.
  - destruct (prevDisabled (state p)); [discriminate|].
    injection Hstep as <-. left. repeat split.
  - destruct (nextDisabled (state p)); [discriminate|].
    injection Hstep as <-. left. repeat split.
  - enabled_in Hstep. injection Hstep as <-. left.
    unfold sameInputs, run, deleteIngredient, Eff.exec, Eff.bind, Eff.get.
    cbn [state]. rewrite Hne. repeat split.
  - unfold editDisabled in Hstep. rewrite Hne, andb_false_r in Hstep.
    discriminate.
  - unfold createRecipesDisabled in Hstep.
    rewrite Hne, orb_true_r, andb_false_r in Hstep. discriminate.
  - enabled_in Hstep. injection Hstep as <-. left.
    unfold sameInputs, run, handleRecipeSelection, Eff.exec, Eff.bind,
      Eff.get. cbn [state].
    destruct (JS.arrayIncludes _ _); repeat split.
  - enabled_in Hstep. injection Hstep as <-. left. repeat split.
  - enabled_in Hstep. injection Hstep as <-. left. repeat split.
  - enabled_in Hstep. injection Hstep as <-. left. repeat split.
  - destruct (nth_error (pending p) i) as [[step0|]|] eqn:E;
      try discriminate.
    destruct (pending_single _ _ _ Hinv E) as [Hp _].
    exfalso. apply Hgen. apply (Hpg step0). rewrite Hp. now left.
  - destruct (nth_error (pending p) i) as [[step0|]|] eqn:E;
      try discriminate.
    injection Hstep as <-.
    destruct answer as [[]|]; [right; now exists i|left; repeat split].
Qed.

(** Back at the first step with a batch, the chip of an ingredient
    deletes nothing. *)
Lemma inputs_locked_while_batch_exists_witness :
  reachable MoreSamples.backAtStart
  /\ generatedRecipes (state MoreSamples.backAtStart) <> []
  /\ exists p',
       perform (DeleteChip "id-1") MoreSamples.backAtStart = Some p'
       /\ ingredients (state p')
          = ingredients (state MoreSamples.backAtStart).
Proof.
  assert (Hr : reachable MoreSamples.backAtStart).
  { apply after_reachable. apply waiting_reachable. }
  assert (Hg : generatedRecipes (state MoreSamples.backAtStart) <> [])
    by discriminate.
  split; [exact Hr|]. split; [exact Hg|].
  destruct (perform (DeleteChip "id-1") MoreSamples.backAtStart)
    as [p'|] eqn:E; [|discriminate].
  exists p'. split; [reflexivity|].
  destruct (inputs_locked_while_batch_exists _ _ _ Hr Hg E)
    as [(Hi & _)|[i Hi]]; [exact Hi|discriminate].
Defined.

(** X8.  A reachable page whose limit is reached is the page as it was
    mounted: no request has been made and no action is possible on it. *)
Theorem limit_reached_page_is_inert :
  forall p, reachable p -> reachedLimit p = true ->
    (exists oldIngredients, p = mount true oldIngredients)
    /\ log (state p) = []
    /\ forall a, perform a p = None.
Proof.
  intros p Hr Hlimit. split; [|split].
  - destruct Hr as [limit old|q a p' _ Hstep].
    + cbn in Hlimit. subst limit. now exists old.
    + apply perform_limit in Hstep as [_ H]. congruence.
  - destruct Hr as [limit old|q a p' _ Hstep]; [reflexivity|].
    apply perform_limit in Hstep as [_ H]. congruence.
  - intros a. unfold perform. now rewrite Hlimit.
Qed.

(** A user over the limit cannot even click Next. *)
Lemma limit_reached_page_is_inert_witness :
  reachable (mount true None)
  /\ reachedLimit (mount true None) = true
  /\ perform ClickNext (mount true None) = None.
Proof.
  pose proof (reachable_mount true None) as Hr.
  assert (Hl : reachedLimit (mount true None) = true) by reflexivity.
  destruct (limit_reached_page_is_inert _ Hr Hl) as (_ & _ & H).
  split; [exact Hr|]. split; [exact Hl|]. exact (H ClickNext).
Defined.


Lemma stuck_step a p p' :
  stuck p -> perform a p = Some p' ->
  stuck p' /\ sameInputs (state p) (state p')
  /\ selectedRecipeIds (state p') = selectedRecipeIds (state p)
  /\ log (state p') = log (state p).
Proof.
  intros [Hload Hp] Hstep. unfold perform in Hstep.
  destruct (reachedLimit p); [discriminate|].
  destruct a;
    rewrite ?(loading_hides_steps _ _ Hload), ?Hp in Hstep;
    cbn in Hstep; try discriminate.
  - destruct (prevDisabled (state p)); [discriminate|].
    injection Hstep as <-. unfold stuck, sameInputs. cbn. auto 10.
  - destruct (nextDisabled (state p)); [discriminate|].
    injection Hstep as <-. unfold stuck, sameInputs. cbn. auto 10.
  - destruct i; discriminate.
  - destruct i; discriminate.
Qed.

Lemma failure_leaves_stuck a p p' :
  reachable p -> failed a = true -> perform a p = Some p' -> stuck p'.
Proof.
  intros Hr Hf Hstep.
  destruct (reachable_invariants p Hr) as [Hinv _].
  pose proof Hinv as (_ & _ & _ & Hpl & _).
  unfold perform in Hstep.
  destruct (reachedLimit p); [discriminate|].
  destruct a; try discriminate Hf.
  - destruct (nth_error (pending p) i) as [[step0|]|] eqn:E;
      try discriminate.
    injection Hstep as <-.
    destruct (pending_single _ _ _ Hinv E) as [Hp Hrm].
    destruct Hpl as [Hload _]; [rewrite Hp; discriminate|].
    unfold stuck, settle. cbn [state pending]. rewrite Hrm.
    destruct answer as [response|]; [|cbn; auto].
    cbn in Hf. unfold settleGeneration, afterGeneration, Eff.exec, Eff.bind,
      Eff.tryCatch. cbn.
    destruct (resp_parsed response); [discriminate|]. cbn. auto.
  - destruct (nth_error (pending p) i) as [[step0|]|] eqn:E;
      try discriminate.
    injection Hstep as <-.
    destruct (pending_single _ _ _ Hinv E) as [Hp Hrm].
    destruct Hpl as [Hload _]; [rewrite Hp; discriminate|].
    unfold stuck, settle. cbn [state pending]. rewrite Hrm.
    destruct answer as [[]|]; [discriminate|]. cbn. auto.
Qed.

Lemma stuck_replay actions : forall p p',
  stuck p -> replay actions p = Some p' ->
  stuck p' /\ sameInputs (state p) (state p')
  /\ selectedRecipeIds (state p') = selectedRecipeIds (state p)
  /\ log (state p') = log (state p).
Proof.
  induction actions as [|a rest IH]; simpl; intros p p' Hs H.
  - injection H as <-. unfold sameInputs. auto 10.
  - destruct (perform a p) as [q|] eqn:E; [|discriminate].
    destruct (stuck_step _ _ _ Hs E) as (Hq & (Hi & Hpr & Hg) & Hsel & Hlog).
    destruct (IH _ _ Hq H) as (Hs' & (Hi' & Hpr' & Hg') & Hsel' & Hlog').
    split; [exact Hs'|]. unfold sameInputs. repeat split; congruence.
Qed.

(** X9.  Once a call has failed, whatever is done next, the page keeps
    showing the spinner, and ingredients, preferences, batch, selection
    and the log of requests stay as the failure left them. *)
Theorem failed_call_freezes_the_wizard :
  forall p a p1 actions p2,
    reachable p ->
    failed a = true ->
    perform a p = Some p1 ->
    replay actions p1 = Some p2 ->
    isLoading (state p2) = true
    /\ sameInputs (state p1) (state p2)
    /\ selectedRecipeIds (state p2) = selectedRecipeIds (state p1)
    /\ log (state p2) = log (state p1).
Proof.
  intros p a p1 actions p2 Hr Hf Hstep Hreplay.
  pose proof (failure_leaves_stuck _ _ _ Hr Hf Hstep) as Hs.
  destruct (stuck_replay _ _ _ Hs Hreplay) as ([Hload _] & H1 & H2 & H3).
  auto.
Qed.

(** After a rejected generation, Prev and Next still move the step, and
    the page keeps the spinner. *)
Lemma failed_call_freezes_the_wizard_witness :
  reachable MoreSamples.waiting
  /\ perform (GenerationSettles 0 Eff.Rejected) MoreSamples.waiting
     = Some MoreSamples.afterFailure
  /\ exists p2,
       replay [ClickPrev; ClickNext] MoreSamples.afterFailure = Some p2
       /\ isLoading (state p2) = true
       /\ log (state p2) = log (state MoreSamples.afterFailure).
Proof.
  pose proof waiting_reachable as Hr.
  assert (Hf : failed (GenerationSettles 0 Eff.Rejected) = true)
    by reflexivity.
  assert (Hs : perform (GenerationSettles 0 Eff.Rejected) MoreSamples.waiting
               = Some MoreSamples.afterFailure) by reflexivity.
  split; [exact Hr|]. split; [exact Hs|].
  destruct (replay [ClickPrev; ClickNext] MoreSamples.afterFailure)
    as [p2|] eqn:E; [|discriminate].
  exists p2. split; [reflexivity|].
  destruct (failed_call_freezes_the_wizard _ _ _ _ _ Hr Hf Hs E)
    as (H1 & _ & _ & H4).
  split; assumption.
Defined.

(** X10.  On every reachable page the step is one of the five, and a
    batch or a pending call exists only over at least three
    ingredients. *)
Theorem batch_needs_three_ingredients :
  forall p, reachable p ->
    0 <= step (state p) <= 4
    /\ (generatedRecipes (state p) <> [] \/ pending p <> [] ->
        (3 <= List.length (ingredients (state p)))%nat).
Proof.
  intros p Hr.
  destruct (reachable_invariants p Hr) as [(Hs & Hb & _ & Hpl & _) _].
  split; [assumption|]. intros [H|H]; [auto|]. now destruct (Hpl H).
Qed.

(** The page awaiting its batch holds the three ingredients. *)
Lemma batch_needs_three_ingredients_witness :
  reachable MoreSamples.waiting
  /\ 0 <= step (state MoreSamples.waiting) <= 4
  /\ (3 <= List.length (ingredients (state MoreSamples.waiting)))%nat.
Proof.
  pose proof waiting_reachable as Hr.
  destruct (batch_needs_three_ingredients _ Hr) as [Hs Hb].
  split; [exact Hr|]. split; [exact Hs|].
  apply Hb. right. discriminate.
Defined.


Lemma handleChange_names val uuid s :
  NoDup (ingredientNames s) ->
  NoDup (ingredientNames (Eff.exec (handleChange val uuid) s)).
Proof.
  intros H. unfold handleChange, Eff.exec, Eff.bind, Eff.get. cbn.
  destruct val as [val|]; cbn; [|assumption].
  destruct (JS.truthy val); cbn; [|assumption].
  destruct (JS.some _ _) eqn:E; cbn; [assumption|].
  unfold ingredientNames. cbn. rewrite map_app. cbn.
  apply NoDup_snoc; [assumption|]. intros Hin.
  apply in_map_iff in Hin as (i & Hi & Hin).
  unfold JS.some in E.
  assert (existsb (fun i => String.eqb (ingredient_name i) val)
                  (ingredients s) = true).
  { apply existsb_exists. exists i. split; [assumption|].
    now apply String.eqb_eq. }
  congruence.
Qed.

Lemma deleteIngredient_names id s :
  NoDup (ingredientNames s) ->
  NoDup (ingredientNames (Eff.exec (deleteIngredient id) s)).
Proof.
  intros H. unfold deleteIngredient, Eff.exec, Eff.bind, Eff.get. cbn.
  destruct (JS.nonEmpty _); cbn; [assumption|].
  unfold ingredientNames. cbn. now apply NoDup_map_filter.
Qed.

Lemma perform_names a p p' :
  NoDup (ingredientNames (state p)) -> perform a p = Some p' ->
  NoDup (ingredientNames (state p')).
Proof.
  intros Hn Hstep. unfold perform in Hstep.
  destruct (reachedLimit p); [discriminate|].
  destruct a.
  - destruct (prevDisabled (state p)); [discriminate|].
    now injection Hstep as <-.
  - destruct (nextDisabled (state p)); [discriminate|].
    now injection Hstep as <-.
  - enabled_in Hstep. injection Hstep as <-. now apply handleChange_names.
  - enabled_in Hstep. injection Hstep as <-.
    now apply deleteIngredient_names.
  - enabled_in Hstep. now injection Hstep as <-.
  - enabled_in Hstep. now injection Hstep as <-.
  - enabled_in Hstep. now injection Hstep as <-.
  - enabled_in Hstep. now injection Hstep as <-.
  - enabled_in Hstep. injection Hstep as <-.
    unfold run, handleRecipeSelection, Eff.exec, Eff.bind, Eff.get.
    cbn [state]. now destruct (JS.arrayIncludes _ _).
  - enabled_in Hstep. now injection Hstep as <-.
  - enabled_in Hstep. now injection Hstep as <-.
  - enabled_in Hstep. now injection Hstep as <-.
  - destruct (nth_error (pending p) i) as [[step0|]|]; try discriminate.
    injection Hstep as <-. unfold settle. cbn [state].
    destruct answer as [response|]; [|assumption].
    unfold settleGeneration, afterGeneration, Eff.exec, Eff.bind,
      Eff.tryCatch. cbn.
    now destruct (resp_parsed response).
  - destruct (nth_error (pending p) i) as [[step0|]|]; try discriminate.
    injection Hstep as <-. unfold settle. cbn [state].
    destruct answer as [[]|]; [constructor|assumption].
Qed.

(** X11.  If the names the page is mounted with are distinct, the names
    of the chosen ingredients stay distinct whatever is done. *)
Theorem ingredient_names_stay_distinct :
  forall limit oldIngredients actions p,
    NoDup (match oldIngredients with
           | Some l => map fst l
           | None => []
           end) ->
    replay actions (mount limit oldIngredients) = Some p ->
    NoDup (ingredientNames (state p)).
Proof.
  intros limit old actions p Hn.
  assert (H0 : NoDup (ingredientNames (state (mount limit old)))).
  { unfold ingredientNames. cbn. destruct old as [l|]; [|constructor].
    rewrite map_map. cbn. exact Hn. }
  revert H0. generalize (mount limit old). clear Hn.
  induction actions as [|a rest IH]; simpl; intros q Hq H.
  - now injection H as <-.
  - destruct (perform a q) as [q'|] eqn:E; [|discriminate].
    eapply IH; [|exact H]. eapply perform_names; eauto.
Qed.

(** Choosing an ingredient of the list a second time adds nothing. *)
Lemma ingredient_names_stay_distinct_witness :
  exists p,
    replay [ClickNext; ClickPrev; DeleteChip "id-2"]
           (mount false (Some Samples.threePicks)) = Some p
    /\ ingredientNames (state p) = ["Egg"; "Milk"]%string
    /\ NoDup (ingredientNames (state p)).
Proof.
  assert (Hn : NoDup (map fst Samples.threePicks)).
  { repeat constructor; simpl; intuition discriminate. }
  destruct (replay [ClickNext; ClickPrev; DeleteChip "id-2"]
                   (mount false (Some Samples.threePicks)))
    as [p|] eqn:E; [|discriminate].
  exists p. split; [reflexivity|].
  split; [injection E as <-; reflexivity|].
  exact (ingredient_names_stay_distinct false (Some Samples.threePicks)
           _ _ Hn E).
Defined.

End WizardMore.

(* ===================================================================== *)
(** ** The new-ingredient dialog: spinner and catalog *)
(* ===================================================================== *)

Module DialogMore.
Import Types NewIngredientDialog.

Section Submit.
Variables pluralize singular : string -> string.

(** X12.  [handleSubmit] never leaves the spinner on: started without
    the spinner, the dialog is without it afterwards, whether no request
    was made, the call succeeded, its answer was an error or the call was
    rejected. *)
Theorem handleSubmit_releases_the_spinner :
  forall (d : Dialog) (answer : Eff.Settled Response),
    isLoading d = false ->
    isLoading (Eff.exec (handleSubmit pluralize singular answer) d) = false.
Proof.
  intros d answer Hl.
  destruct (JS.truthy (JS.trim (ingredientName d))) eqn:H1.
  2:{ unfold handleSubmit, Eff.exec, Eff.bind, Eff.get. now rewrite H1. }
  destruct (20 <? String.length (JS.trim (ingredientName d)))%nat eqn:H2.
  { unfold handleSubmit, Eff.exec, Eff.bind, Eff.get. now rewrite H1, H2. }
  destruct (isAvailable pluralize singular (ingredientName d)
                        (ingredientList d)) eqn:H3.
  { unfold handleSubmit, Eff.exec, Eff.bind, Eff.get. now rewrite H1, H2, H3. }
  now destruct (DialogProps.handleSubmit_passed pluralize singular d answer
                  H1 H2 H3).
Qed.

(** X13.  [handleSubmit] changes the catalog of the dialog in one way
    only: it appends the ingredient of an answer that carries no error,
    the message Success and a new ingredient, and then it clears the
    input and names the ingredient in its message.  After a rejected
    call the input is as typed. *)
Theorem catalog_grows_only_on_success :
  forall (d : Dialog) (answer : Eff.Settled Response),
    let d' := Eff.exec (handleSubmit pluralize singular answer) d in
    (ingredientList d' = ingredientList d
     \/ exists response newIngredient,
         answer = Eff.Resolved response
         /\ optTruthy (resp_error response) = false
         /\ optEq (resp_message response) "Success" = true
         /\ resp_newIngredient response = Some newIngredient
         /\ ingredientList d' = ingredientList d ++ [newIngredient]
         /\ ingredientName d' = ""
         /\ message d'
            = ("Successfully added: " ++ doc_name newIngredient)%string)
    /\ ingredientName
         (Eff.exec (handleSubmit pluralize singular Eff.Rejected) d)
       = ingredientName d.
Proof.
  intros d answer d'. subst d'.
  unfold handleSubmit, Eff.exec, Eff.bind, Eff.get.
  destruct (JS.truthy (JS.trim (ingredientName d))); [|now split; [left|]].
  destruct (20 <? String.length (JS.trim (ingredientName d)))%nat;
    [now split; [left|]|].
  destruct (isAvailable pluralize singular (ingredientName d)
                        (ingredientList d)); [now split; [left|]|].
  split; [|reflexivity].
  cbn. destruct answer as [response|]; cbn; [|now left].
  destruct (optTruthy (resp_error response)) eqn:He; cbn; [now left|].
  destruct (optEq (resp_message response) "Success") eqn:Hs; cbn.
  { destruct (resp_newIngredient response) as [ni|] eqn:Hn; cbn; [|now left].
    right. exists response, ni. repeat split; auto. }
  destruct (optEq (resp_message response) "Invalid"); cbn; [|now left].
  destruct (resp_suggested response); cbn; now left.
Qed.

End Submit.

(** A rejected call for ["basil"]: the request was made and the spinner
    is off. *)
Lemma handleSubmit_releases_the_spinner_witness :
  isLoading (Samples.dialogWith "basil") = false
  /\ requests (Eff.exec (handleSubmit Samples.pluralizeSample
                                      Samples.singularSample Eff.Rejected)
                        (Samples.dialogWith "basil")) <> []
  /\ isLoading (Eff.exec (handleSubmit Samples.pluralizeSample
                                       Samples.singularSample Eff.Rejected)
                         (Samples.dialogWith "basil")) = false.
Proof.
  assert (H : isLoading (Samples.dialogWith "basil") = false)
    by reflexivity.
  split; [exact H|]. split; [discriminate|].
  exact (handleSubmit_releases_the_spinner
           Samples.pluralizeSample Samples.singularSample
           (Samples.dialogWith "basil") Eff.Rejected H).
Defined.

End DialogMore.

(* ===================================================================== *)
(** ** The profile page and the ingredient combobox *)
(* ===================================================================== *)

Module ProfileProps.
Import Types Utils MoreSpec.

Lemma fold_left_likes_acc (l : list ExtendedRecipe) (acc : nat) :
  fold_left (fun total r => (total + List.length (likedBy r))%nat) l acc
  = (acc + totalLikes l)%nat.
Proof.
  unfold totalLikes. revert acc.
  induction l as [|r l IH]; intros acc; simpl; [lia|].
  rewrite IH, (IH (List.length (likedBy r))). lia.
Qed.

Lemma totalLikes_cons r l :
  totalLikes (r :: l) = (List.length (likedBy r) + totalLikes l)%nat.
Proof. unfold totalLikes at 1. simpl. now rewrite fold_left_likes_acc. Qed.

Lemma totalLikes_liked_only l :
  totalLikes (filter (fun r => (0 <? List.length (likedBy r))%nat) l)
  = totalLikes l.
Proof.
  induction l as [|r l IH]; [reflexivity|]. simpl.
  destruct (Nat.ltb_spec 0 (List.length (likedBy r))).
  - now rewrite !totalLikes_cons, IH.
  - rewrite totalLikes_cons, IH. lia.
Qed.

Lemma totalLikes_zero l :
  totalLikes l = 0%nat
  <-> filter (fun r => (0 <? List.length (likedBy r))%nat) l = [].
Proof.
  induction l as [|r l IH]; [now split|].
  rewrite totalLikes_cons. simpl.
  destruct (Nat.ltb_spec 0 (List.length (likedBy r))).
  - split; [lia|discriminate].
  - rewrite <- IH. lia.
Qed.

Lemma filter_filter {A} (f g : A -> bool) l :
  filter g (filter f l) = filter (fun x => f x && g x) l.
Proof.
  induction l as [|x l IH]; [reflexivity|]. simpl.
  destruct (f x); simpl; [destruct (g x)|]; now rewrite IH.
Qed.

Lemma votes_view l :
  Profile.handleDisplaySetting l "votes received"
  = filter (fun r => (0 <? List.length (likedBy r))%nat)
           (Profile.ownedRecipes l).
Proof.
  unfold Profile.handleDisplaySetting, Profile.ownedRecipes. cbn.
  now rewrite filter_filter.
Qed.

(** X15.  The figure Votes Received of the profile page is the number of
    likes on the recipes its view Votes Received lists; these recipes
    are among the created ones, and the figure is zero exactly when the
    view is empty. *)
Theorem votes_figure_matches_votes_view :
  forall (recipes : list ExtendedRecipe),
    incl (Profile.handleDisplaySetting recipes "votes received")
         (Profile.handleDisplaySetting recipes "created")
    /\ Profile.votesReceived recipes
       = totalLikes (Profile.handleDisplaySetting recipes "votes received")
    /\ (Profile.votesReceived recipes = 0%nat
        <-> Profile.handleDisplaySetting recipes "votes received" = []).
Proof.
  intros recipes. rewrite votes_view.
  change (Profile.votesReceived recipes)
    with (totalLikes (Profile.ownedRecipes recipes)).
  split; [|split].
  - intros r H. now apply filter_In in H as [H _].
  - now rewrite totalLikes_liked_only.
  - apply totalLikes_zero.
Qed.

(** X16.  If every record the profile route finds is owned or liked by
    the user, as its query asks, every recipe the route answers with is
    shown in the view Created or in the view Favorites. *)
Theorem profile_records_are_created_or_favorites :
  forall (records : list ExtendedRecipe) (userId : string),
    (forall r, In r records ->
               user_id (owner r) = userId
               \/ In userId (map user_id (likedBy r))) ->
    forall r', In r' (filterResults records userId) ->
      In r' (Profile.handleDisplaySetting (filterResults records userId)
                                          "created")
      \/ In r' (Profile.handleDisplaySetting (filterResults records userId)
                                             "favorites").
Proof.
  intros records userId Hq r' Hin.
  pose proof Hin as Hin'. unfold filterResults in Hin'.
  apply in_map_iff in Hin' as (r & <- & Hr).
  unfold Profile.handleDisplaySetting. cbn [String.eqb Ascii.eqb Bool.eqb].
  cbn.
  destruct (Hq r Hr) as [Ho|Hl].
  - left. apply filter_In. split; [exact Hin|]. cbn. rewrite Ho.
    apply String.eqb_refl.
  - right. apply filter_In. split; [exact Hin|]. cbn. unfold JS.some.
    apply existsb_exists. apply in_map_iff in Hl as (u & Hu & Hin2).
    exists u. split; [assumption|]. rewrite Hu. apply String.eqb_refl.
Qed.

(** Ann owns the soup and likes the edited salad: the salad is among her
    favorites. *)
Lemma profile_records_are_created_or_favorites_witness :
  Profile.handleDisplaySetting
    (filterResults [Samples.soup; Samples.salad'] "u1") "created"
  = filterResults [Samples.soup] "u1"
  /\ (In (hd Samples.pie (filterResults [Samples.salad'] "u1"))
         (Profile.handleDisplaySetting
            (filterResults [Samples.soup; Samples.salad'] "u1") "created")
      \/ In (hd Samples.pie (filterResults [Samples.salad'] "u1"))
            (Profile.handleDisplaySetting
               (filterResults [Samples.soup; Samples.salad'] "u1")
               "favorites")).
Proof.
  assert (Hq : forall r, In r [Samples.soup; Samples.salad'] ->
                 user_id (owner r) = "u1"
                 \/ In "u1" (map user_id (likedBy r))).
  { intros r [<-|[<-|[]]]; [left; reflexivity|right; left; reflexivity]. }
  split; [reflexivity|].
  apply (profile_records_are_created_or_favorites
           [Samples.soup; Samples.salad'] "u1" Hq).
  right; left; reflexivity.
Defined.

End ProfileProps.

Module IngredientListProps.
Import Types.

(** X14.  The combobox of the ingredient step ignores the letter case of
    what is typed: two queries that differ only in case list the same
    ingredients. *)
Theorem filteredIngredients_ignores_case :
  forall (ingredientList : list IngredientDocumentType) (q q' : string),
    JS.toLowerCase q = JS.toLowerCase q' ->
    IngredientList.filteredIngredients ingredientList q
    = IngredientList.filteredIngredients ingredientList q'.
Proof.
  intros l q q' H. unfold IngredientList.filteredIngredients.
  destruct q as [|c q]; destruct q' as [|c' q'']; try discriminate H;
    [reflexivity|].
  cbn [String.eqb]. now rewrite H.
Qed.

(** ["TOM"] and ["tom"] both list the tomato. *)
Lemma filteredIngredients_ignores_case_witness :
  JS.toLowerCase "TOM" = JS.toLowerCase "tom"
  /\ IngredientList.filteredIngredients [Samples.tomato] "tom"
     = [Samples.tomato]
  /\ IngredientList.filteredIngredients [Samples.tomato] "TOM"
     = IngredientList.filteredIngredients [Samples.tomato] "tom".
Proof.
  assert (H : JS.toLowerCase "TOM" = JS.toLowerCase "tom") by reflexivity.
  split; [exact H|]. split; [reflexivity|].
  exact (filteredIngredients_ignores_case [Samples.tomato] "TOM" "tom" H).
Defined.

End IngredientListProps.

(* ===================================================================== *)
(** ** The recipe cards: deleting and liking *)
(* ===================================================================== *)

Module RecipeDisplayProps.
Import Types Utils Spec MoreSpec RecipeDisplay.

Lemma delete_present_once l id :
  occurrences id l = 1%nat ->
  updateRecipeList l None (Some id) = removeById id l.
Proof.
  intros H.
  destruct (UtilsProps.findIndex_unique _ _ H)
    as (pre & x & post & -> & Hx & Hpre & Hpost & Hidx).
  unfold updateRecipeList. rewrite Hidx.
  rewrite JSFacts.slice_prefix, JSFacts.slice_suffix.
  symmetry. now apply UtilsProps.removeById_split.
Qed.

Lemma replace_present_once l updated :
  occurrences (_id updated) l = 1%nat ->
  updateRecipeList l (Some updated) None = replaceById updated l.
Proof.
  intros H.
  destruct (UtilsProps.findIndex_unique _ _ H)
    as (pre & x & post & -> & Hx & Hpre & Hpost & Hidx).
  unfold updateRecipeList. rewrite Hidx.
  rewrite JSFacts.slice_prefix, JSFacts.slice_suffix.
  symmetry. now apply UtilsProps.replaceById_split.
Qed.

Lemma handleDeleteRecipe_sends v r answer :
  openDialog v = Some r ->
  openDialog (Eff.exec (handleDeleteRecipe answer) v) = None
  /\ sent (Eff.exec (handleDeleteRecipe answer) v)
     = sent v ++ [("/api/delete-recipe", "delete", _id r)].
Proof.
  intros Hopen. unfold handleDeleteRecipe, Eff.exec, Eff.bind, Eff.get.
  rewrite Hopen. destruct answer as [response|]; cbn; [|now split].
  destruct (optTruthy (del_error response)); cbn; [now split|].
  destruct (optTruthy (del_message response)); now split.
Qed.

Lemma handleDeleteRecipe_confirmed v r answer :
  openDialog v = Some r ->
  confirmed answer = true ->
  deleteId (Eff.exec (handleDeleteRecipe answer) v) = _id r
  /\ latestRecipes (Eff.exec (handleDeleteRecipe answer) v)
     = updateRecipeList (latestRecipes v) None (Some (_id r)).
Proof.
  intros Hopen. unfold handleDeleteRecipe, Eff.exec, Eff.bind, Eff.get.
  rewrite Hopen. destruct answer as [response|]; [|discriminate].
  cbn. intros H. apply andb_true_iff in H as [He Hm].
  apply negb_true_iff in He. rewrite He, Hm. cbn. auto.
Qed.

Lemma handleDeleteRecipe_refused v r answer :
  openDialog v = Some r ->
  refused answer = true ->
  deleteId (Eff.exec (handleDeleteRecipe answer) v) = ""
  /\ latestRecipes (Eff.exec (handleDeleteRecipe answer) v)
     = latestRecipes v.
Proof.
  intros Hopen. unfold handleDeleteRecipe, Eff.exec, Eff.bind, Eff.get.
  rewrite Hopen. destruct answer as [response|]; cbn; [|auto].
  intros ->. cbn. auto.
Qed.

(** X17.  [handleDeleteRecipe] on the recipe of the open dialog closes
    the dialog and sends one delete request for its id.  An answer with
    a message and no error leaves the card marked and updates the list
    for that id, which removes the recipe when the list holds it once; a
    rejected call or an answer with an error leaves the list as it was
    and unmarks the card. *)
Theorem handleDeleteRecipe_outcomes :
  forall (v : View) (r : ExtendedRecipe)
         (answer : Eff.Settled DeleteResponse),
    openDialog v = Some r ->
    let v' := Eff.exec (handleDeleteRecipe answer) v in
    openDialog v' = None
    /\ sent v' = sent v ++ [("/api/delete-recipe", "delete", _id r)]
    /\ (confirmed answer = true ->
        deleteId v' = _id r
        /\ latestRecipes v'
           = updateRecipeList (latestRecipes v) None (Some (_id r)))
    /\ (confirmed answer = true ->
        occurrences (_id r) (latestRecipes v) = 1%nat ->
        latestRecipes v' = removeById (_id r) (latestRecipes v))
    /\ (refused answer = true ->
        deleteId v' = "" /\ latestRecipes v' = latestRecipes v).
Proof.
  intros v r answer Hopen. cbv zeta.
  destruct (handleDeleteRecipe_sends v r answer Hopen) as [H1 H2].
  split; [exact H1|]. split; [exact H2|]. split; [|split].
  - exact (handleDeleteRecipe_confirmed v r answer Hopen).
  - intros H Hone.
    destruct (handleDeleteRecipe_confirmed v r answer Hopen H) as [_ ->].
    now apply delete_present_once.
  - exact (handleDeleteRecipe_refused v r answer Hopen).
Qed.

(** The salad of the dialog is deleted: the page lists the soup and the
    stew. *)
Lemma handleDeleteRecipe_outcomes_witness :
  openDialog (MoreSamples.viewing (Some Samples.salad)) = Some Samples.salad
  /\ confirmed MoreSamples.deleted = true
  /\ occurrences "r2" (latestRecipes (MoreSamples.viewing (Some Samples.salad)))
     = 1%nat
  /\ latestRecipes
       (Eff.exec (handleDeleteRecipe MoreSamples.deleted)
                 (MoreSamples.viewing (Some Samples.salad)))
     = removeById "r2" [Samples.soup; Samples.salad; Samples.stew]
  /\ removeById "r2" [Samples.soup; Samples.salad; Samples.stew]
     = [Samples.soup; Samples.stew].
Proof.
  assert (Hopen : openDialog (MoreSamples.viewing (Some Samples.salad))
                  = Some Samples.salad) by reflexivity.
  assert (Hc : confirmed MoreSamples.deleted = true) by reflexivity.
  assert (Hone : occurrences "r2"
                   (latestRecipes (MoreSamples.viewing (Some Samples.salad)))
                 = 1%nat) by reflexivity.
  destruct (handleDeleteRecipe_outcomes _ _ MoreSamples.deleted Hopen)
    as (_ & _ & _ & H & _).
  split; [exact Hopen|]. split; [exact Hc|]. split; [exact Hone|].
  split; [exact (H Hc Hone)|reflexivity].
Defined.

(** X18.  [handleRecipeLike]: when the list holds the recipe of the
    answer once, the entry of that id is replaced by the answer and the
    list keeps its length and order; a rejected call leaves the list as
    it was. *)
Theorem handleRecipeLike_outcomes :
  forall (v : View) (recipeId : string) (result : ExtendedRecipe),
    occurrences (_id result) (latestRecipes v) = 1%nat ->
    latestRecipes (Eff.exec (handleRecipeLike recipeId (Eff.Resolved result)) v)
    = replaceById result (latestRecipes v)
    /\ List.length
         (latestRecipes
            (Eff.exec (handleRecipeLike recipeId (Eff.Resolved result)) v))
       = List.length (latestRecipes v)
    /\ latestRecipes (Eff.exec (handleRecipeLike recipeId Eff.Rejected) v)
       = latestRecipes v.
Proof.
  intros v recipeId result Hone.
  assert (H : latestRecipes
                (Eff.exec (handleRecipeLike recipeId (Eff.Resolved result)) v)
              = replaceById result (latestRecipes v)).
  { cbn. now apply replace_present_once. }
  rewrite H. repeat split. unfold replaceById. apply length_map.
Qed.

(** The answer to a like of the salad takes the place of the salad. *)
Lemma handleRecipeLike_outcomes_witness :
  occurrences (_id Samples.salad') (latestRecipes (MoreSamples.viewing None))
  = 1%nat
  /\ latestRecipes
       (Eff.exec (handleRecipeLike "r2" (Eff.Resolved Samples.salad'))
                 (MoreSamples.viewing None))
     = replaceById Samples.salad' [Samples.soup; Samples.salad; Samples.stew]
  /\ replaceById Samples.salad' [Samples.soup; Samples.salad; Samples.stew]
     = [Samples.soup; Samples.salad'; Samples.stew].
Proof.
  assert (Hone : occurrences (_id Samples.salad')
                   (latestRecipes (MoreSamples.viewing None)) = 1%nat)
    by reflexivity.
  destruct (handleRecipeLike_outcomes (MoreSamples.viewing None) "r2"
              Samples.salad' Hone) as (H & _ & _).
  split; [exact Hone|]. split; [exact H|reflexivity].
Defined.

End RecipeDisplayProps.

(* ===================================================================== *)
(** ** The API routes: delete, like and validate-ingredient *)
(* ===================================================================== *)

Module ApiProps.
Import Types Utils Spec MoreSpec Api.

Lemma find_absent {A} (f : A -> bool) l :
  (forall x, In x l -> f x = false) -> find f l = None.
Proof.
  induction l as [|x l IH]; simpl; intros H; [reflexivity|].
  rewrite (H x) by now left. apply IH. intros y Hy. apply H. now right.
Qed.

Lemma removeFirst_gone id l :
  NoDup (map rd_id l) ->
  find (fun r => String.eqb (rd_id r) id) (removeFirst id l) = None.
Proof.
  induction l as [|r l IH]; simpl; intros H; [reflexivity|].
  inversion H as [|? ? Hr Hl]; subst.
  destruct (String.eqb_spec (rd_id r) id) as [E|E].
  - apply find_absent. intros x Hx. apply String.eqb_neq. intros Ex.
    apply Hr. apply in_map_iff. exists x. split; [congruence|assumption].
  - simpl. destruct (String.eqb_spec (rd_id r) id); [contradiction|]. auto.
Qed.

Lemma removeFirst_other id id' l :
  id' <> id ->
  find (fun r => String.eqb (rd_id r) id') (removeFirst id l)
  = find (fun r => String.eqb (rd_id r) id') l.
Proof.
  intros Hne. induction l as [|r l IH]; simpl; [reflexivity|].
  destruct (String.eqb_spec (rd_id r) id) as [E|E].
  - destruct (String.eqb_spec (rd_id r) id'); [congruence|reflexivity].
  - simpl. now rewrite IH.
Qed.

Lemma removeFirst_length id l r :
  find (fun r => String.eqb (rd_id r) id) l = Some r ->
  S (List.length (removeFirst id l)) = List.length l.
Proof.
  induction l as [|r0 l IH]; [discriminate|]. simpl.
  destruct (String.eqb (rd_id r0) id); [reflexivity|].
  intros H. simpl. f_equal. now apply IH.
Qed.

Lemma updateFirst_same id f l :
  (forall r, rd_id (f r) = rd_id r) ->
  find (fun r => String.eqb (rd_id r) id) (updateFirst id f l)
  = option_map f (find (fun r => String.eqb (rd_id r) id) l).
Proof.
  intros Hf. induction l as [|r l IH]; simpl; [reflexivity|].
  destruct (String.eqb (rd_id r) id) eqn:E; simpl.
  - now rewrite Hf, E.
  - now rewrite E.
Qed.

Lemma updateFirst_other id id' f l :
  (forall r, rd_id (f r) = rd_id r) ->
  id' <> id ->
  find (fun r => String.eqb (rd_id r) id') (updateFirst id f l)
  = find (fun r => String.eqb (rd_id r) id') l.
Proof.
  intros Hf Hne. induction l as [|r l IH]; simpl; [reflexivity|].
  destruct (String.eqb_spec (rd_id r) id) as [E|E]; simpl.
  - rewrite Hf. destruct (String.eqb_spec (rd_id r) id'); [congruence|].
    reflexivity.
  - now rewrite IH.
Qed.

Lemma updateFirst_map {B} (g : RecipeDocument -> B) id f l :
  (forall r, g (f r) = g r) ->
  map g (updateFirst id f l) = map g l.
Proof.
  intros Hf. induction l as [|r l IH]; simpl; [reflexivity|].
  destruct (String.eqb (rd_id r) id); simpl; [now rewrite Hf|now rewrite IH].
Qed.

Lemma likeUpdate_keeps user recipe r :
  rd_id (likeUpdate user recipe r) = rd_id r
  /\ rd_owner (likeUpdate user recipe r) = rd_owner r
  /\ rd_recipe (likeUpdate user recipe r) = rd_recipe r
  /\ rd_imgLink (likeUpdate user recipe r) = rd_imgLink r.
Proof. unfold likeUpdate. now destruct (JS.some _ _). Qed.




Section Handlers.
Variable isValid : string -> bool.

(** *** delete-recipe *)

(** The two outcomes of the route: the recipe is deleted for its owner
    and the answer is a confirmation, or nothing is changed and the call
    of the client is rejected. *)
Lemma deleteRecipe_cases (req : Request string) (db : Db) :
  exists reply db',
    deleteRecipe isValid req db = (Eff.Normal reply, db')
    /\ ((del_status reply = 200
         /\ confirmed (received (del_status reply) (del_body reply)) = true
         /\ method req = "DELETE"
         /\ isValid (body req) = true
         /\ db_connects db = true
         /\ (exists recipe,
               findRecipe (body req) db = Some recipe
               /\ session req = Some (rd_owner recipe))
         /\ db_recipes db' = removeFirst (body req) (db_recipes db)
         /\ db_ingredients db' = db_ingredients db)
        \/ (del_status reply <> 200
            /\ received (del_status reply) (del_body reply) = Eff.Rejected
            /\ db' = db
            /\ ~ (method req = "DELETE"
                  /\ isValid (body req) = true
                  /\ db_connects db = true
                  /\ exists recipe,
                       findRecipe (body req) db = Some recipe
                       /\ session req = Some (rd_owner recipe)))).
Proof.
  unfold deleteRecipe, Eff.tryCatch.
  destruct (String.eqb_spec (method req) "DELETE") as [Hm|Hm]; cbn [negb].
  2:{ eexists _, _. split; [reflexivity|]. right. cbn.
      repeat split; try discriminate. tauto. }
  destruct (session req) as [user|] eqn:Hs.
  2:{ eexists _, _. split; [reflexivity|]. right. cbn.
      repeat split; try discriminate.
      intros (_ & _ & _ & recipe & _ & H). discriminate. }
  destruct (isValid (body req)) eqn:Hv; cbn [negb].
  2:{ eexists _, _. split; [reflexivity|]. right. cbn.
      repeat split; try discriminate.
      intros (_ & H & _). discriminate. }
  unfold connectDB, findById, findByIdAndDelete, setRecipes, Eff.bind,
    Eff.get, Eff.ret, Eff.throw, Eff.modify.
  destruct (db_connects db) eqn:Hc.
  2:{ eexists _, _. split; [reflexivity|]. right. cbn.
      repeat split; try discriminate.
      intros (_ & _ & H & _). discriminate. }
  destruct (find (fun r => String.eqb (rd_id r) (body req)) (db_recipes db))
    as [recipe|] eqn:Hf.
  2:{ eexists _, _. split; [reflexivity|]. right. cbn.
      repeat split; try discriminate.
      intros (_ & _ & _ & recipe & H & _). unfold findRecipe in H.
      congruence. }
  destruct (String.eqb_spec user (rd_owner recipe)) as [Ho|Ho]; cbn [negb].
  - eexists _, _. split; [reflexivity|]. left. cbn.
    repeat split; auto.
    exists recipe. unfold findRecipe. split; congruence.
  - eexists _, _. split; [reflexivity|]. right. cbn.
    repeat split; try discriminate.
    intros (_ & _ & _ & recipe' & H & H'). unfold findRecipe in H.
    congruence.
Qed.

(** X19.  The delete route always answers, and it answers 200 exactly
    when the method is DELETE, the id is well formed, the database is
    reached and the user of the session owns the recipe of that id; with
    any other answer the database is unchanged. *)
Theorem deleteRecipe_only_by_owner :
  forall (req : Request string) (db : Db),
    exists reply db',
      deleteRecipe isValid req db = (Eff.Normal reply, db')
      /\ (del_status reply = 200
          <-> method req = "DELETE"
              /\ isValid (body req) = true
              /\ db_connects db = true
              /\ exists recipe,
                   findRecipe (body req) db = Some recipe
                   /\ session req = Some (rd_owner recipe))
      /\ (del_status reply = 200 \/ db' = db).
Proof.
  intros req db.
  destruct (deleteRecipe_cases req db) as (reply & db' & Hrun & Hcases).
  exists reply, db'. split; [exact Hrun|].
  destruct Hcases as [(H200 & _ & Hm & Hv & Hc & Hr & _)
                     |(Hne & _ & Hdb & Hnot)].
  - split; [|now left]. split; auto.
  - split; [|now right]. split; [contradiction|]. intros H. now destruct Hnot.
Qed.

(** X20.  After a delete that is answered 200 on recipes of distinct
    ids, no recipe of the id is stored, every other id finds what it
    found before, and the collection is one recipe shorter. *)
Theorem deleted_recipe_is_gone :
  forall (req : Request string) (db : Db) reply db',
    NoDup (map rd_id (db_recipes db)) ->
    deleteRecipe isValid req db = (Eff.Normal reply, db') ->
    del_status reply = 200 ->
    findRecipe (body req) db' = None
    /\ (forall id', id' <> body req ->
                    findRecipe id' db' = findRecipe id' db)
    /\ S (List.length (db_recipes db')) = List.length (db_recipes db).
Proof.
  intros req db reply db' Hnd Hrun H200.
  destruct (deleteRecipe_cases req db) as (reply0 & db0 & Hrun0 & Hcases).
  rewrite Hrun in Hrun0. injection Hrun0 as <- <-.
  destruct Hcases as [(_ & _ & _ & _ & _ & (recipe & Hf & _) & Hdb & _)
                     |(Hne & _)]; [|contradiction].
  unfold findRecipe in *. rewrite Hdb. split; [|split].
  - now apply removeFirst_gone.
  - intros id' Hne. now apply removeFirst_other.
  - now apply (removeFirst_length _ _ recipe).
Qed.

(** X29.  A delete from the card of a recipe, through the route and back:
    either the database is unchanged, the page keeps its list and the
    card is unmarked, or the user owns the recipe, the database has
    dropped it and the page has updated its list for that id. *)
Theorem delete_page_follows_database :
  forall (v : RecipeDisplay.View) (r : ExtendedRecipe)
         (user : option string) (db : Db),
    RecipeDisplay.openDialog v = Some r ->
    let answer := fst (deleteAnswer isValid user (_id r) db) in
    let db' := snd (deleteAnswer isValid user (_id r) db) in
    let v' := Eff.exec (RecipeDisplay.handleDeleteRecipe answer) v in
    (db' = db
     /\ RecipeDisplay.latestRecipes v' = RecipeDisplay.latestRecipes v
     /\ RecipeDisplay.deleteId v' = "")
    \/ (exists recipe,
           findRecipe (_id r) db = Some recipe
           /\ user = Some (rd_owner recipe)
           /\ db_recipes db' = removeFirst (_id r) (db_recipes db)
           /\ RecipeDisplay.latestRecipes v'
              = updateRecipeList (RecipeDisplay.latestRecipes v) None
                                 (Some (_id r))).
Proof.
  intros v r user db Hopen. cbv zeta. unfold deleteAnswer.
  destruct (deleteRecipe_cases
              {| method := "DELETE"; session := user; body := _id r |} db)
    as (reply & db' & Hrun & Hcases).
  rewrite Hrun. cbn [fst snd].
  destruct Hcases as [(_ & Hconf & _ & _ & _ & (recipe & Hf & Hs) & Hdb & _)
                     |(_ & Hrej & Hdb & _)].
  - right. exists recipe. cbn [body session] in *.
    destruct (RecipeDisplayProps.handleDeleteRecipe_confirmed v r _ Hopen
                Hconf) as [_ Hl].
    auto.
  - left. rewrite Hrej.
    destruct (RecipeDisplayProps.handleDeleteRecipe_refused
                v r Eff.Rejected Hopen eq_refl) as [Hd Hl].
    auto.
Qed.

(** *** like-recipe *)

Variable populate : RecipeDocument -> ExtendedRecipe.

Lemma toggleLike_run req db user recipe :
  method req = "PUT" ->
  session req = Some user ->
  isValid (body req) = true ->
  db_connects db = true ->
  findRecipe (body req) db = Some recipe ->
  toggleLike isValid populate req db
  = (Eff.Normal
       {| like_status := 200;
          like_body :=
            LikeRecipe
              (hd (populate (toggled user recipe))
                  (filterResults [populate (toggled user recipe)] user)) |},
     {| db_recipes :=
          updateFirst (body req) (likeUpdate user recipe) (db_recipes db);
        db_ingredients := db_ingredients db;
        db_connects := db_connects db |}).
Proof.
  intros Hm Hs Hv Hc Hf. unfold toggleLike, Eff.tryCatch.
  rewrite Hm, Hs, Hv. cbn [String.eqb Ascii.eqb Bool.eqb negb].
  unfold connectDB, findById, findByIdAndUpdate, findById, setRecipes,
    Eff.bind, Eff.get, Eff.ret, Eff.throw, Eff.modify.
  rewrite Hc. unfold findRecipe in Hf. rewrite Hf.
  cbn [db_recipes].
  assert (Hupd : forall f, (forall r, rd_id (f r) = rd_id r) ->
             find (fun r => String.eqb (rd_id r) (body req))
                  (updateFirst (body req) f (db_recipes db))
             = Some (f recipe)).
  { intros f Hid. now rewrite updateFirst_same, Hf. }
  unfold toggled, likeUpdate.
  destruct (JS.some (fun r => String.eqb r user) (rd_likedBy recipe)).
  - rewrite Hupd by reflexivity. unfold filterResults. cbn.
    now rewrite ?Hc.
  - rewrite Hupd by reflexivity. unfold filterResults. cbn.
    now rewrite ?Hc.
Qed.



(** X23.  Whatever the request, the like route answers, and it changes
    nothing but the likers of the recipe of the request: ingredients,
    the ids, owners and contents of the recipes in their order, and every
    other recipe are as before; without a session, with another method,
    an ill-formed id, no database or no recipe of the id, the database
    is unchanged. *)
Theorem toggleLike_touches_only_likes :
  forall (req : Request string) (db : Db),
    exists reply db',
      toggleLike isValid populate req db = (Eff.Normal reply, db')
      /\ db_ingredients db' = db_ingredients db
      /\ map rd_id (db_recipes db') = map rd_id (db_recipes db)
      /\ map rd_owner (db_recipes db') = map rd_owner (db_recipes db)
      /\ map rd_recipe (db_recipes db') = map rd_recipe (db_recipes db)
      /\ (forall id', id' <> body req ->
                      findRecipe id' db' = findRecipe id' db)
      /\ (session req = None \/ method req <> "PUT"
          \/ isValid (body req) = false \/ db_connects db = false
          \/ findRecipe (body req) db = None ->
          db' = db).
Proof.
  intros req db.
  destruct (String.eqb_spec (method req) "PUT") as [Hm|Hm].
  2:{ unfold toggleLike, Eff.tryCatch.
      destruct (String.eqb_spec (method req) "PUT"); [contradiction|].
      cbn. eexists _, _. split; [reflexivity|]. cbn.
      repeat split; auto. }
  destruct (session req) as [user|] eqn:Hs.
  2:{ unfold toggleLike, Eff.tryCatch. rewrite Hm, Hs. cbn.
      eexists _, _. split; [reflexivity|]. cbn.
      repeat split; auto. }
  destruct (isValid (body req)) eqn:Hv.
  2:{ unfold toggleLike, Eff.tryCatch. rewrite Hm, Hs, Hv. cbn.
      eexists _, _. split; [reflexivity|]. cbn.
      repeat split; auto. }
  destruct (db_connects db) eqn:Hc.
  2:{ unfold toggleLike, Eff.tryCatch. rewrite Hm, Hs, Hv. cbn.
      unfold connectDB, Eff.bind, Eff.get. rewrite Hc. cbn.
      eexists _, _. split; [reflexivity|]. cbn.
      repeat split; auto. }
  destruct (findRecipe (body req) db) as [recipe|] eqn:Hf.
  - eexists _, _.
    split; [exact (toggleLike_run req db user recipe Hm Hs Hv Hc Hf)|].
    cbn [db_recipes db_ingredients].
    assert (Hid : forall r, rd_id (likeUpdate user recipe r) = rd_id r)
      by (intros r; apply likeUpdate_keeps).
    repeat split; auto.
    + now apply updateFirst_map.
    + apply updateFirst_map. intros r. apply likeUpdate_keeps.
    + apply updateFirst_map. intros r. apply likeUpdate_keeps.
    + intros id' Hne. unfold findRecipe. cbn. now apply updateFirst_other.
    + intros [H|[H|[H|[H|H]]]]; congruence.
  - unfold toggleLike, Eff.tryCatch. rewrite Hm, Hs, Hv. cbn.
    unfold connectDB, findById, Eff.bind, Eff.get, Eff.ret. rewrite Hc.
    unfold findRecipe in Hf. rewrite Hf.
    eexists _, _. split; [reflexivity|]. cbn.
    repeat split; auto.
Qed.

End Handlers.

(** Bob deletes his salad: no recipe of its id is stored any more, and
    the soup is still found. *)
Lemma deleted_recipe_is_gone_witness :
  NoDup (map rd_id (db_recipes MoreSamples.database))
  /\ findRecipe "r2"
       (snd (deleteRecipe MoreSamples.isValidSample
               (MoreSamples.request "DELETE" (Some "u2") "r2")
               MoreSamples.database)) = None
  /\ findRecipe "r1"
       (snd (deleteRecipe MoreSamples.isValidSample
               (MoreSamples.request "DELETE" (Some "u2") "r2")
               MoreSamples.database))
     = Some (MoreSamples.stored "r1" "u1" ["u2"]).
Proof.
  assert (Hnd : NoDup (map rd_id (db_recipes MoreSamples.database))).
  { repeat constructor; simpl; intuition discriminate. }
  split; [exact Hnd|].
  destruct (deleteRecipe MoreSamples.isValidSample
              (MoreSamples.request "DELETE" (Some "u2") "r2")
              MoreSamples.database) as [[reply|] db'] eqn:Hrun;
    [|discriminate].
  assert (H200 : del_status reply = 200).
  { injection Hrun as <- _. reflexivity. }
  destruct (deleted_recipe_is_gone MoreSamples.isValidSample _ _ _ _
              Hnd Hrun H200) as (Hgone & Hother & _).
  cbn [snd]. split; [exact Hgone|].
  rewrite (Hother "r1") by discriminate. reflexivity.
Defined.

(** Bob deletes his salad from its card: the page lists the soup and the
    stew. *)
Lemma delete_page_follows_database_witness :
  RecipeDisplay.openDialog (MoreSamples.viewing (Some Samples.salad))
  = Some Samples.salad
  /\ RecipeDisplay.latestRecipes
       (Eff.exec
          (RecipeDisplay.handleDeleteRecipe
             (fst (deleteAnswer MoreSamples.isValidSample (Some "u2") "r2"
                                MoreSamples.database)))
          (MoreSamples.viewing (Some Samples.salad)))
     = [Samples.soup; Samples.stew].
Proof.
  assert (Hopen : RecipeDisplay.openDialog
                    (MoreSamples.viewing (Some Samples.salad))
                  = Some Samples.salad) by reflexivity.
  split; [exact Hopen|].
  destruct (delete_page_follows_database MoreSamples.isValidSample
              (MoreSamples.viewing (Some Samples.salad)) Samples.salad
              (Some "u2") MoreSamples.database Hopen)
    as [(Hdb & _)|(recipe & _ & _ & _ & Hl)].
  - exfalso. revert Hdb. vm_compute. discriminate.
  - exact Hl.
Defined.



End ApiProps.

(* ===================================================================== *)
(** ** The validate-ingredient route and the dialog *)
(* ===================================================================== *)

Module ValidateProps.
Import Types Utils Spec MoreSpec Api.

Lemma findOne_none n l :
  find (fun i => String.eqb (doc_name i) n) l = None ->
  ~ In n (map doc_name l).
Proof.
  intros H Hin. apply in_map_iff in Hin as (i & E & Hi).
  pose proof (find_none _ _ H i Hi) as Hf. cbn in Hf.
  rewrite E, String.eqb_refl in Hf. discriminate.
Qed.

(** The route always answers, never touches the recipes, and either
    leaves the catalog as it was and sends no ingredient, or has been
    asked by a signed-in user for a name found valid whose formatted form
    was not in the catalog, has appended it and answers Success with
    it. *)
Lemma validateIngredientHandler_cases
      (validation : Validation) (newId now : string)
      (req : Request (option string)) (db : Db) :
  exists reply db',
    validateIngredientHandler validation newId now req db
    = (Eff.Normal reply, db')
    /\ db_recipes db' = db_recipes db
    /\ (db_ingredients db' = db_ingredients db
        /\ NewIngredientDialog.resp_newIngredient (val_body reply) = None
        \/ exists ingredientName formatted userId variations,
            body req = Some ingredientName
            /\ session req = Some userId
            /\ validation = Parsed true variations
            /\ formatIngredientName ingredientName = Some formatted
            /\ ~ In formatted (catalogNames db)
            /\ db_ingredients db'
               = db_ingredients db
                   ++ [{| doc_id := newId; doc_name := formatted;
                          createdBy := Some userId;
                          doc_createdAt := now |}]
            /\ val_status reply = 200
            /\ val_body reply
               = validateBody (Some "Success") None
                   (Some {| doc_id := newId; doc_name := formatted;
                            createdBy := Some userId;
                            doc_createdAt := now |}) None).
Proof.
  unfold validateIngredientHandler, Eff.tryCatch.
  destruct (String.eqb (method req) "POST"); cbn [negb].
  2:{ eexists _, _. split; [reflexivity|]. cbn. auto. }
  destruct (session req) as [userId|].
  2:{ eexists _, _. split; [reflexivity|]. cbn. auto. }
  destruct (body req) as [ingredientName|].
  2:{ eexists _, _. split; [reflexivity|]. cbn. auto. }
  destruct (JS.truthy ingredientName); cbn [negb].
  2:{ eexists _, _. split; [reflexivity|]. cbn. auto. }
  destruct validation as [| | | |isValid variations];
    try (eexists _, _; split; [reflexivity|]; cbn; now auto).
  destruct (formatIngredientName ingredientName) as [formatted|] eqn:Hfmt.
  2:{ eexists _, _. split; [reflexivity|]. cbn. auto. }
  unfold findOneByName, createIngredient, setIngredients, Eff.bind, Eff.get,
    Eff.ret, Eff.modify.
  destruct isValid.
  2:{ eexists _, _. split; [reflexivity|]. cbn. auto. }
  destruct (find (fun i => String.eqb (doc_name i) formatted)
                 (db_ingredients db)) eqn:Hfind.
  { eexists _, _. split; [reflexivity|]. cbn. auto. }
  apply findOne_none in Hfind.
  eexists _, _. split; [reflexivity|]. cbn.
  split; [reflexivity|].
  right. exists ingredientName, formatted, userId, variations.
  repeat split; auto.
Qed.

(** X24.  Whatever the request and the verdict of the validation, the
    route answers and leaves the recipes alone; the catalog keeps its
    names or gets one name more, which was not in it and is the name of
    the ingredient sent back; names that were distinct stay distinct. *)
Theorem validateIngredient_keeps_names_unique :
  forall (validation : Validation) (newId now : string)
         (req : Request (option string)) (db : Db),
    exists reply db',
      validateIngredientHandler validation newId now req db
      = (Eff.Normal reply, db')
      /\ db_recipes db' = db_recipes db
      /\ (catalogNames db' = catalogNames db
          \/ exists formatted,
               catalogNames db' = catalogNames db ++ [formatted]
               /\ ~ In formatted (catalogNames db)
               /\ option_map doc_name
                    (NewIngredientDialog.resp_newIngredient (val_body reply))
                  = Some formatted)
      /\ (NoDup (catalogNames db) -> NoDup (catalogNames db')).
Proof.
  intros validation newId now req db.
  destruct (validateIngredientHandler_cases validation newId now req db)
    as (reply & db' & Hrun & Hrec & Hcases).
  exists reply, db'. split; [exact Hrun|]. split; [exact Hrec|].
  unfold catalogNames.
  destruct Hcases as [[Hsame _]
                     |(n & formatted & u & vs & _ & _ & _ & _ & Hnew & Hdb
                       & _ & Hbody)].
  - rewrite Hsame. split; [now left|auto].
  - rewrite Hdb, Hbody, map_app. cbn. split.
    + right. exists formatted. auto.
    + intros Hnd. apply NoDup_app; [assumption|repeat constructor; auto|].
      intros x Hx [<-|[]]. contradiction.
Qed.



Section RoundTrip.
Variables pluralize singular : string -> string.



End RoundTrip.


(** The route does not trim: [" basil"] is stored with its blank, the
    dialog compares the trimmed candidate, and a second submission is
    sent. *)
Example untrimmed_candidate_is_sent_again :
  catalogNames
    (snd (validationAnswer (Parsed true None) "i2" "2024-02-02" "u1"
                           " basil" MoreSamples.database))
  = ["Tomato"; " basil"]
  /\ NewIngredientDialog.requests
       (Eff.exec
          (NewIngredientDialog.handleSubmit
             Samples.pluralizeSample Samples.singularSample Eff.Rejected)
          (withCandidate " basil"
             (Eff.exec
                (NewIngredientDialog.handleSubmit
                   Samples.pluralizeSample Samples.singularSample
                   (fst (validationAnswer (Parsed true None) "i2"
                           "2024-02-02" "u1" " basil"
                           MoreSamples.database)))
                (withCandidate " basil" (Samples.dialogWith "")))))
     = [("/api/validate-ingredient", " basil");
        ("/api/validate-ingredient", " basil")].
Proof. split; reflexivity. Qed.

End ValidateProps.

(* ===================================================================== *)
(** ** The save-recipes route *)
(* ===================================================================== *)

Module SaveHandlerProps.
Import Types Utils Spec MoreSpec Api SaveHandler.

Section Save.
Variable imageFor : nat -> Eff.Settled (option string).
Variable s3Configured : bool.
Variable fetched : nat -> bool.
Variable newId : nat -> string.



Lemma allImages_rejected recipes : forall idx db j,
  (idx <= j < idx + List.length recipes)%nat ->
  imageFor j = Eff.Rejected ->
  allImages imageFor idx recipes db = (Eff.Thrown, db).
Proof.
  induction recipes as [|r rest IH]; intros idx db j Hj Hrej;
    [simpl in Hj; lia|].
  cbn [allImages]. unfold Eff.bind, Eff.await.
  destruct (Nat.eq_dec j idx) as [->|Hne].
  - rewrite Hrej. reflexivity.
  - destruct (imageFor idx) as [url|]; cbn; [|reflexivity].
    rewrite (IH (S idx) db j); [reflexivity| |assumption].
    simpl in Hj. lia.
Qed.




(** X27.  If the image of one recipe of the request cannot be generated,
    the save route answers 500 and stores none of the recipes, also not
    those whose image was generated. *)
Theorem one_failed_image_fails_the_batch :
  forall (req : Request (option (list Recipe))) (db : Db)
         (userId : string) (recipes : list Recipe) (j : nat),
    method req = "POST" ->
    session req = Some userId ->
    body req = Some recipes ->
    (j < List.length recipes)%nat ->
    imageFor j = Eff.Rejected ->
    handler imageFor s3Configured fetched newId req db
    = (Eff.Normal (reply 500 (Some "Failed to save recipes")), db).
Proof.
  intros req db userId recipes j Hm Hs Hb Hj Hrej.
  unfold handler, Eff.tryCatch. rewrite Hm, Hs, Hb.
  cbn [String.eqb Ascii.eqb Bool.eqb negb].
  unfold generateImages, Eff.bind.
  rewrite (allImages_rejected recipes 0 db j); [reflexivity|lia|assumption].
Qed.






End Save.

(** The image of the second of two recipes fails: nothing is stored. *)
Lemma one_failed_image_fails_the_batch_witness :
  MoreSamples.secondImageFails 1 = Eff.Rejected
  /\ handler MoreSamples.secondImageFails true MoreSamples.firstFetched
       MoreSamples.idOf
       (MoreSamples.request "POST" (Some "u1") (Some MoreSamples.twoTagged))
       MoreSamples.database
     = (Eff.Normal (reply 500 (Some "Failed to save recipes")),
        MoreSamples.database).
Proof.
  assert (Hrej : MoreSamples.secondImageFails 1 = Eff.Rejected)
    by reflexivity.
  split; [exact Hrej|].
  apply (one_failed_image_fails_the_batch MoreSamples.secondImageFails true
           MoreSamples.firstFetched MoreSamples.idOf
           (MoreSamples.request "POST" (Some "u1")
                                (Some MoreSamples.twoTagged))
           MoreSamples.database "u1" MoreSamples.twoTagged 1);
    [reflexivity|reflexivity|reflexivity|simpl; lia|exact Hrej].
Defined.


End SaveHandlerProps.
